(** * hydra-x: risk engine, execution engine and detectors

    A shallow embedding of the trading core:

    - [modules/risk.py]              ([Module Risk])
    - [modules/execution.py]         ([Module Execution], [OrderExecutor],
                                      [StateManager], [FirstRunSafetyTrade],
                                      [GracefulShutdown])
    - [modules/support_resistance.py] ([Module SupportResistance],
                                      [SupportResistanceQueries])
    - [modules/breakout.py]          ([Module Breakout])
    - [modules/price_action.py]      ([Module PriceAction])
    - [modules/sweep.py]             ([Module Sweep])
    - [modules/trend.py]             ([Module Trend])
    - [modules/signal_generator.py]  ([Module SignalGenerator])

    Numbers.  Python [float] values are embedded as exact rationals [Q];
    every arithmetic step of the source is kept (including the explicit
    [round(x, 8)]), but the rounding error of binary64 arithmetic itself is
    outside the model.  Equality of numbers is [Qeq] ([==]).  Python [int]
    counters are [Z].

    Errors.  A Python call either returns or raises; this is the type
    [result].  A division whose divisor is zero raises [ZeroDivisionError]
    ([pydiv]).

    State.  Objects are records; a method takes the record (and the part of
    the outside world it touches) and returns the new ones. *)

From Stdlib Require Import QArith Qabs Qminmax Qround Lqa Lia ZArith.
From Stdlib Require Import Bool String List.
Import ListNotations.

Set Warnings "-register-all".

Open Scope Q_scope.

(* ================================================================= *)
(** ** Python values and built-ins *)

Module Py.

(** The exception classes that occur in the modelled code.  All of them
    derive from [Exception] except the last two, which derive from
    [BaseException] only. *)
Inductive exn : Type :=
| ZeroDivisionError
| KeyError (key : string)
| TypeError
| ValueError
| AttributeError
| OSError
| IndexError
| JSONDecodeError
| ExchangeError (msg : string)
| CancelledError
| KeyboardInterrupt.

(** [isinstance(e, Exception)] *)
Definition is_Exception (e : exn) : bool :=
  match e with
  | CancelledError | KeyboardInterrupt => false
  | _ => true
  end.

Inductive result (A : Type) : Type :=
| Ok (a : A)
| Raise (e : exn).

Arguments Ok {A} a.
Arguments Raise {A} e.

Definition bind {A B : Type} (c : result A) (k : A -> result B) : result B :=
  match c with
  | Ok a => k a
  | Raise e => Raise e
  end.

(** [try: body  except <classes>: handler]; [catches] tells which
    exceptions the [except] clause names.  A bare [except:] catches all. *)
Definition try_except {A : Type} (catches : exn -> bool)
  (body : result A) (handler : exn -> result A) : result A :=
  match body with
  | Ok a => Ok a
  | Raise e => if catches e then handler e else Raise e
  end.

Definition bare_except (e : exn) : bool := true.

(** [except (TypeError, ValueError)]; [JSONDecodeError] derives from
    [ValueError]. *)
Definition is_TypeError_or_ValueError (e : exn) : bool :=
  match e with
  | TypeError | ValueError | JSONDecodeError => true
  | _ => false
  end.

(** Comparisons on numbers, as booleans. *)
Definition Qlt_bool (x y : Q) : bool := negb (Qle_bool y x).

(** [a / b] on floats. *)
Definition pydiv (a b : Q) : result Q :=
  if Qeq_bool b 0 then Raise ZeroDivisionError else Ok (a / b).

(** Rounding to the nearest integer, ties to the even one. *)
Definition round_half_even (x : Q) : Z :=
  let f := Qfloor x in
  match Qcompare (x - inject_Z f) (1 # 2) with
  | Lt => f
  | Gt => (f + 1)%Z
  | Eq => if Z.even f then f else (f + 1)%Z
  end.

(** [round(x, ndigits)] *)
Definition round (x : Q) (ndigits : nat) : Q :=
  let scale := inject_Z (10 ^ Z.of_nat ndigits) in
  inject_Z (round_half_even (x * scale)) / scale.

(** [sum(xs)] *)
Definition sum (xs : list Q) : Q := fold_left Qplus xs 0.

(** [np.mean(xs)] of a list; the callers modelled here never pass an
    empty list. *)
Definition mean (xs : list Q) : Q := sum xs / inject_Z (Z.of_nat (length xs)).

(** [xs[-n:]]: the last [n] elements; the whole list when [n] is [0]
    (Python reads [-0] as [0]) or exceeds the length. *)
Definition last_n {A : Type} (n : nat) (xs : list A) : list A :=
  match n with
  | O => xs
  | _ => skipn (length xs - n)%nat xs
  end.

(** [xs[:-1]] *)
Definition drop_last {A : Type} (xs : list A) : list A := removelast xs.

(** [xs[-k]] for [1 <= k <= len(xs)] *)
Definition nth_from_end {A : Type} (k : nat) (xs : list A) : option A :=
  match k with
  | O => None
  | _ => if Nat.leb k (length xs) then nth_error xs (length xs - k)%nat else None
  end.

(** [max(xs)] and [min(xs)] of a list with a first element. *)
Definition max_list (x : Q) (xs : list Q) : Q := fold_left Qmax xs x.
Definition min_list (x : Q) (xs : list Q) : Q := fold_left Qmin xs x.

End Py.

Import Py.

Declare Scope py_scope.
Notation "x <- c ;; k" := (Py.bind c (fun x => k))
  (at level 61, c at next level, right associativity) : py_scope.
Open Scope py_scope.

(* ================================================================= *)
(** ** JSON documents and the files that hold them *)

Module Json.

(** What [json.load] returns. *)
Inductive json : Type :=
| JNull
| JBool (b : bool)
| JInt (z : Z)
| JFloat (q : Q)
| JStr (s : string)
| JList (items : list json)
| JDict (fields : list (string * json)).

(** The state of one path on disk.  [Empty] and [Corrupt] hold content on
    which [json.load] raises; [Unreadable] exists but [open] raises;
    [Inaccessible] is a path that cannot be examined at all ([stat] fails
    with [EACCES], as under a data directory without search permission);
    a [Valid] file is identified with the document [json.load] returns
    for it (so writing a document and reading it back is the identity). *)
Inductive file_state : Type :=
| Missing
| Unreadable
| Inaccessible
| Empty
| Corrupt (raw : string)
| Valid (doc : json).

(** [path.exists()]: [pathlib] answers [False] when [stat] reports that
    the path is not there, and lets every other [OSError] through
    (CPython up to 3.13), so a path that cannot be examined raises
    [PermissionError], a subclass of [OSError]. *)
Definition exists_ (f : file_state) : result bool :=
  match f with
  | Missing => Ok false
  | Inaccessible => Raise OSError
  | _ => Ok true
  end.

(** [with open(path, 'r') as f: json.load(f)] *)
Definition read_json (f : file_state) : result json :=
  match f with
  | Missing => Raise OSError
  | Unreadable => Raise OSError
  | Inaccessible => Raise OSError
  | Empty => Raise JSONDecodeError
  | Corrupt _ => Raise JSONDecodeError
  | Valid doc => Ok doc
  end.

Fixpoint assoc_get (k : string) (d : list (string * json)) : option json :=
  match d with
  | [] => None
  | (k', v) :: d' => if String.eqb k k' then Some v else assoc_get k d'
  end.

Fixpoint assoc_set (k : string) (v : json) (d : list (string * json))
  : list (string * json) :=
  match d with
  | [] => [(k, v)]
  | (k', v') :: d' =>
      if String.eqb k k' then (k, v) :: d' else (k', v') :: assoc_set k v d'
  end.

(** [data[key]] with a string key *)
Definition getitem (data : json) (key : string) : result json :=
  match data with
  | JDict d =>
      match assoc_get key d with
      | Some v => Ok v
      | None => Raise (KeyError key)
      end
  | _ => Raise TypeError
  end.

(** [data.get(key, default)] *)
Definition get (data : json) (key : string) (default : json) : result json :=
  match data with
  | JDict d =>
      match assoc_get key d with
      | Some v => Ok v
      | None => Ok default
      end
  | _ => Raise AttributeError
  end.

(** [data[key] = v]; only reached on dictionaries. *)
Definition setitem (data : json) (key : string) (v : json) : result json :=
  match data with
  | JDict d => Ok (JDict (assoc_set key v d))
  | _ => Raise TypeError
  end.

(** [x == s] for a string [s] *)
Definition eq_str (x : json) (s : string) : bool :=
  match x with
  | JStr s' => String.eqb s' s
  | _ => false
  end.

Section Builtins.

(** Python's [float(str)] and [int(str)], taken as they are. *)
Variable float_of_str : string -> option Q.
Variable int_of_str : string -> option Z.

(** [float(x)] *)
Definition to_float (x : json) : result Q :=
  match x with
  | JInt z => Ok (inject_Z z)
  | JFloat q => Ok q
  | JBool b => Ok (if b then 1 else 0)
  | JStr s =>
      match float_of_str s with
      | Some q => Ok q
      | None => Raise ValueError
      end
  | JNull | JList _ | JDict _ => Raise TypeError
  end.

(** [int(x)]: floats are truncated towards zero. *)
Definition to_int (x : json) : result Z :=
  match x with
  | JInt z => Ok z
  | JFloat q => Ok (Z.quot (Qnum q) (Zpos (Qden q)))
  | JBool b => Ok (if b then 1%Z else 0%Z)
  | JStr s =>
      match int_of_str s with
      | Some z => Ok z
      | None => Raise ValueError
      end
  | JNull | JList _ | JDict _ => Raise TypeError
  end.

End Builtins.

End Json.

Import Json.

(* ================================================================= *)
(** ** modules/risk.py *)

Module Risk.

(** The [config] dictionary: every key is optional, [__init__] supplies
    the defaults. *)
Record Config : Type := {
  cfg_account_balance : option Q;
  cfg_risk_percent : option Q;
  cfg_max_spread_points : option Q;
  cfg_max_daily_loss : option Q;
  cfg_max_consecutive_losses : option Z;
  cfg_exchange_min_lot_size : option Q
}.

(** The fields of a [RiskManager] object. *)
Record RiskManager : Type := {
  account_balance : Q;
  risk_percent : Q;
  max_spread_points : Q;
  max_daily_loss_pct : Q;
  max_consecutive_losses : Z;
  exchange_min_lot_size : Q;
  consecutive_loss_counter : Z;
  daily_loss_accumulation : Q;
  shutdown_required : bool;
  shutdown_reason : string
}.

Definition set_daily_loss_accumulation (rm : RiskManager) (v : Q) : RiskManager :=
  {| account_balance := account_balance rm;
     risk_percent := risk_percent rm;
     max_spread_points := max_spread_points rm;
     max_daily_loss_pct := max_daily_loss_pct rm;
     max_consecutive_losses := max_consecutive_losses rm;
     exchange_min_lot_size := exchange_min_lot_size rm;
     consecutive_loss_counter := consecutive_loss_counter rm;
     daily_loss_accumulation := v;
     shutdown_required := shutdown_required rm;
     shutdown_reason := shutdown_reason rm |}.

Definition set_consecutive_loss_counter (rm : RiskManager) (n : Z) : RiskManager :=
  {| account_balance := account_balance rm;
     risk_percent := risk_percent rm;
     max_spread_points := max_spread_points rm;
     max_daily_loss_pct := max_daily_loss_pct rm;
     max_consecutive_losses := max_consecutive_losses rm;
     exchange_min_lot_size := exchange_min_lot_size rm;
     consecutive_loss_counter := n;
     daily_loss_accumulation := daily_loss_accumulation rm;
     shutdown_required := shutdown_required rm;
     shutdown_reason := shutdown_reason rm |}.

(** The part of the outside world a [RiskManager] touches: the UTC date
    ([datetime.utcnow().strftime('%Y-%m-%d')]), the file
    [data_dir/daily_pnl.json], and whether opening it for writing
    succeeds. *)
Record World : Type := {
  today : string;
  daily_pnl_file : file_state;
  writable : bool
}.

Definition set_daily_pnl_file (w : World) (f : file_state) : World :=
  {| today := today w; daily_pnl_file := f; writable := writable w |}.

(** The [reason] strings returned by the circuit breakers; each
    constructor carries the values the f-string interpolates. *)
Inductive reason : Type :=
| NoReason
| DailyLossLimitExceeded (accumulation max_daily_loss : Q)
| ConsecutiveLossLimitReached (counter limit : Z).

(** [_save_daily_pnl]: a failure to write is logged and swallowed. *)
Definition _save_daily_pnl (data : json) (w : World) : World :=
  if writable w then set_daily_pnl_file w (Valid data) else w.

Definition fresh_daily_pnl (w : World) : json :=
  JDict [ ("date", JStr (today w));
          ("cumulative_pnl", JFloat 0);
          ("trades_today", JInt 0);
          ("winning_trades", JInt 0);
          ("losing_trades", JInt 0) ]%string.

(** [_reset_daily_pnl] *)
Definition _reset_daily_pnl (w : World) : World :=
  _save_daily_pnl (fresh_daily_pnl w) w.

(** [position_size] *)
Definition position_size (rm : RiskManager) (entry_price stop_loss : Q) : result Q :=
  if Qeq_bool entry_price stop_loss then Ok 0
  else
    let risk_amount := account_balance rm * (risk_percent rm / 100) in
    let sl_distance := Qabs (entry_price - stop_loss) in
    calculated_size <- pydiv risk_amount sl_distance ;;
    let final_size := Qmax calculated_size (exchange_min_lot_size rm) in
    let final_size := Py.round final_size 8 in
    Ok final_size.

(** [(ask - bid) / bid * 10000] *)
Definition spread_points (bid ask : Q) : result Q :=
  r <- pydiv (ask - bid) bid ;; Ok (r * 10000).

(** [spread_filter] *)
Definition spread_filter (rm : RiskManager) (bid ask : Q) : result bool :=
  if Qle_bool bid 0 || Qle_bool ask 0 || Qlt_bool ask bid then Ok false
  else
    sp <- spread_points bid ask ;;
    let is_valid := Qlt_bool sp (max_spread_points rm) in
    Ok is_valid.

(** [check_daily_loss_limit].  The threshold
    [balance * (pct / 100)] is the exact product here; in binary64 it can
    differ from it in the last place ([10000 * (7.0 / 100.0)] evaluates to
    [700.0000000000001]), so which side an accumulation exactly at the
    nominal limit falls on is not determined by this definition. *)
Definition check_daily_loss_limit (rm : RiskManager) : bool * reason :=
  let max_daily_loss := account_balance rm * (max_daily_loss_pct rm / 100) in
  if Qle_bool (daily_loss_accumulation rm) (- max_daily_loss)
  then (false, DailyLossLimitExceeded (daily_loss_accumulation rm) max_daily_loss)
  else (true, NoReason).

(** [increment_consecutive_losses] *)
Definition increment_consecutive_losses (rm : RiskManager)
  : (bool * reason) * RiskManager :=
  let rm := set_consecutive_loss_counter rm (consecutive_loss_counter rm + 1) in
  if (max_consecutive_losses rm <=? consecutive_loss_counter rm)%Z
  then ((false, ConsecutiveLossLimitReached (consecutive_loss_counter rm)
                                            (max_consecutive_losses rm)), rm)
  else ((true, NoReason), rm).

(** [reset_consecutive_losses] *)
Definition reset_consecutive_losses (rm : RiskManager) : RiskManager :=
  set_consecutive_loss_counter rm 0.

(** [slippage_tracker] *)
Definition slippage_tracker (expected_price actual_price : Q) : result (bool * Q) :=
  if Qle_bool expected_price 0 then Ok (false, 0)
  else
    r <- pydiv (Qabs (actual_price - expected_price)) expected_price ;;
    let slippage_pct := r * 100 in
    let is_acceptable := Qlt_bool slippage_pct (5 # 100) in
    Ok (is_acceptable, slippage_pct).

(** The dictionary returned by [get_status]. *)
Record Status : Type := {
  st_account_balance : Q;
  st_daily_loss_accumulation : Q;
  st_consecutive_losses : Z;
  st_max_daily_loss : Q;
  st_shutdown_required : bool;
  st_shutdown_reason : string
}.

(** [get_status] *)
Definition get_status (rm : RiskManager) : Status :=
  {| st_account_balance := account_balance rm;
     st_daily_loss_accumulation := daily_loss_accumulation rm;
     st_consecutive_losses := consecutive_loss_counter rm;
     st_max_daily_loss := account_balance rm * (max_daily_loss_pct rm / 100);
     st_shutdown_required := shutdown_required rm;
     st_shutdown_reason := shutdown_reason rm |}.

Section WithBuiltins.

Variable float_of_str : string -> option Q.
Variable int_of_str : string -> option Z.

(** The body of the [try] block of [_load_daily_pnl]. *)
Definition load_daily_pnl_body (rm : RiskManager) (w : World)
  : result (RiskManager * World) :=
  data <- read_json (daily_pnl_file w) ;;
  date <- Json.get data "date" JNull ;;
  if eq_str date (today w) then
    c <- Json.get data "cumulative_pnl" (JFloat 0) ;;
    v <- to_float float_of_str c ;;
    Ok (set_daily_loss_accumulation rm v, w)
  else
    Ok (set_daily_loss_accumulation rm 0, _reset_daily_pnl w).

(** [_load_daily_pnl].  The handler is [except Exception]; the call of
    [exists()] stands outside the [try]. *)
Definition _load_daily_pnl (rm : RiskManager) (w : World)
  : result (RiskManager * World) :=
  present <- exists_ (daily_pnl_file w) ;;
  if present then
    try_except is_Exception
      (load_daily_pnl_body rm w)
      (fun _ => Ok (set_daily_loss_accumulation rm 0, _reset_daily_pnl w))
  else Ok (rm, _reset_daily_pnl w).

Definition or_default {A : Type} (o : option A) (d : A) : A :=
  match o with Some a => a | None => d end.

(** [__init__] (the data directory is taken to exist). *)
Definition __init__ (config : Config) (w : World) : result (RiskManager * World) :=
  let rm :=
    {| account_balance := or_default (cfg_account_balance config) 10000;
       risk_percent := or_default (cfg_risk_percent config) (175 # 100);
       max_spread_points := or_default (cfg_max_spread_points config) 50;
       max_daily_loss_pct := or_default (cfg_max_daily_loss config) 5;
       max_consecutive_losses := or_default (cfg_max_consecutive_losses config) 2%Z;
       exchange_min_lot_size := or_default (cfg_exchange_min_lot_size config) (1 # 1000);
       consecutive_loss_counter := 0%Z;
       daily_loss_accumulation := 0;
       shutdown_required := false;
       shutdown_reason := EmptyString |} in
  _load_daily_pnl rm w.

(** [track_daily_pnl].  The accumulation is updated first; the file is
    read under a bare [except], and the dictionary update that follows is
    not protected. *)
Definition track_daily_pnl (rm : RiskManager) (w : World) (pnl : Q)
  : result unit * RiskManager * World :=
  let rm := set_daily_loss_accumulation rm (daily_loss_accumulation rm + pnl) in
  let data :=
    match read_json (daily_pnl_file w) with
    | Ok d => d
    | Raise _ => fresh_daily_pnl w
    end in
  let updated :=
    c <- getitem data "cumulative_pnl" ;;
    f <- to_float float_of_str c ;;
    data <- setitem data "cumulative_pnl" (JFloat (Py.round (f + pnl) 8)) ;;
    t <- Json.get data "trades_today" (JInt 0) ;;
    n <- to_int int_of_str t ;;
    data <- setitem data "trades_today" (JInt (n + 1)) ;;
    if Qlt_bool 0 pnl then
      x <- Json.get data "winning_trades" (JInt 0) ;;
      k <- to_int int_of_str x ;;
      setitem data "winning_trades" (JInt (k + 1))
    else
      x <- Json.get data "losing_trades" (JInt 0) ;;
      k <- to_int int_of_str x ;;
      setitem data "losing_trades" (JInt (k + 1)) in
  match updated with
  | Ok data => (Ok tt, rm, _save_daily_pnl data w)
  | Raise e => (Raise e, rm, w)
  end.

(** The methods of a [RiskManager], as one step function on the object
    and its world (return values and raised exceptions are dropped). *)
Inductive op : Type :=
| OpPositionSize (entry_price stop_loss : Q)
| OpSpreadFilter (bid ask : Q)
| OpTrackDailyPnl (pnl : Q)
| OpCheckDailyLossLimit
| OpIncrementConsecutiveLosses
| OpResetConsecutiveLosses
| OpSlippageTracker (expected_price actual_price : Q)
| OpGetStatus
| OpLoadDailyPnl
| OpResetDailyPnl
| OpSaveDailyPnl (data : json).

Definition step (o : op) (s : RiskManager * World) : RiskManager * World :=
  let (rm, w) := s in
  match o with
  | OpPositionSize _ _ => (rm, w)
  | OpSpreadFilter _ _ => (rm, w)
  | OpTrackDailyPnl pnl =>
      let '(_, rm', w') := track_daily_pnl rm w pnl in (rm', w')
  | OpCheckDailyLossLimit => (rm, w)
  | OpIncrementConsecutiveLosses => (snd (increment_consecutive_losses rm), w)
  | OpResetConsecutiveLosses => (reset_consecutive_losses rm, w)
  | OpSlippageTracker _ _ => (rm, w)
  | OpGetStatus => (rm, w)
  | OpLoadDailyPnl =>
      match _load_daily_pnl rm w with
      | Ok s' => s'
      | Raise _ => (rm, w)
      end
  | OpResetDailyPnl => (rm, _reset_daily_pnl w)
  | OpSaveDailyPnl data => (rm, _save_daily_pnl data w)
  end.

End WithBuiltins.

End Risk.

(* ================================================================= *)
(** ** modules/execution.py *)

Module Execution.

(** *** StateManager *)

(** The two durable files of a [StateManager]. *)
Record Disk : Type := {
  trade_history_file : file_state;
  open_positions_file : file_state
}.

(** [load_trade_history]: a bare [except] around the read, after the
    call of [exists()]. *)
Definition load_trade_history (d : Disk) : result json :=
  present <- exists_ (trade_history_file d) ;;
  if negb present then Ok (JList [])
  else try_except bare_except
         (read_json (trade_history_file d))
         (fun _ => Ok (JList [])).

(** [load_open_positions] *)
Definition load_open_positions (d : Disk) : result json :=
  present <- exists_ (open_positions_file d) ;;
  if negb present then Ok (JList [])
  else try_except bare_except
         (read_json (open_positions_file d))
         (fun _ => Ok (JList [])).

(** *** The sources of randomness and the exchange *)

(** The [random] module: [random_src n] is the [n]-th value returned by
    [random.random()], [normal_src n] the [n]-th standard normal deviate
    drawn by [random.gauss]. *)
Record Rng : Type := {
  random_src : nat -> Q;
  normal_src : nat -> Q;
  random_pos : nat;
  normal_pos : nat
}.

(** [random.random()] returns a value in [[0, 1)]. *)
Definition rng_wf (g : Rng) : Prop :=
  forall n, 0 <= random_src g n /\ random_src g n < 1.

Definition random (g : Rng) : Q * Rng :=
  (random_src g (random_pos g),
   {| random_src := random_src g; normal_src := normal_src g;
      random_pos := S (random_pos g); normal_pos := normal_pos g |}).

(** [random.uniform(a, b)] is [a + (b - a) * random()]. *)
Definition uniform (a b : Q) (g : Rng) : Q * Rng :=
  let (u, g) := random g in (a + (b - a) * u, g).

(** [random.gauss(mu, sigma)] is [mu + z * sigma] for a standard normal
    deviate [z]. *)
Definition gauss (mu sigma : Q) (g : Rng) : Q * Rng :=
  (mu + normal_src g (normal_pos g) * sigma,
   {| random_src := random_src g; normal_src := normal_src g;
      random_pos := random_pos g; normal_pos := S (normal_pos g) |}).

(** The keyword arguments of [exchange.create_order]. *)
Record OrderRequest : Type := {
  req_symbol : string;
  req_order_type : string;
  req_side : string;
  req_amount : Q;
  req_price : Q
}.

(** The exchange adapter: [create_order ex n req] is the outcome of the
    [n]-th call (counted from [0]) when it is made with [req]. *)
Record Exchange : Type := {
  create_order : nat -> OrderRequest -> result json
}.

(** What an observer of one submission sees. *)
Inductive event : Type :=
| Sleep (seconds : Q)
| CreateOrder (req : OrderRequest).

(** The state threaded through one call: the random source, the number of
    exchange calls made, and the events so far (latest first). *)
Record Run : Type := {
  rng : Rng;
  calls : nat;
  trace : list event
}.

Definition set_rng (r : Run) (g : Rng) : Run :=
  {| rng := g; calls := calls r; trace := trace r |}.

(** [await asyncio.sleep(delay)] *)
Definition sleep (delay : Q) (r : Run) : Run :=
  {| rng := rng r; calls := calls r; trace := Sleep delay :: trace r |}.

(** [await self.exchange.create_order(...)] *)
Definition call_create_order (ex : Exchange) (req : OrderRequest) (r : Run)
  : result json * Run :=
  (create_order ex (calls r) req,
   {| rng := rng r; calls := S (calls r); trace := CreateOrder req :: trace r |}).

(** The attempts made, oldest first, and the delays slept, oldest first. *)
Definition attempts_of (r : Run) : list OrderRequest :=
  flat_map (fun e => match e with CreateOrder q => [q] | Sleep _ => [] end)
           (rev (trace r)).

Definition sleeps_of (r : Run) : list Q :=
  flat_map (fun e => match e with Sleep d => [d] | CreateOrder _ => [] end)
           (rev (trace r)).

(** *** OrderExecutor *)

Record Config : Type := {
  cfg_lot_variance_pct : option Q;
  cfg_tp_sl_variance_pct : option Q;
  cfg_min_human_delay : option Q;
  cfg_max_human_delay : option Q;
  cfg_max_retries : option Z;
  cfg_retry_initial_delay : option Q;
  cfg_retry_max_delay : option Q;
  cfg_retry_backoff_multiplier : option Q
}.

(** [config.get(key, default)] *)
Definition get {A : Type} (o : option A) (default : A) : A :=
  match o with Some a => a | None => default end.

(** [randomize_lot_size]; the variance is computed for the log line. *)
Definition randomize_lot_size (config : Config) (base_size : Q) (r : Run)
  : result Q * Run :=
  let variance_pct := get (cfg_lot_variance_pct config) 3 in
  let (variance_factor, g) := gauss 1 (variance_pct / 100 / 3) (rng r) in
  let r := set_rng r g in
  let randomized_size := base_size * variance_factor in
  (q <- pydiv (randomized_size - base_size) base_size ;;
   let variance := q * 100 in
   Ok randomized_size,
   r).

(** [randomize_tp_sl] *)
Definition randomize_tp_sl (config : Config) (price : Q) (is_tp : bool) (r : Run)
  : result Q * Run :=
  let variance_pct := get (cfg_tp_sl_variance_pct config) 1 in
  let (variance_factor, g) :=
    uniform (1 - variance_pct / 100) (1 + variance_pct / 100) (rng r) in
  let r := set_rng r g in
  let randomized_price := price * variance_factor in
  (q <- pydiv (randomized_price - price) price ;;
   let variance := q * 100 in
   Ok randomized_price,
   r).

(** [randomize_partial_close_percentages] *)
Definition randomize_partial_close_percentages (g : Rng) : (Q * Q * Q) * Rng :=
  let (tp1_pct, g) := uniform (28 # 100) (35 # 100) g in
  let (tp2_pct, g) := uniform (38 # 100) (42 # 100) g in
  let runner_pct := 1 - tp1_pct - tp2_pct in
  ((tp1_pct, tp2_pct, runner_pct), g).

(** [add_human_like_delay] *)
Definition add_human_like_delay (config : Config) (r : Run) : Run :=
  let min_delay := get (cfg_min_human_delay config) (5 # 10) in
  let max_delay := get (cfg_max_human_delay config) (35 # 10) in
  let (delay, g) := uniform min_delay max_delay (rng r) in
  sleep delay (set_rng r g).

Definition lower_ascii (c : Ascii.ascii) : Ascii.ascii :=
  let n := Ascii.nat_of_ascii c in
  if andb (Nat.leb 65 n) (Nat.leb n 90) then Ascii.ascii_of_nat (n + 32)%nat else c.

(** [s.lower()] on ASCII text *)
Fixpoint lower (s : string) : string :=
  match s with
  | EmptyString => EmptyString
  | String c s' => String (lower_ascii c) (lower s')
  end.

(** The [for attempt in range(attempt, max_retries + 1)] loop of
    [submit_order_with_retry], with [remaining] iterations left; falling
    out of the loop reaches the final [return None]. *)
Fixpoint retry_loop (ex : Exchange) (req : OrderRequest)
  (max_retries : Z) (initial_delay max_delay backoff_multiplier : Q)
  (remaining : nat) (attempt : Z) (r : Run) : result (option json) * Run :=
  match remaining with
  | O => (Ok None, r)
  | S remaining' =>
      let (outcome, r) := call_create_order ex req r in
      match outcome with
      | Ok order => (Ok (Some order), r)
      | Raise e =>
          if is_Exception e then
            if (attempt <? max_retries)%Z then
              let delay :=
                Qmin (initial_delay * backoff_multiplier ^ (attempt - 1)) max_delay in
              let (jitter, g) := uniform (- (1 # 10)) (1 # 10) (rng r) in
              let delay := delay + jitter in
              let r := sleep delay (set_rng r g) in
              retry_loop ex req max_retries initial_delay max_delay
                         backoff_multiplier remaining' (attempt + 1)%Z r
            else (Ok None, r)
          else (Raise e, r)
      end
  end.

(** [submit_order_with_retry] *)
Definition submit_order_with_retry (ex : Exchange) (config : Config)
  (symbol direction : string)
  (position_size entry_price stop_loss tp1_price tp2_price : Q) (r : Run)
  : result (option json) * Run :=
  let max_retries := get (cfg_max_retries config) 3%Z in
  let initial_delay := get (cfg_retry_initial_delay config) (5 # 10) in
  let max_delay := get (cfg_retry_max_delay config) 5 in
  let backoff_multiplier := get (cfg_retry_backoff_multiplier config) 2 in
  let (size, r) := randomize_lot_size config position_size r in
  match size with
  | Raise e => (Raise e, r)
  | Ok randomized_size =>
  let (tp1, r) := randomize_tp_sl config tp1_price true r in
  match tp1 with
  | Raise e => (Raise e, r)
  | Ok randomized_tp1 =>
  let (tp2, r) := randomize_tp_sl config tp2_price true r in
  match tp2 with
  | Raise e => (Raise e, r)
  | Ok randomized_tp2 =>
  let (sl, r) := randomize_tp_sl config stop_loss false r in
  match sl with
  | Raise e => (Raise e, r)
  | Ok randomized_sl =>
  let r := add_human_like_delay config r in
  let req :=
    {| req_symbol := symbol;
       req_order_type := "limit";
       req_side := lower direction;
       req_amount := randomized_size;
       req_price := entry_price |} in
  retry_loop ex req max_retries initial_delay max_delay backoff_multiplier
             (Z.to_nat max_retries) 1%Z r
  end end end end.

End Execution.

(* ================================================================= *)
(** ** Candles *)

(** One OHLCV sample (the candle dictionaries of the detectors). *)
Record Candle : Type := {
  c_open : Q;
  c_high : Q;
  c_low : Q;
  c_close : Q;
  c_volume : Q
}.

(* ================================================================= *)
(** ** modules/support_resistance.py *)

Module SupportResistance.

Inductive swing_type : Type := High | Low.

Definition swing_type_eqb (a b : swing_type) : bool :=
  match a, b with
  | High, High | Low, Low => true
  | _, _ => false
  end.

Record Swing : Type := {
  sw_price : Q;
  sw_type : swing_type;
  sw_index : nat
}.

Record Zone : Type := {
  z_price : Q;
  z_type : swing_type;
  z_touches : nat;
  z_strength : Q
}.

(** The fields of a [SupportResistanceDetector]. *)
Record Detector : Type := {
  lookback : nat;
  cluster_tolerance : Q;
  min_touches : nat;
  candle_count : nat;
  zones : list Zone
}.

(** [__init__]; the defaults of its arguments are [3], [0.0005], [2]. *)
Definition __init__ (lookback : nat) (cluster_tolerance : Q) (min_touches : nat)
  : Detector :=
  {| lookback := lookback; cluster_tolerance := cluster_tolerance;
     min_touches := min_touches; candle_count := 0%nat; zones := [] |}.

Definition default_detector : Detector := __init__ 3 (5 # 10000) 2.

(** [arr[i]] for an index inside the array. *)
Definition at_ (xs : list Q) (i : nat) : Q := nth i xs 0.

(** The inner [for j in range(1, lookback + 1)] loop, for the highs. *)
Definition is_swing_high (highs : list Q) (lookback i : nat) : bool :=
  forallb (fun j => negb (Qle_bool (at_ highs i) (at_ highs (i - j)%nat)
                          || Qle_bool (at_ highs i) (at_ highs (i + j)%nat)))
          (seq 1 lookback).

(** The same loop, for the lows. *)
Definition is_swing_low (lows : list Q) (lookback i : nat) : bool :=
  forallb (fun j => negb (Qle_bool (at_ lows (i - j)%nat) (at_ lows i)
                          || Qle_bool (at_ lows (i + j)%nat) (at_ lows i)))
          (seq 1 lookback).

(** [detect_swings] *)
Definition detect_swings (d : Detector) (candles : list Candle) : list Swing :=
  let highs := map c_high candles in
  let lows := map c_low candles in
  flat_map
    (fun i =>
       (if is_swing_high highs (lookback d) i
        then [{| sw_price := at_ highs i; sw_type := High; sw_index := i |}]
        else [])
       ++
       (if is_swing_low lows (lookback d) i
        then [{| sw_price := at_ lows i; sw_type := Low; sw_index := i |}]
        else []))
    (seq (lookback d) (length candles - lookback d - lookback d)%nat).

(** [sorted(swing_list, key=lambda x: x['price'])]: a stable sort. *)
Fixpoint insert_by_price (s : Swing) (sorted : list Swing) : list Swing :=
  match sorted with
  | [] => [s]
  | t :: rest =>
      if Qlt_bool (sw_price s) (sw_price t) then s :: t :: rest
      else t :: insert_by_price s rest
  end.

Definition sort_by_price (l : list Swing) : list Swing :=
  fold_left (fun acc s => insert_by_price s acc) l [].

(** The zone built from one cluster.  The price is the exact mean here;
    [np.mean] rounds, and its result for equal or nearly equal prices
    can lie outside the cluster's own price range by one unit in the
    last place. *)
Definition zone_of_cluster (zone_type : swing_type) (cluster : list Swing) : Zone :=
  {| z_price := mean (map sw_price cluster);
     z_type := zone_type;
     z_touches := length cluster;
     z_strength := Qmin 1 (inject_Z (Z.of_nat (length cluster)) / 5) |}.

(** The greedy loop over [sorted_swings[1:]]; [anchor] is
    [current_cluster[0]], and the cluster left at the end is flushed. *)
Fixpoint cluster_loop (tol : Q) (zone_type : swing_type) (rest : list Swing)
  (anchor : Swing) (current_cluster : list Swing) (clustered : list Zone)
  : list Zone :=
  match rest with
  | [] => clustered ++ [zone_of_cluster zone_type current_cluster]
  | swing :: rest' =>
      let tolerance := sw_price anchor * tol in
      if Qle_bool (Qabs (sw_price swing - sw_price anchor)) tolerance
      then cluster_loop tol zone_type rest' anchor
                        (current_cluster ++ [swing]) clustered
      else cluster_loop tol zone_type rest' swing [swing]
                        (clustered ++ [zone_of_cluster zone_type current_cluster])
  end.

Definition cluster_one_type (tol : Q) (zone_type : swing_type)
  (swing_list : list Swing) : list Zone :=
  match sort_by_price swing_list with
  | [] => []
  | first :: rest => cluster_loop tol zone_type rest first [first] []
  end.

(** [cluster_zones] *)
Definition cluster_zones (d : Detector) (swings : list Swing) : list Zone :=
  match swings with
  | [] => []
  | _ =>
      let highs := filter (fun s => swing_type_eqb (sw_type s) High) swings in
      let lows := filter (fun s => swing_type_eqb (sw_type s) Low) swings in
      let zones :=
        cluster_one_type (cluster_tolerance d) High highs
        ++ cluster_one_type (cluster_tolerance d) Low lows in
      filter (fun z => Nat.leb (min_touches d) (z_touches z)) zones
  end.

(** [not self.zones] *)
Definition no_zones (d : Detector) : bool :=
  match zones d with [] => true | _ => false end.

(** [update_zones].  Returns the detector afterwards, the returned zone
    list, and (for the proofs only) whether the rebuild branch ran. *)
Definition update_zones (d : Detector) (candles : list Candle)
  : Detector * list Zone * bool :=
  let count := (candle_count d + length candles)%nat in
  if Nat.leb 100 count || no_zones d then
    let swings := detect_swings d candles in
    let zs := cluster_zones d swings in
    ({| lookback := lookback d; cluster_tolerance := cluster_tolerance d;
        min_touches := min_touches d; candle_count := 0%nat; zones := zs |},
     zs, true)
  else
    ({| lookback := lookback d; cluster_tolerance := cluster_tolerance d;
        min_touches := min_touches d; candle_count := count; zones := zones d |},
     zones d, false).

(** One observed call of [update_zones]. *)
Record Call : Type := {
  call_before : Detector;
  call_candles : list Candle;
  call_after : Detector;
  call_returned : list Zone;
  call_rebuilt : bool
}.

(** A sequence of [update_zones] calls on one detector: the final
    detector and the calls, latest first. *)
Fixpoint run (d : Detector) (inputs : list (list Candle)) (log : list Call)
  : Detector * list Call :=
  match inputs with
  | [] => (d, log)
  | candles :: inputs' =>
      let '(d', zs, rebuilt) := update_zones d candles in
      run d' inputs'
          ({| call_before := d; call_candles := candles; call_after := d';
              call_returned := zs; call_rebuilt := rebuilt |} :: log)
  end.

(** The number of candles passed in since the last rebuild, read off a
    log (latest call first): every candle of every call, so that a
    candle passed in again counts again, as in the code's counter. *)
Fixpoint candles_since_rebuild (log : list Call) : nat :=
  match log with
  | [] => 0%nat
  | c :: older =>
      if call_rebuilt c then 0%nat
      else (length (call_candles c) + candles_since_rebuild older)%nat
  end.

End SupportResistance.

(* ================================================================= *)
(** ** modules/breakout.py *)

Module Breakout.

Record BreakoutEngine : Type := {
  compression_candles : nat * nat;
  atr_threshold : Q;
  min_body_ratio : Q;
  max_wick_ratio : Q
}.

(** [__init__] with its default arguments. *)
Definition __init__ : BreakoutEngine :=
  {| compression_candles := (20, 40)%nat; atr_threshold := 15 # 10;
     min_body_ratio := 6 # 10; max_wick_ratio := 25 # 100 |}.

(** [max(high - low, abs(high - close_prev), abs(low - close_prev))] *)
Definition true_range (c : Candle) (close_prev : Q) : Q :=
  Qmax (Qmax (c_high c - c_low c) (Qabs (c_high c - close_prev)))
       (Qabs (c_low c - close_prev)).

(** The true ranges of a candle list; [prev] is the previous candle, if
    any, and the first candle uses its own close. *)
Fixpoint true_ranges_from (prev : option Candle) (candles : list Candle) : list Q :=
  match candles with
  | [] => []
  | c :: rest =>
      let close_prev := match prev with Some p => c_close p | None => c_close c end in
      true_range c close_prev :: true_ranges_from (Some c) rest
  end.

Definition true_ranges (candles : list Candle) : list Q :=
  true_ranges_from None candles.

(** [calculate_atr]; [None] is Python's [None]. *)
Definition calculate_atr (candles : list Candle) (period : nat) : option Q :=
  if Nat.ltb (length candles) period then None
  else
    let tr_values := true_ranges candles in
    Some (mean (last_n period tr_values)).

Record Compression : Type := {
  compressed : bool;
  candle_count : nat;
  cmp_avg_atr : Q
}.

(** [all(recent[i] >= recent[i+1] for i in range(len(recent) - 1))] *)
Fixpoint non_increasing (xs : list Q) : bool :=
  match xs with
  | [] => true
  | x :: rest =>
      match rest with
      | [] => true
      | y :: _ => Qle_bool y x && non_increasing rest
      end
  end.

(** [detect_compression]: the loop runs over [range(len(candles) - 1)]. *)
Definition detect_compression (e : BreakoutEngine) (candles : list Candle)
  : Compression :=
  let n := fst (compression_candles e) in
  if Nat.ltb (length candles) n
  then {| compressed := false; candle_count := 0%nat; cmp_avg_atr := 0 |}
  else
    let atr_values := true_ranges (drop_last candles) in
    if Nat.ltb (length atr_values) n
    then {| compressed := false; candle_count := 0%nat; cmp_avg_atr := 0 |}
    else
      let recent_atr := last_n n atr_values in
      {| compressed := non_increasing recent_atr;
         candle_count := n;
         cmp_avg_atr := mean recent_atr |}.

Record AtrSpike : Type := {
  spike : bool;
  current_atr : Q;
  spk_avg_atr : Q;
  ratio : Q
}.

Definition no_spike : AtrSpike :=
  {| spike := false; current_atr := 0; spk_avg_atr := 0; ratio := 0 |}.

(** [detect_atr_spike] *)
Definition detect_atr_spike (e : BreakoutEngine) (candles : list Candle)
  : result AtrSpike :=
  if Nat.ltb (length candles) 50 then Ok no_spike
  else
    match calculate_atr (last_n 20 candles) 14, calculate_atr candles 50 with
    | Some current, Some historical =>
        r <- (if Qlt_bool 0 historical then pydiv current historical else Ok 0%Q) ;;
        Ok {| spike := Qlt_bool (atr_threshold e) r;
              current_atr := current;
              spk_avg_atr := historical;
              ratio := r |}
    | _, _ => Ok no_spike
    end.

Inductive direction : Type := Up | Down | NoDirection.

Record BodyWick : Type := {
  valid : bool;
  body_ratio : Q;
  wick_ratio : Q;
  bw_direction : direction
}.

(** [validate_body_wick] *)
Definition validate_body_wick (e : BreakoutEngine) (candle : Candle)
  : result BodyWick :=
  let high := c_high candle in
  let low := c_low candle in
  let open_price := c_open candle in
  let close_price := c_close candle in
  let full_range := high - low in
  if Qeq_bool full_range 0
  then Ok {| valid := false; body_ratio := 0; wick_ratio := 0;
             bw_direction := NoDirection |}
  else
    let body_range := Qabs (close_price - open_price) in
    br <- pydiv body_range full_range ;;
    if Qlt_bool open_price close_price then
      let upper_wick := high - close_price in
      let lower_wick := open_price - low in
      ow <- pydiv lower_wick full_range ;;
      Ok {| valid := Qle_bool (min_body_ratio e) br && Qle_bool ow (max_wick_ratio e);
            body_ratio := br; wick_ratio := ow; bw_direction := Up |}
    else
      let upper_wick := high - open_price in
      let lower_wick := close_price - low in
      ow <- pydiv upper_wick full_range ;;
      Ok {| valid := Qle_bool (min_body_ratio e) br && Qle_bool ow (max_wick_ratio e);
            body_ratio := br; wick_ratio := ow; bw_direction := Down |}.

Inductive signal : Type := LONG | SHORT | NONE.

Record Details : Type := {
  det_compression : Compression;
  det_atr_spike : AtrSpike;
  det_body_wick : BodyWick
}.

Record BreakoutSignal : Type := {
  sig_signal : signal;
  sig_strength : Q;
  sig_details : option Details
}.

(** [generate_breakout_signal] *)
Definition generate_breakout_signal (e : BreakoutEngine) (candles : list Candle)
  : result BreakoutSignal :=
  if Nat.ltb (length candles) 20
  then Ok {| sig_signal := NONE; sig_strength := 0; sig_details := None |}
  else
    match nth_from_end 1 candles with
    | None => Raise IndexError (* [candles[-1]] of an empty list *)
    | Some current_candle =>
        let compression := detect_compression e candles in
        atr_spike <- detect_atr_spike e candles ;;
        body_wick <- validate_body_wick e current_candle ;;
        let details :=
          {| det_compression := compression; det_atr_spike := atr_spike;
             det_body_wick := body_wick |} in
        let all_valid :=
          compressed compression && spike atr_spike && valid body_wick in
        if negb all_valid
        then Ok {| sig_signal := NONE; sig_strength := 0;
                   sig_details := Some details |}
        else
          let sig :=
            match bw_direction body_wick with Up => LONG | _ => SHORT end in
          q <- pydiv (ratio atr_spike) (atr_threshold e) ;;
          let strength := Qmin 1 (q * body_ratio body_wick) in
          Ok {| sig_signal := sig; sig_strength := strength;
                sig_details := Some details |}
    end.

End Breakout.

(* ================================================================= *)
(** ** modules/price_action.py *)

Module PriceAction.

Import SupportResistance.

Record PriceActionAnalyzer : Type := {
  min_confirmations : nat
}.

(** The dictionary every detector returns. *)
Record Pattern : Type := {
  detected : bool;
  confidence : Q
}.

Definition not_detected : Pattern := {| detected := false; confidence := 0 |}.

Definition detected_with (c : Q) : Pattern := {| detected := true; confidence := c |}.

(** The detectors read the candle list from its end; [rev candles] puts
    [candles[-1]] first, and a list shorter than the pattern needs falls
    into the last branch, as the length test of the source does. *)

(** [detect_engulfing] *)
Definition detect_engulfing (candles : list Candle) : result Pattern :=
  match rev candles with
  | curr :: prev :: _ =>
      let prev_body := Qabs (c_close prev - c_open prev) in
      let curr_body := Qabs (c_close curr - c_open curr) in
      let prev_range := c_high prev - c_low prev in
      if Qeq_bool prev_range 0 then Ok not_detected
      else
        let engulfs :=
          Qlt_bool (c_high prev) (c_high curr)
          && Qlt_bool (c_low curr) (c_low prev)
          && Qlt_bool prev_body curr_body in
        if engulfs then
          q <- pydiv curr_body prev_range ;;
          Ok (detected_with (Qmin 1 q))
        else Ok not_detected
  | _ => Ok not_detected
  end.

(** [detect_pinbar] *)
Definition detect_pinbar (candles : list Candle) : result Pattern :=
  match rev candles with
  | candle :: _ =>
      let body := Qabs (c_close candle - c_open candle) in
      let full_range := c_high candle - c_low candle in
      if Qeq_bool full_range 0 then Ok not_detected
      else
        body_ratio <- pydiv body full_range ;;
        if Qlt_bool body_ratio (3 # 10) then
          long_wick_ratio <-
            (if Qlt_bool (c_open candle) (c_close candle) then
               let upper_wick := c_high candle - c_close candle in
               let lower_wick := c_open candle - c_low candle in
               pydiv upper_wick full_range
             else
               let upper_wick := c_high candle - c_open candle in
               let lower_wick := c_close candle - c_low candle in
               pydiv lower_wick full_range) ;;
          if Qlt_bool (4 # 10) long_wick_ratio
          then Ok (detected_with (Qmin 1 long_wick_ratio * (1 - body_ratio)))
          else Ok not_detected
        else Ok not_detected
  | _ => Ok not_detected
  end.

(** [detect_morning_star] *)
Definition detect_morning_star (candles : list Candle) : result Pattern :=
  match rev candles with
  | c3 :: c2 :: c1 :: _ =>
      let c1_down := Qlt_bool (c_close c1) (c_open c1) in
      let c2_small :=
        Qlt_bool (Qabs (c_close c2 - c_open c2))
                 ((c_high c1 - c_low c1) * (5 # 10)) in
      let c3_up := Qlt_bool (c_open c3) (c_close c3) in
      if c1_down && c2_small && c3_up then
        q <- pydiv (c_close c3 - c_open c1) (c_high c1 - c_low c1) ;;
        let confidence := Qmin 1 q in
        Ok (detected_with (Qmax (5 # 10) confidence))
      else Ok not_detected
  | _ => Ok not_detected
  end.

(** [detect_evening_star] *)
Definition detect_evening_star (candles : list Candle) : result Pattern :=
  match rev candles with
  | c3 :: c2 :: c1 :: _ =>
      let c1_up := Qlt_bool (c_open c1) (c_close c1) in
      let c2_small :=
        Qlt_bool (Qabs (c_close c2 - c_open c2))
                 ((c_high c1 - c_low c1) * (5 # 10)) in
      let c3_down := Qlt_bool (c_close c3) (c_open c3) in
      if c1_up && c2_small && c3_down then
        q <- pydiv (c_close c1 - c_open c3) (c_high c1 - c_low c1) ;;
        let confidence := Qmin 1 q in
        Ok (detected_with (Qmax (5 # 10) confidence))
      else Ok not_detected
  | _ => Ok not_detected
  end.

(** [detect_break_of_structure]: [recent = candles[-5:]], and the swing
    window is [recent[:-1]]. *)
Definition detect_break_of_structure (candles : list Candle) : result Pattern :=
  match rev candles with
  | current :: r4 :: r3 :: r2 :: r1 :: _ =>
      let swing_high := max_list (c_high r1) [c_high r2; c_high r3; c_high r4] in
      let swing_low := min_list (c_low r1) [c_low r2; c_low r3; c_low r4] in
      let bos_up :=
        Qlt_bool swing_high (c_close current)
        && Qlt_bool (c_open current) (c_close current) in
      let bos_down :=
        Qlt_bool (c_close current) swing_low
        && Qlt_bool (c_close current) (c_open current) in
      if bos_up then
        q <- pydiv (c_close current - swing_high) swing_high ;;
        Ok (detected_with (Qmin 1 q))
      else if bos_down then
        q <- pydiv (swing_low - c_close current) swing_low ;;
        Ok (detected_with (Qmin 1 q))
      else Ok not_detected
  | _ => Ok not_detected
  end.

(** [detect_fair_value_gap] *)
Definition detect_fair_value_gap (candles : list Candle) : result Pattern :=
  match rev candles with
  | curr :: prev :: _ =>
      let gap_up := Qlt_bool (c_high prev) (c_low curr) in
      let gap_down := Qlt_bool (c_high curr) (c_low prev) in
      if gap_up then
        let gap_size := c_low curr - c_high prev in
        q <- pydiv gap_size (c_high prev) ;;
        Ok (detected_with (Qmin 1 q))
      else if gap_down then
        let gap_size := c_low prev - c_high curr in
        q <- pydiv gap_size (c_low prev) ;;
        Ok (detected_with (Qmin 1 q))
      else Ok not_detected
  | _ => Ok not_detected
  end.

(** [detect_ema_retest] *)
Definition detect_ema_retest (candles : list Candle) (ema_values : list Q)
  : result Pattern :=
  if Nat.ltb (length candles) 10 || Nat.ltb (length ema_values) 2
  then Ok not_detected
  else
    match rev ema_values, rev candles with
    | curr_ema :: prev_ema :: _, current :: previous :: _ =>
        let prev_above := Qlt_bool prev_ema (c_close previous) in
        let curr_below := Qlt_bool (c_close current) curr_ema in
        let curr_above := Qlt_bool curr_ema (c_close current) in
        let near :=
          Qlt_bool (Qabs (c_close current - curr_ema)) (curr_ema * (5 # 1000)) in
        let retest_down := prev_above && (curr_below || near) in
        let retest_up := negb prev_above && (curr_above || near) in
        if retest_down || retest_up then
          distance <- pydiv (Qabs (c_close current - curr_ema)) curr_ema ;;
          q <- pydiv distance (1 # 100) ;;
          let confidence := 1 - Qmin 1 q in
          Ok (detected_with confidence)
        else Ok not_detected
    | _, _ => Ok not_detected
    end.

(** The [for zone in sr_zones] loop of [detect_sr_retest]; it returns at
    the first zone that matches. *)
Fixpoint sr_retest_loop (current previous : Candle) (sr_zones : list Zone)
  : Pattern :=
  match sr_zones with
  | [] => not_detected
  | zone :: rest =>
      let zone_price := z_price zone in
      let tolerance := zone_price * (1 # 100) in
      let prev_above := Qlt_bool zone_price (c_close previous) in
      let curr_near := Qlt_bool (Qabs (c_close current - zone_price)) tolerance in
      if curr_near && negb (Bool.eqb prev_above (Qlt_bool zone_price (c_close current)))
      then detected_with (Qmin 1 (z_strength zone * (15 # 10)))
      else sr_retest_loop current previous rest
  end.

(** [detect_sr_retest]; every zone carries a [strength], so the default
    of [zone.get('strength', 0.5)] is never used. *)
Definition detect_sr_retest (candles : list Candle) (sr_zones : list Zone)
  : result Pattern :=
  match rev candles, sr_zones with
  | current :: previous :: _, _ :: _ =>
      Ok (sr_retest_loop current previous sr_zones)
  | _, _ => Ok not_detected
  end.

(** The dictionary returned by [calculate_confirmation_score]. *)
Record Confirmation : Type := {
  confirmation_count : nat;
  confirmation_score : Q;
  min_met : bool;
  patterns : list (string * Q)
}.

(** The [patterns] list built by [calculate_confirmation_score]: six
    detectors always, [ema_retest] when a non-empty moving-average series
    is given (a [TypeError] or [ValueError] raised there drops the
    pattern), [sr_retest] when a non-empty zone list is given. *)
Definition evaluated_patterns (candles : list Candle)
  (sr_zones : option (list Zone)) (ema_values : option (list Q))
  : result (list (string * Pattern)) :=
  p1 <- detect_engulfing candles ;;
  p2 <- detect_pinbar candles ;;
  p3 <- detect_morning_star candles ;;
  p4 <- detect_evening_star candles ;;
  p5 <- detect_break_of_structure candles ;;
  p6 <- detect_fair_value_gap candles ;;
  let patterns :=
    [ ("engulfing", p1); ("pinbar", p2); ("morning_star", p3);
      ("evening_star", p4); ("bos", p5); ("fvg", p6) ]%string in
  patterns <-
    match ema_values with
    | Some ema =>
        try_except is_TypeError_or_ValueError
          (if Nat.ltb 0 (length ema)
           then p <- detect_ema_retest candles ema ;;
                Ok (patterns ++ [("ema_retest"%string, p)])
           else Ok patterns)
          (fun _ => Ok patterns)
    | None => Ok patterns
    end ;;
  match sr_zones with
  | Some (z :: zs) =>
      p <- detect_sr_retest candles (z :: zs) ;;
      Ok (patterns ++ [("sr_retest"%string, p)])
  | _ => Ok patterns
  end.

(** [calculate_confirmation_score] *)
Definition calculate_confirmation_score (a : PriceActionAnalyzer)
  (candles : list Candle) (sr_zones : option (list Zone))
  (ema_values : option (list Q)) : result Confirmation :=
  patterns <- evaluated_patterns candles sr_zones ema_values ;;
  let confirmations :=
    flat_map (fun np : string * Pattern =>
                if detected (snd np) then [(fst np, confidence (snd np))] else [])
             patterns in
  let confirmation_count := length confirmations in
  let confirmation_score :=
    Py.sum (map snd confirmations)
    / inject_Z (Z.of_nat (Nat.max 1 (length patterns))) in
  Ok {| confirmation_count := confirmation_count;
        confirmation_score := confirmation_score;
        min_met := Nat.leb (min_confirmations a) confirmation_count;
        patterns := confirmations |}.

End PriceAction.

(* ================================================================= *)
(** ** Reference formulas and the inputs of the test suite *)

Module Reference.

(** The sizing formula as the specification words it: the risked amount
    over the stop distance, floored at the minimum lot size. *)
Definition unrounded_size (rm : Risk.RiskManager) (entry_price stop_loss : Q) : Q :=
  Qmax (Risk.account_balance rm * (Risk.risk_percent rm / 100)
        / Qabs (entry_price - stop_loss))
       (Risk.exchange_min_lot_size rm).

(** The spread in points, [(ask - bid) / bid * 10000]. *)
Definition spread_in_points (bid ask : Q) : Q := (ask - bid) / bid * 10000.

(** The [config] fixture of [tests/test_risk_execution.py]. *)
Definition test_config : Risk.Config :=
  {| Risk.cfg_account_balance := Some 10000;
     Risk.cfg_risk_percent := Some (175 # 100);
     Risk.cfg_max_spread_points := Some 50;
     Risk.cfg_max_daily_loss := Some 5;
     Risk.cfg_max_consecutive_losses := Some 2%Z;
     Risk.cfg_exchange_min_lot_size := Some (1 # 1000) |}.

(** The [RiskManager] that fixture builds. *)
Definition test_manager : Risk.RiskManager :=
  {| Risk.account_balance := 10000;
     Risk.risk_percent := 175 # 100;
     Risk.max_spread_points := 50;
     Risk.max_daily_loss_pct := 5;
     Risk.max_consecutive_losses := 2%Z;
     Risk.exchange_min_lot_size := 1 # 1000;
     Risk.consecutive_loss_counter := 0%Z;
     Risk.daily_loss_accumulation := 0;
     Risk.shutdown_required := false;
     Risk.shutdown_reason := EmptyString |}.

(** A fresh temporary data directory. *)
Definition fresh_world : Risk.World :=
  {| Risk.today := "2024-01-01"; Risk.daily_pnl_file := Missing;
     Risk.writable := true |}.

(** Stand-ins for [float(str)] and [int(str)] where a concrete pair is
    needed; the files of these scenarios hold no strings in number
    position. *)
Definition no_float_of_str (s : string) : option Q := None.
Definition no_int_of_str (s : string) : option Z := None.

End Reference.

(* ================================================================= *)
(** ** Scenarios *)

Module Scenario.

(** Closing trades one after another, as the loops of
    [tests/test_trading_lifecycle.py] do: each realized PnL goes through
    [track_daily_pnl]; the outcomes of the calls are collected. *)
Fixpoint record_trades (float_of_str : string -> option Q)
  (int_of_str : string -> option Z)
  (rm : Risk.RiskManager) (w : Risk.World) (pnls : list Q)
  : list (result unit) * Risk.RiskManager * Risk.World :=
  match pnls with
  | [] => ([], rm, w)
  | pnl :: rest =>
      let '(r, rm', w') := Risk.track_daily_pnl float_of_str int_of_str rm w pnl in
      let '(rs, rm'', w'') := record_trades float_of_str int_of_str rm' w' rest in
      (r :: rs, rm'', w'')
  end.

Definition manager_after (s : list (result unit) * Risk.RiskManager * Risk.World)
  : Risk.RiskManager := snd (fst s).

Definition outcomes (s : list (result unit) * Risk.RiskManager * Risk.World)
  : list (result unit) := fst (fst s).

(** The manager and world a fresh [RiskManager(config)] leaves behind;
    an [__init__] that raises leaves nothing. *)
Definition constructed (c : Risk.Config) (w : Risk.World)
  : option (Risk.RiskManager * Risk.World) :=
  match Risk.__init__ Reference.no_float_of_str c w with
  | Ok s => Some s
  | Raise _ => None
  end.

End Scenario.

(* ================================================================= *)
(** ** Inputs for the execution engine *)

Module ExecutionReference.

(** The [config] fixture of the executor tests. *)
Definition test_config : Execution.Config :=
  {| Execution.cfg_lot_variance_pct := Some 3;
     Execution.cfg_tp_sl_variance_pct := Some 1;
     Execution.cfg_min_human_delay := Some (5 # 10);
     Execution.cfg_max_human_delay := Some (35 # 10);
     Execution.cfg_max_retries := Some 3%Z;
     Execution.cfg_retry_initial_delay := Some (5 # 10);
     Execution.cfg_retry_max_delay := Some 5;
     Execution.cfg_retry_backoff_multiplier := Some 2 |}.

(** A random source whose every draw is the midpoint. *)
Definition midpoint_rng : Execution.Rng :=
  {| Execution.random_src := fun _ => 1 # 2;
     Execution.normal_src := fun _ => 0;
     Execution.random_pos := 0%nat;
     Execution.normal_pos := 0%nat |}.

(** [mock_exchange.create_order.side_effect = Exception("Connection failed")] *)
Definition failing_exchange : Execution.Exchange :=
  {| Execution.create_order := fun _ _ => Raise (ExchangeError "Connection failed") |}.

Definition start : Execution.Run :=
  {| Execution.rng := midpoint_rng; Execution.calls := 0%nat;
     Execution.trace := [] |}.

(** Every call of the exchange raises an [Exception]. *)
Definition always_fails (ex : Execution.Exchange) : Prop :=
  forall n req, exists e,
    Execution.create_order ex n req = Raise e /\ is_Exception e = true.

(** The back-off before jitter, as the specification words it:
    [min(initialDelay * backoffMultiplier^(attempt - 1), maxDelay)]. *)
Definition backoff (initial_delay backoff_multiplier max_delay : Q) (attempt : Z) : Q :=
  Qmin (initial_delay * backoff_multiplier ^ (attempt - 1)) max_delay.

End ExecutionReference.

(* ================================================================= *)
(** ** Unusable files *)

Module Durable.

(** A durable file that cannot be read as JSON: missing, unreadable,
    empty, or holding content that does not parse. *)
Definition unusable (f : file_state) : Prop :=
  match f with
  | Missing | Unreadable | Empty | Corrupt _ => True
  | Inaccessible | Valid _ => False
  end.

(** A path the process can examine: [exists()] answers. *)
Definition examinable (f : file_state) : Prop :=
  match f with
  | Inaccessible => False
  | _ => True
  end.

(** The empty list, [[]]. *)
Definition empty_list : json := JList [].

End Durable.

(* ================================================================= *)
(** ** Sample candles *)

Module Sample.

(** A rising candle from [low] to [high] without wicks. *)
Definition rising (low high : Q) : Candle :=
  {| c_open := low; c_high := high; c_low := low; c_close := high; c_volume := 1 |}.

(** A candle whose four prices coincide. *)
Definition doji (price : Q) : Candle :=
  {| c_open := price; c_high := price; c_low := price; c_close := price;
     c_volume := 0 |}.

(** Thirteen candles with two swing highs at 15 and one swing low at 8. *)
Definition two_peaks : list Candle :=
  [ rising 9 10; rising 10 11; rising 11 12; rising 12 15; rising 11 12;
    rising 10 11; rising 8 10; rising 10 11; rising 11 12; rising 12 15;
    rising 11 12; rising 10 11; rising 9 10 ].

(** Nineteen rising candles followed by a degenerate one. *)
Definition ends_flat : list Candle := repeat (rising 99 101) 19 ++ [doji 100].

(** A candle with positive prices whose high and low bracket its open and
    close: what [validate_ohlc_data] lets through, for a traded
    instrument. *)
Definition well_formed (c : Candle) : Prop :=
  0 < c_low c /\ c_low c <= c_open c /\ c_low c <= c_close c
  /\ c_open c <= c_high c /\ c_close c <= c_high c.

End Sample.

(* ================================================================= *)
(** ** The confirmation score, as specified *)

Module Confirmation.

(** A confidence in [[0, 1]]. *)
Definition confidence_in_unit (p : PriceAction.Pattern) : Prop :=
  0 <= PriceAction.confidence p /\ PriceAction.confidence p <= 1.

(** The latest value of a moving-average series is positive (as it is
    for an average of positive closes). *)
Definition latest_positive (ema_values : list Q) : Prop :=
  match rev ema_values with
  | curr_ema :: _ => 0 < curr_ema
  | [] => True
  end.

Definition strength_nonneg (z : SupportResistance.Zone) : Prop :=
  0 <= SupportResistance.z_strength z.

(** An optional input is available when it is given and not empty. *)
Definition available {A : Type} (o : option (list A)) : bool :=
  match o with
  | Some (_ :: _) => true
  | _ => false
  end.

(** The patterns that apply: the six candle patterns, the moving-average
    retest when a series is available, the zone retest when zones are. *)
Definition applicable (sr_zones : option (list SupportResistance.Zone))
  (ema_values : option (list Q)) : list string :=
  ["engulfing"; "pinbar"; "morning_star"; "evening_star"; "bos"; "fvg"]%string
  ++ (if available ema_values then ["ema_retest"%string] else [])
  ++ (if available sr_zones then ["sr_retest"%string] else []).

(** The confidences of the detected patterns among those evaluated. *)
Definition detected_confidences (evaluated : list (string * PriceAction.Pattern))
  : list Q :=
  map PriceAction.confidence (filter PriceAction.detected (map snd evaluated)).

(** Two candles with a gap between them, and one resistance zone. *)
Definition gap_up : list Candle := [Sample.rising 10 11; Sample.rising 12 13].

Definition zone_at_12 : SupportResistance.Zone :=
  {| SupportResistance.z_price := 12;
     SupportResistance.z_type := SupportResistance.High;
     SupportResistance.z_touches := 2%nat;
     SupportResistance.z_strength := 2 # 5 |}.

Definition analyzer : PriceAction.PriceActionAnalyzer :=
  {| PriceAction.min_confirmations := 2%nat |}.

End Confirmation.

(* ================================================================= *)
(** ** Bookkeeping of the risk engine *)

Module Ledger.

(** The record kept in [daily_pnl.json]. *)
Definition daily_record (date : string) (cumulative_pnl : Q)
  (trades_today winning_trades losing_trades : Z) : json :=
  JDict [ ("date", JStr date);
          ("cumulative_pnl", JFloat cumulative_pnl);
          ("trades_today", JInt trades_today);
          ("winning_trades", JInt winning_trades);
          ("losing_trades", JInt losing_trades) ]%string.

(** Trades with a positive PnL, and the others. *)
Definition wins (pnls : list Q) : Z :=
  Z.of_nat (length (filter (fun p => Qlt_bool 0 p) pnls)).

Definition non_wins (pnls : list Q) : Z :=
  Z.of_nat (length (filter (fun p => negb (Qlt_bool 0 p)) pnls)).

(** The cumulative figure the file holds after a run of trades: it is
    rounded to 8 decimals at every trade. *)
Definition rounded_total (start : Q) (pnls : list Q) : Q :=
  fold_left (fun c p => Py.round (c + p) 8) pnls start.

(** The manager after [k] losses in a row. *)
Fixpoint after_losses (k : nat) (rm : Risk.RiskManager) : Risk.RiskManager :=
  match k with
  | O => rm
  | S k' => snd (Risk.increment_consecutive_losses (after_losses k' rm))
  end.

(** A value carried by 8 decimals. *)
Definition on_grid (x : Q) : Prop := Py.round x 8 == x.

Definition world_after (s : list (result unit) * Risk.RiskManager * Risk.World)
  : Risk.World := snd s.

(** The same disk on another UTC date. *)
Definition on_date (w : Risk.World) (date : string) : Risk.World :=
  {| Risk.today := date; Risk.daily_pnl_file := Risk.daily_pnl_file w;
     Risk.writable := Risk.writable w |}.

(** [check_daily_loss_limit] does not allow trading. *)
Definition blocked (rm : Risk.RiskManager) : Prop :=
  fst (Risk.check_daily_loss_limit rm) = false.

End Ledger.

(* ================================================================= *)
(** ** modules/execution.py, continued *)

(** *** OrderExecutor: validation and partial closes *)

Module OrderExecutor.

(** The messages of [order_validation], with the interpolated values. *)
Inductive verdict : Type :=
| SpreadAboveThreshold (spread_points spread_threshold : Q)
| SlippageAboveThreshold (slippage_pct max_slippage_pct : Q)
| ValidationPassed.

(** [order_validation]; neither division is guarded. *)
Definition order_validation
  (bid ask spread_threshold expected_price actual_price max_slippage_pct : Q)
  : result (bool * verdict) :=
  q <- pydiv (ask - bid) bid ;;
  let spread_points := q * 10000 in
  if Qlt_bool spread_threshold spread_points
  then Ok (false, SpreadAboveThreshold spread_points spread_threshold)
  else
    q <- pydiv (Qabs (actual_price - expected_price)) expected_price ;;
    let slippage_pct := q * 100 in
    if Qlt_bool max_slippage_pct slippage_pct
    then Ok (false, SlippageAboveThreshold slippage_pct max_slippage_pct)
    else Ok (true, ValidationPassed).

(** One leg of the plan returned by [partial_close_logic]; the runner's
    [close_price] is its [trail_target]. *)
Record Leg : Type := {
  close_size : Q;
  close_price : Q;
  percentage : Q
}.

Record Plan : Type := {
  tp1 : Leg;
  tp2 : Leg;
  runner : Leg
}.

(** [partial_close_logic] ([position_id] and [current_price] are not
    used by the source).  The three percentages and the three sizes add
    up exactly here; in binary64 [1.0 - tp1_pct - tp2_pct] and the
    products are rounded, and the sums miss by a few units in the last
    place. *)
Definition partial_close_logic (tp1_price tp2_price ema21 total_position_size : Q)
  (g : Execution.Rng) : Plan * Execution.Rng :=
  let '((tp1_pct, tp2_pct, runner_pct), g) :=
    Execution.randomize_partial_close_percentages g in
  ({| tp1 := {| close_size := total_position_size * tp1_pct;
                close_price := tp1_price;
                percentage := tp1_pct * 100 |};
      tp2 := {| close_size := total_position_size * tp2_pct;
                close_price := tp2_price;
                percentage := tp2_pct * 100 |};
      runner := {| close_size := total_position_size * runner_pct;
                   close_price := ema21;
                   percentage := runner_pct * 100 |} |},
   g).

End OrderExecutor.

(** *** Exchanges that fail for a while *)

Module Submission.

(** The [k] calls numbered from [first] on all raise an [Exception]. *)
Definition fails_before (ex : Execution.Exchange) (first k : nat) : Prop :=
  forall i req, (i < k)%nat ->
    exists e, Execution.create_order ex (first + i) req = Raise e
              /\ is_Exception e = true.

(** Call number [n] returns [order]. *)
Definition succeeds_at (ex : Execution.Exchange) (n : nat) (order : json) : Prop :=
  forall req, Execution.create_order ex n req = Ok order.

(** Call number [n] is interrupted by [e], which is not an [Exception]
    (a cancellation or a keyboard interrupt). *)
Definition interrupted_at (ex : Execution.Exchange) (n : nat) (e : exn) : Prop :=
  is_Exception e = false
  /\ forall req, Execution.create_order ex n req = Raise e.

(** An exchange that fails twice and then accepts the order. *)
Definition third_time_lucky : Execution.Exchange :=
  {| Execution.create_order := fun n _ =>
       if Nat.ltb n 2 then Raise (ExchangeError "Connection failed")
       else Ok (JDict [("id"%string, JStr "12345")]) |}.

(** An exchange call cancelled while in flight. *)
Definition cancelled_exchange : Execution.Exchange :=
  {| Execution.create_order := fun _ _ => Raise CancelledError |}.

(** An exchange that accepts everything. *)
Definition accepting_exchange : Execution.Exchange :=
  {| Execution.create_order := fun _ _ => Ok (JDict [("id"%string, JStr "12345")]) |}.

End Submission.

(** *** StateManager: saving *)

Module StateManager.

(** What can go wrong in one [open]/[json.dump]/[os.rename] sequence. *)
Inductive fault : Type :=
| NoFault
| OpenFails
| WriteFails (partial : string)
| RenameFails.

(** The durable files with their [.tmp] companions, and the faults the
    successive writes will meet. *)
Record Store : Type := {
  disk : Execution.Disk;
  trade_history_tmp : file_state;
  open_positions_tmp : file_state;
  faults : nat -> fault;
  writes : nat
}.

Inductive target : Type := TradeHistory | OpenPositions.

Definition target_file (s : Store) (t : target) : file_state :=
  match t with
  | TradeHistory => Execution.trade_history_file (disk s)
  | OpenPositions => Execution.open_positions_file (disk s)
  end.

Definition temp_file (s : Store) (t : target) : file_state :=
  match t with
  | TradeHistory => trade_history_tmp s
  | OpenPositions => open_positions_tmp s
  end.

Definition set_files (s : Store) (t : target) (temp final : file_state) : Store :=
  match t with
  | TradeHistory =>
      {| disk := {| Execution.trade_history_file := final;
                    Execution.open_positions_file :=
                      Execution.open_positions_file (disk s) |};
         trade_history_tmp := temp;
         open_positions_tmp := open_positions_tmp s;
         faults := faults s; writes := S (writes s) |}
  | OpenPositions =>
      {| disk := {| Execution.trade_history_file :=
                      Execution.trade_history_file (disk s);
                    Execution.open_positions_file := final |};
         trade_history_tmp := trade_history_tmp s;
         open_positions_tmp := temp;
         faults := faults s; writes := S (writes s) |}
  end.

(** [with open(temp_file, 'w') as f: json.dump(doc, f)] followed by
    [os.rename(temp_file, target)]. *)
Definition write_then_rename (t : target) (doc : json) (s : Store)
  : result unit * Store :=
  match faults s (writes s) with
  | OpenFails =>
      (Raise OSError, set_files s t (temp_file s t) (target_file s t))
  | WriteFails partial =>
      (Raise OSError,
       set_files s t
         (match partial with EmptyString => Empty | _ => Corrupt partial end)
         (target_file s t))
  | RenameFails =>
      (Raise OSError, set_files s t (Valid doc) (target_file s t))
  | NoFault =>
      (Ok tt, set_files s t Missing (Valid doc))
  end.

(** [save_open_positions] *)
Definition save_open_positions (positions : list json) (s : Store)
  : result unit * Store :=
  write_then_rename OpenPositions (JList positions) s.

(** [save_trade_history]: [trades.append] exists on lists only. *)
Definition save_trade_history (trade : json) (s : Store) : result unit * Store :=
  match Execution.load_trade_history (disk s) with
  | Raise e => (Raise e, s)
  | Ok (JList trades) =>
      write_then_rename TradeHistory (JList (trades ++ [trade])) s
  | Ok _ => (Raise AttributeError, s)
  end.

(** Saving trades one after another; stops at the first that raises. *)
Fixpoint save_trades (trades : list json) (s : Store) : result unit * Store :=
  match trades with
  | [] => (Ok tt, s)
  | trade :: rest =>
      match save_trade_history trade s with
      | (Ok _, s') => save_trades rest s'
      | (Raise e, s') => (Raise e, s')
      end
  end.

(** A store on which every write goes through. *)
Definition healthy (s : Store) : Prop := forall n, faults s n = NoFault.

End StateManager.

(** *** FirstRunSafetyTrade *)

Module FirstRunSafetyTrade.

(** [bool(x)] of a JSON value *)
Definition truthy (x : json) : bool :=
  match x with
  | JNull => false
  | JBool b => b
  | JInt z => negb (Z.eqb z 0)
  | JFloat q => negb (Qeq_bool q 0)
  | JStr s => negb (String.eqb s EmptyString)
  | JList l => match l with [] => false | _ => true end
  | JDict d => match d with [] => false | _ => true end
  end.

Fixpoint last_char (s : string) : string :=
  match s with
  | EmptyString => EmptyString
  | String c EmptyString => String c EmptyString
  | String _ rest => last_char rest
  end.

(** [x[-1]] *)
Definition last_item (x : json) : result json :=
  match x with
  | JList l =>
      match nth_from_end 1 l with
      | Some v => Ok v
      | None => Raise IndexError
      end
  | JStr s =>
      match s with
      | EmptyString => Raise IndexError
      | _ => Ok (JStr (last_char s))
      end
  | JDict _ => Raise (KeyError "-1")
  | _ => Raise TypeError
  end.

(** The outcome of the check, one constructor per message. *)
Inductive status : Type :=
| MarkerMissing
| NoTradeHistory
| EmptyTradeHistory
| NoTradesInLast30Days (days_since : Z)
| HistoryRecent
| ErrorReadingHistory.

(** What [FirstRunSafetyTrade] reads on disk. *)
Record Files : Type := {
  marker_file : file_state;
  trade_history_file : file_state
}.

Section Clock.

(** [now_iso] is [datetime.utcnow().isoformat()]; [days_since s] is
    [(datetime.utcnow() - datetime.fromisoformat(s)).days], which raises
    when [s] is no ISO timestamp (or carries a time zone). *)
Variable now_iso : string.
Variable days_since : string -> result Z.

(** The body of the [try] block of [check_first_run_status]. *)
Definition check_history (f : Files) : result (bool * status) :=
  trades <- read_json (trade_history_file f) ;;
  if negb (truthy trades) then Ok (true, EmptyTradeHistory)
  else
    last_trade <- last_item trades ;;
    fallback <- Json.get last_trade "entry_time" (JStr now_iso) ;;
    stamp <- Json.get last_trade "close_time" fallback ;;
    days <- match stamp with
            | JStr s => days_since s
            | _ => Raise TypeError
            end ;;
    if (30 <=? days)%Z then Ok (true, NoTradesInLast30Days days)
    else Ok (false, HistoryRecent).

(** [check_first_run_status]; the handler is a bare [except]. *)
Definition check_first_run_status (f : Files) : result (bool * status) :=
  marker <- exists_ (marker_file f) ;;
  if negb marker then Ok (true, MarkerMissing)
  else
    history <- exists_ (trade_history_file f) ;;
    if negb history then Ok (true, NoTradeHistory)
    else try_except bare_except (check_history f)
           (fun _ => Ok (true, ErrorReadingHistory)).

End Clock.

(** The order parameters computed by [execute_safety_trade]:
    position size, stop-loss, target 1, target 2. *)
Definition safety_parameters (signal_direction : string)
  (current_price account_balance : Q) : result (Q * Q * Q * Q) :=
  let safety_risk_pct := 2 # 100 in
  let safety_risk_amount := account_balance * (safety_risk_pct / 100) in
  let sl_distance := current_price * (1 # 100) in
  size <- (if Qlt_bool 0 sl_distance
           then pydiv safety_risk_amount sl_distance
           else Ok (1 # 1000)) ;;
  let safety_position_size := Qmax size (1 # 1000) in
  let buy := String.eqb signal_direction "BUY" in
  let sl_price :=
    if buy then current_price - sl_distance else current_price + sl_distance in
  let tp1_price :=
    if buy then current_price + sl_distance * (15 # 10)
    else current_price - sl_distance * (15 # 10) in
  let tp2_price :=
    if buy then current_price + sl_distance * (25 # 10)
    else current_price - sl_distance * (25 # 10) in
  Ok (safety_position_size, sl_price, tp1_price, tp2_price).

(** [execute_safety_trade] *)
Definition execute_safety_trade (ex : Execution.Exchange)
  (config : Execution.Config) (symbol signal_direction : string)
  (current_price account_balance : Q) (r : Execution.Run)
  : result (option json) * Execution.Run :=
  match safety_parameters signal_direction current_price account_balance with
  | Raise e => (Raise e, r)
  | Ok (safety_position_size, sl_price, tp1_price, tp2_price) =>
      Execution.submit_order_with_retry ex config symbol signal_direction
        safety_position_size current_price sl_price tp1_price tp2_price r
  end.

End FirstRunSafetyTrade.

(** *** GracefulShutdown *)

Module GracefulShutdown.

(** An open order as [fetch_open_orders] lists it. *)
Record Order : Type := {
  order_id : string;
  order_symbol : string
}.

(** What awaiting an exchange call inside [asyncio.wait_for] can bring:
    a value, an exception, or the expiry of the 30 s bound while the call
    is pending. *)
Inductive awaited (A : Type) : Type :=
| Returned (a : A)
| Raised (e : exn)
| TimedOut.

Arguments Returned {A} a.
Arguments Raised {A} e.
Arguments TimedOut {A}.

(** The exchange as shutdown uses it; [cancel_order n o] is the outcome
    of the [n]-th cancellation, made for order [o]. *)
Record Exchange : Type := {
  fetch_open_orders : awaited (list Order);
  cancel_order : nat -> Order -> awaited unit;
  close : result unit
}.

(** How a sweep ends: it returns, it is interrupted by something that is
    not an [Exception], or the bound expires. *)
Inductive sweep : Type :=
| Swept
| Interrupted (e : exn)
| Expired.

(** The [for order in open_orders] loop of [cancel_pending_orders];
    [n] cancellations have been made so far, [made] lists them (latest
    first). *)
Fixpoint cancel_loop (ex : Exchange) (orders : list Order) (n : nat)
  (made : list Order) : sweep * list Order :=
  match orders with
  | [] => (Swept, made)
  | order :: rest =>
      match cancel_order ex n order with
      | Returned _ => cancel_loop ex rest (S n) (order :: made)
      | Raised e =>
          if is_Exception e then cancel_loop ex rest (S n) (order :: made)
          else (Interrupted e, order :: made)
      | TimedOut => (Expired, order :: made)
      end
  end.

(** [cancel_pending_orders]: the sweep's end and the cancellations
    attempted, oldest first. *)
Definition cancel_pending_orders (ex : Exchange) : sweep * list Order :=
  match fetch_open_orders ex with
  | Returned open_orders =>
      let (end_, made) := cancel_loop ex open_orders 0 [] in (end_, rev made)
  | Raised e => if is_Exception e then (Swept, []) else (Interrupted e, [])
  | TimedOut => (Expired, [])
  end.

(** What one [cleanup] leaves behind. *)
Record Outcome : Type := {
  returned : result Z;
  store : StateManager.Store;
  cancellations : list Order;
  close_called : bool
}.

(** [if positions:] / [if trades:] on an optional list *)
Definition given (l : option (list json)) : list json :=
  match l with Some l => l | None => [] end.

(** [cleanup] *)
Definition cleanup (ex : Exchange) (positions trades : option (list json))
  (s : StateManager.Store) : Outcome :=
  match cancel_pending_orders ex with
  | (Expired, made) =>
      {| returned := Ok 1%Z; store := s; cancellations := made;
         close_called := false |}
  | (Interrupted e, made) =>
      {| returned := Raise e; store := s; cancellations := made;
         close_called := false |}
  | (Swept, made) =>
      let (saved, s) :=
        match given positions with
        | [] => (Ok tt, s)
        | ps => StateManager.save_open_positions ps s
        end in
      match saved with
      | Raise e =>
          {| returned := Raise e; store := s; cancellations := made;
             close_called := false |}
      | Ok _ =>
          match StateManager.save_trades (given trades) s with
          | (Raise e, s) =>
              {| returned := Raise e; store := s; cancellations := made;
                 close_called := false |}
          | (Ok _, s) =>
              match close ex with
              | Raise e =>
                  if is_Exception e
                  then {| returned := Ok 0%Z; store := s; cancellations := made;
                          close_called := true |}
                  else {| returned := Raise e; store := s; cancellations := made;
                          close_called := true |}
              | Ok _ =>
                  {| returned := Ok 0%Z; store := s; cancellations := made;
                     close_called := true |}
              end
          end
      end
  end.

(** No cancellation is interrupted or runs into the bound. *)
Definition cancels_settle (ex : Exchange) : Prop :=
  forall n o,
    cancel_order ex n o <> TimedOut
    /\ forall e, cancel_order ex n o = Raised e -> is_Exception e = true.

End GracefulShutdown.

(* ================================================================= *)
(** ** modules/sweep.py *)

Module Sweep.

Import SupportResistance.

Record LiquiditySweepDetector : Type := {
  wick_touch_tolerance : Q;
  min_closure_ratio : Q
}.

(** [__init__] with its default arguments. *)
Definition __init__ : LiquiditySweepDetector :=
  {| wick_touch_tolerance := 1 # 1000; min_closure_ratio := 5 # 10 |}.

Inductive direction : Type := Up | Down | NoDirection.

Record WickTouch : Type := {
  touched : bool;
  wt_direction : direction;
  distance : Q
}.

(** [detect_wick_touch]; the previous candle is not read. *)
Definition detect_wick_touch (d : LiquiditySweepDetector)
  (current_candle previous_candle : Candle) (zone_price : Q) : WickTouch :=
  let high := c_high current_candle in
  let low := c_low current_candle in
  let tolerance := zone_price * wick_touch_tolerance d in
  if Qle_bool (zone_price - tolerance) high && Qle_bool high (zone_price + tolerance)
  then {| touched := true; wt_direction := Up;
          distance := Qabs (high - zone_price) |}
  else if Qle_bool (zone_price - tolerance) low && Qle_bool low (zone_price + tolerance)
  then {| touched := true; wt_direction := Down;
          distance := Qabs (low - zone_price) |}
  else {| touched := false; wt_direction := NoDirection;
          distance := Qmin (Qabs (high - zone_price)) (Qabs (low - zone_price)) |}.

Record Closure : Type := {
  inside : bool;
  closure_ratio : Q
}.

(** [validate_closure_inside] *)
Definition validate_closure_inside (d : LiquiditySweepDetector)
  (current_candle previous_candle : Candle) : result Closure :=
  let prev_high := c_high previous_candle in
  let prev_low := c_low previous_candle in
  let curr_close := c_close current_candle in
  let inside := Qle_bool prev_low curr_close && Qle_bool curr_close prev_high in
  closure_ratio <-
    (if inside then
       let prev_range := prev_high - prev_low in
       if Qeq_bool prev_range 0 then Ok (5 # 10)
       else pydiv (curr_close - prev_low) prev_range
     else Ok 0) ;;
  Ok {| inside := inside; closure_ratio := closure_ratio |}.

(** The dictionary kept in [best_sweep]. *)
Record Best : Type := {
  best_direction : direction;
  best_touched_level : Q;
  best_zone_strength : Q
}.

(** The body of the [for zone in sr_zones] loop up to the comparison with
    the best score: [None] when the zone is skipped ([continue]),
    otherwise the zone's final score and the entry it would leave in
    [best_sweep].  Every zone carries a [strength], so the default of
    [zone.get('strength', 0.5)] is never used. *)
Definition zone_sweep (d : LiquiditySweepDetector) (current previous : Candle)
  (zone : Zone) : result (option (Q * Best)) :=
  let wick_touch := detect_wick_touch d current previous (z_price zone) in
  if negb (touched wick_touch) then Ok None
  else
    closure <- validate_closure_inside d current previous ;;
    if negb (inside closure) then Ok None
    else
      q <- pydiv (distance wick_touch) (z_price zone * (1 # 100)) ;;
      let touch_score := 1 - Qmin 1 q in
      let closure_score :=
        if Qlt_bool (min_closure_ratio d) (closure_ratio closure)
        then closure_ratio closure else 0 in
      let final_score := (touch_score + closure_score) / 2 * z_strength zone in
      Ok (Some (final_score,
                {| best_direction := wt_direction wick_touch;
                   best_touched_level := z_price zone;
                   best_zone_strength := z_strength zone |})).

(** The loop itself, threading [best_sweep] and [best_score]. *)
Fixpoint sweep_loop (d : LiquiditySweepDetector) (current previous : Candle)
  (sr_zones : list Zone) (best_sweep : option Best) (best_score : Q)
  : result (option Best * Q) :=
  match sr_zones with
  | [] => Ok (best_sweep, best_score)
  | zone :: rest =>
      c <- zone_sweep d current previous zone ;;
      match c with
      | Some (final_score, candidate) =>
          if Qlt_bool best_score final_score
          then sweep_loop d current previous rest (Some candidate) final_score
          else sweep_loop d current previous rest best_sweep best_score
      | None => sweep_loop d current previous rest best_sweep best_score
      end
  end.

Record SweepResult : Type := {
  sweep_detected : bool;
  sr_direction : direction;
  score : Q;
  touched_level : option Q;
  zone_strength : option Q
}.

Definition no_sweep : SweepResult :=
  {| sweep_detected := false; sr_direction := NoDirection; score := 0;
     touched_level := None; zone_strength := None |}.

(** [detect_sweep] *)
Definition detect_sweep (d : LiquiditySweepDetector) (candles : list Candle)
  (sr_zones : list Zone) : result SweepResult :=
  match rev candles with
  | current :: previous :: _ =>
      best <- sweep_loop d current previous sr_zones None 0 ;;
      match fst best with
      | None => Ok no_sweep
      | Some best_sweep =>
          Ok {| sweep_detected := true;
                sr_direction := best_direction best_sweep;
                score := Qmin 1 (snd best);
                touched_level := Some (best_touched_level best_sweep);
                zone_strength := Some (best_zone_strength best_sweep) |}
      end
  | _ => Ok no_sweep
  end.

(** A zone a sweep can be measured against: a positive price and a
    strength in [[0, 1]]. *)
Definition sweepable (z : Zone) : Prop :=
  0 < z_price z /\ 0 <= z_strength z /\ z_strength z <= 1.

End Sweep.

(* ================================================================= *)
(** ** modules/trend.py *)

Module Trend.

(** The two periods are positive integers: for a period of 0
    [calculate_ema] seeds the series with the mean of an empty slice,
    which numpy evaluates to NaN, and NaN has no counterpart here. *)
Record TrendAnalyzer : Type := {
  ema_fast : positive;
  ema_slow : positive
}.

(** [__init__] with its default arguments. *)
Definition __init__ : TrendAnalyzer := {| ema_fast := 50; ema_slow := 200 |}.

(** The [for i in range(period, len(closes))] loop: [previous] is
    [ema[i - 1]] and the list holds [closes[i:]]. *)
Fixpoint ema_loop (multiplier previous : Q) (closes : list Q) : list Q :=
  match closes with
  | [] => []
  | close :: rest =>
      let ema_i := close * multiplier + previous * (1 - multiplier) in
      ema_i :: ema_loop multiplier ema_i rest
  end.

(** [calculate_ema]: the array starts as zeros, and its first
    [period - 1] entries stay zero.  Each later entry is an exact convex
    combination here; the binary64 recurrence rounds at every step and
    can leave the range of the closes by one unit in the last place. *)
Definition calculate_ema (closes : list Q) (period : positive)
  : option (list Q) :=
  let p := Pos.to_nat period in
  if Nat.ltb (length closes) p then None
  else
    let multiplier := 2 / (inject_Z (Z.pos period) + 1) in
    let seed := mean (firstn p closes) in
    Some (repeat 0 (p - 1)%nat ++ seed :: ema_loop multiplier seed (skipn p closes)).

Inductive trend : Type := Bullish | Bearish | Ranging | Neutral.

Record TrendResult : Type := {
  tr_trend : trend;
  tr_ema50 : option Q;
  tr_ema200 : option Q
}.

Definition ranging : TrendResult :=
  {| tr_trend := Ranging; tr_ema50 := None; tr_ema200 := None |}.

(** [analyze_trend]; [ema[-1]] of an empty array raises [IndexError]. *)
Definition analyze_trend (a : TrendAnalyzer) (m15_candles : list Candle)
  : result TrendResult :=
  if Nat.ltb (length m15_candles) (Pos.to_nat (ema_slow a)) then Ok ranging
  else
    let closes := map c_close m15_candles in
    match calculate_ema closes (ema_fast a), calculate_ema closes (ema_slow a) with
    | Some ema50, Some ema200 =>
        match nth_from_end 1 ema50, nth_from_end 1 ema200 with
        | Some current_ema50, Some current_ema200 =>
            let tolerance := current_ema200 * (5 # 1000) in
            let trend :=
              if Qlt_bool (current_ema200 + tolerance) current_ema50 then Bullish
              else if Qlt_bool current_ema50 (current_ema200 - tolerance) then Bearish
              else Ranging in
            Ok {| tr_trend := trend; tr_ema50 := Some current_ema50;
                  tr_ema200 := Some current_ema200 |}
        | _, _ => Raise IndexError
        end
    | _, _ => Ok ranging
    end.

Record BiasResult : Type := {
  bias : trend;
  body_position : Q
}.

Definition neutral : BiasResult := {| bias := Neutral; body_position := 5 # 10 |}.

(** [analyze_h1_bias]; [None] is a missing (or empty) candle.  The
    body position is the exact quotient here; binary64 rounds the
    midpoint and the quotient, so a candle whose body is centred exactly
    on the middle of its range can be answered bullish or bearish
    instead of neutral. *)
Definition analyze_h1_bias (a : TrendAnalyzer) (h1_candle : option Candle)
  : result BiasResult :=
  match h1_candle with
  | None => Ok neutral
  | Some h1_candle =>
      let open_price := c_open h1_candle in
      let close_price := c_close h1_candle in
      let high := c_high h1_candle in
      let low := c_low h1_candle in
      let candle_range := high - low in
      if Qeq_bool candle_range 0 then Ok neutral
      else
        let mid_point := (open_price + close_price) / 2 in
        body_position <- pydiv (mid_point - low) candle_range ;;
        let bias :=
          if Qlt_bool (5 # 10) body_position then Bullish
          else if Qlt_bool body_position (5 # 10) then Bearish
          else Neutral in
        Ok {| bias := bias; body_position := body_position |}
  end.

Definition trend_eqb (a b : trend) : bool :=
  match a, b with
  | Bullish, Bullish | Bearish, Bearish | Ranging, Ranging | Neutral, Neutral => true
  | _, _ => false
  end.

Record Confirmation : Type := {
  m15_trend : trend;
  h1_bias : trend;
  confirmed : bool;
  ema50 : option Q;
  ema200 : option Q;
  h1_body_position : Q
}.

(** [get_trend_confirmation] *)
Definition get_trend_confirmation (a : TrendAnalyzer)
  (m15_candles : list Candle) (h1_candle : option Candle)
  : result Confirmation :=
  m15_trend <- analyze_trend a m15_candles ;;
  h1_bias <- analyze_h1_bias a h1_candle ;;
  let m15_direction := tr_trend m15_trend in
  let h1_direction := bias h1_bias in
  let confirmed :=
    if trend_eqb m15_direction Bullish && trend_eqb h1_direction Bullish then true
    else if trend_eqb m15_direction Bearish && trend_eqb h1_direction Bearish then true
    else if trend_eqb m15_direction Ranging then true
    else false in
  Ok {| m15_trend := m15_direction; h1_bias := h1_direction;
        confirmed := confirmed;
        ema50 := tr_ema50 m15_trend; ema200 := tr_ema200 m15_trend;
        h1_body_position := body_position h1_bias |}.

End Trend.

(* ================================================================= *)
(** ** A quiet market that ends in a surge *)

Module Rally.

(** A small falling candle around 100. *)
Definition quiet : Candle :=
  {| c_open := 1002 # 10; c_high := 1005 # 10; c_low := 995 # 10;
     c_close := 100; c_volume := 1 |}.

(** A candle that opens at 100 and closes on its high at 200. *)
Definition surge : Candle :=
  {| c_open := 100; c_high := 200; c_low := 99; c_close := 200;
     c_volume := 50 |}.

(** Fifty-nine quiet candles followed by the surge. *)
Definition candles : list Candle := repeat quiet 59 ++ [surge].

End Rally.

(* ================================================================= *)
(** ** modules/support_resistance.py, continued *)

Module SupportResistanceQueries.

Import SupportResistance.

(** [get_zones]; an empty candle list passes for no candles. *)
Definition get_zones (d : Detector) (candles : list Candle)
  : Detector * list Zone :=
  match candles with
  | [] => (d, zones d)
  | _ => let '(d', zs, _) := update_zones d candles in (d', zs)
  end.

(** The dictionary returned by [find_nearest_zone]. *)
Record Nearest : Type := {
  n_price : Q;
  n_distance : Q;
  n_type : swing_type;
  n_strength : Q;
  n_touches : nat
}.

(** [min(filtered_zones, key=lambda z: abs(z['price'] - price))]: the
    first zone with the smallest key. *)
Fixpoint nearest_loop (price : Q) (best : Zone) (rest : list Zone) : Zone :=
  match rest with
  | [] => best
  | z :: rest' =>
      if Qlt_bool (Qabs (z_price z - price)) (Qabs (z_price best - price))
      then nearest_loop price z rest'
      else nearest_loop price best rest'
  end.

(** The zones [find_nearest_zone] chooses from; [zone_type] is ['high'],
    ['low'] or absent. *)
Definition filtered_zones (d : Detector) (zone_type : option swing_type)
  : list Zone :=
  match zone_type with
  | Some t => filter (fun z => swing_type_eqb (z_type z) t) (zones d)
  | None => zones d
  end.

(** [find_nearest_zone] *)
Definition find_nearest_zone (d : Detector) (price : Q)
  (zone_type : option swing_type) : option Nearest :=
  match zones d with
  | [] => None
  | _ =>
      match filtered_zones d zone_type with
      | [] => None
      | first :: rest =>
          let nearest := nearest_loop price first rest in
          let distance := Qabs (z_price nearest - price) in
          Some {| n_price := z_price nearest; n_distance := distance;
                  n_type := z_type nearest; n_strength := z_strength nearest;
                  n_touches := z_touches nearest |}
      end
  end.

(** A zone as [cluster_zones] builds it from swings priced within
    [[lo, hi]]: at least one touch, the strength that goes with the
    touches, and a price within the same bounds. *)
Definition clustered_within (lo hi : Q) (z : Zone) : Prop :=
  (1 <= z_touches z)%nat
  /\ z_strength z == Qmin 1 (inject_Z (Z.of_nat (z_touches z)) / 5)
  /\ lo <= z_price z /\ z_price z <= hi.

(** The highs and lows of a candle list, as [detect_swings] reads them. *)
Definition highs (candles : list Candle) : list Q := map c_high candles.
Definition lows (candles : list Candle) : list Q := map c_low candles.

End SupportResistanceQueries.

(* ================================================================= *)
(** ** modules/signal_generator.py *)

Module SignalGenerator.

Inductive reason : Type :=
| insufficient_data
| spread_too_wide
| no_breakout
| strength_too_low.

(** The [component_scores] dictionary. *)
Record ComponentScores : Type := {
  trend_strength : Q;
  breakout_score : Q;
  sweep_score : Q;
  pa_score : Q;
  trend_direction : Trend.trend;
  h1_bias : Trend.trend
}.

(** The [SignalResult] dataclass; an empty [component_scores] dictionary
    is [None], and the time stamp (never set) is left out. *)
Record SignalResult : Type := {
  symbol : string;
  direction : Breakout.signal;
  entry_price : Q;
  stop_loss : Q;
  tp1 : Q;
  tp2 : Q;
  signal_strength : Q;
  confirmation_count : nat;
  component_scores : option ComponentScores;
  skip_reason : option reason
}.

Record SignalGenerator : Type := {
  trend_analyzer : Trend.TrendAnalyzer;
  sr_detector : SupportResistance.Detector;
  breakout_engine : Breakout.BreakoutEngine;
  sweep_detector : Sweep.LiquiditySweepDetector;
  pa_analyzer : PriceAction.PriceActionAnalyzer;
  min_signal_strength : Q;
  max_spread_points : Q;
  atr_multiplier_tp1 : Q;
  atr_multiplier_tp2 : Q
}.

(** [__init__] without a configuration: every engine with its defaults. *)
Definition __init__ : SignalGenerator :=
  {| trend_analyzer := Trend.__init__;
     sr_detector := SupportResistance.__init__ 3 (5 # 10000) 2;
     breakout_engine := Breakout.__init__;
     sweep_detector := Sweep.__init__;
     pa_analyzer := {| PriceAction.min_confirmations := 2 |};
     min_signal_strength := 5 # 10;
     max_spread_points := 50;
     atr_multiplier_tp1 := 15 # 10;
     atr_multiplier_tp2 := 25 # 10 |}.

(** The generator after its zone detector has been updated. *)
Definition with_detector (g : SignalGenerator) (d : SupportResistance.Detector)
  : SignalGenerator :=
  {| trend_analyzer := trend_analyzer g;
     sr_detector := d;
     breakout_engine := breakout_engine g;
     sweep_detector := sweep_detector g;
     pa_analyzer := pa_analyzer g;
     min_signal_strength := min_signal_strength g;
     max_spread_points := max_spread_points g;
     atr_multiplier_tp1 := atr_multiplier_tp1 g;
     atr_multiplier_tp2 := atr_multiplier_tp2 g |}.

(** The two early returns. *)
Definition skipped (symbol : string) (entry_price : Q) (why : reason)
  : SignalResult :=
  {| symbol := symbol; direction := Breakout.NONE; entry_price := entry_price;
     stop_loss := 0; tp1 := 0; tp2 := 0; signal_strength := 0;
     confirmation_count := 0; component_scores := None;
     skip_reason := Some why |}.

(** [min(xs)] and [max(xs)]; on an empty list they raise [ValueError]. *)
Definition py_min (xs : list Q) : result Q :=
  match xs with
  | [] => Raise ValueError
  | x :: rest => Ok (min_list x rest)
  end.

Definition py_max (xs : list Q) : result Q :=
  match xs with
  | [] => Raise ValueError
  | x :: rest => Ok (max_list x rest)
  end.

(** The part of [generate_signal] that follows the update of the zones.
    [ema_values] is a numpy array there: dividing by an entry that is
    zero gives an infinity instead of raising, so the embedding agrees
    with the source where the latest average is not zero (as it is for
    positive closes).  Nothing in the [try] block around
    [calculate_ema] raises. *)
Definition evaluate (g : SignalGenerator) (symbol : string)
  (m5_candles : list Candle) (current_candle : Candle) (entry_price : Q)
  (trend_result : Trend.Confirmation) (sr_zones : list SupportResistance.Zone)
  : result SignalResult :=
  breakout_result <-
    Breakout.generate_breakout_signal (breakout_engine g) m5_candles ;;
  sweep_result <- Sweep.detect_sweep (sweep_detector g) m5_candles sr_zones ;;
  let closes := map c_close m5_candles in
  let ema_values := Trend.calculate_ema closes 50 in
  pa_result <-
    PriceAction.calculate_confirmation_score (pa_analyzer g) m5_candles
      (Some sr_zones) ema_values ;;
  let component_scores :=
    {| trend_strength := if Trend.confirmed trend_result then 7 # 10 else 3 # 10;
       breakout_score := Breakout.sig_strength breakout_result;
       sweep_score := Sweep.score sweep_result;
       pa_score := PriceAction.confirmation_score pa_result;
       trend_direction := Trend.m15_trend trend_result;
       h1_bias := Trend.h1_bias trend_result |} in
  match Breakout.sig_signal breakout_result with
  | Breakout.NONE =>
      Ok {| symbol := symbol; direction := Breakout.NONE;
            entry_price := entry_price; stop_loss := 0; tp1 := 0; tp2 := 0;
            signal_strength := 0;
            confirmation_count := PriceAction.confirmation_count pa_result;
            component_scores := Some component_scores;
            skip_reason := Some no_breakout |}
  | direction =>
      let final_strength :=
        mean [ trend_strength component_scores;
               breakout_score component_scores;
               sweep_score component_scores;
               pa_score component_scores ] in
      let confirmation_count := PriceAction.confirmation_count pa_result in
      let atm_tp :=
        match Breakout.calculate_atr m5_candles 14 with
        | Some atr => atr
        | None => Qabs (c_high current_candle - c_low current_candle)
        end in
      levels <-
        match direction with
        | Breakout.LONG =>
            low <- py_min (map c_low (last_n 20 m5_candles)) ;;
            Ok (low - 20 * (c_close current_candle / 10000),
                entry_price + atm_tp * atr_multiplier_tp1 g,
                entry_price + atm_tp * atr_multiplier_tp2 g)
        | _ =>
            high <- py_max (map c_high (last_n 20 m5_candles)) ;;
            Ok (high + 20 * (c_close current_candle / 10000),
                entry_price - atm_tp * atr_multiplier_tp1 g,
                entry_price - atm_tp * atr_multiplier_tp2 g)
        end ;;
      let '(stop_loss, tp1, tp2) := levels in
      if Qlt_bool final_strength (min_signal_strength g)
      then Ok {| symbol := symbol; direction := Breakout.NONE;
                 entry_price := entry_price; stop_loss := stop_loss;
                 tp1 := tp1; tp2 := tp2; signal_strength := final_strength;
                 confirmation_count := confirmation_count;
                 component_scores := Some component_scores;
                 skip_reason := Some strength_too_low |}
      else Ok {| symbol := symbol; direction := direction;
                 entry_price := entry_price; stop_loss := stop_loss;
                 tp1 := tp1; tp2 := tp2; signal_strength := final_strength;
                 confirmation_count := confirmation_count;
                 component_scores := Some component_scores;
                 skip_reason := None |}
  end.

(** [generate_signal]: the result (or the exception) and the generator
    afterwards.  Only the zone detector can change, and it has been
    updated by the time anything after it raises. *)
Definition generate_signal (g : SignalGenerator) (symbol : string)
  (m5_candles m15_candles h1_candles : list Candle)
  (current_bid_ask_spread : Q) : result SignalResult * SignalGenerator :=
  match nth_from_end 1 m5_candles, m15_candles, nth_from_end 1 h1_candles with
  | Some current_candle, _ :: _, Some h1_candle =>
      let entry_price := (c_high current_candle + c_low current_candle) / 2 in
      let spread_check := Qlt_bool (max_spread_points g) current_bid_ask_spread in
      if spread_check then (Ok (skipped symbol entry_price spread_too_wide), g)
      else
        match Trend.get_trend_confirmation (trend_analyzer g) m15_candles
                (Some h1_candle) with
        | Raise e => (Raise e, g)
        | Ok trend_result =>
            let (d, sr_zones) :=
              SupportResistanceQueries.get_zones (sr_detector g) m5_candles in
            (evaluate g symbol m5_candles current_candle entry_price
               trend_result sr_zones,
             with_detector g d)
        end
  | _, _, _ => (Ok (skipped symbol 0 insufficient_data), g)
  end.

End SignalGenerator.

(* ================================================================= *)
(** ** A window fetched twice *)

Module Replay.

Definition candle_eqb (a b : Candle) : bool :=
  Qeq_bool (c_open a) (c_open b) && Qeq_bool (c_high a) (c_high b)
  && Qeq_bool (c_low a) (c_low b) && Qeq_bool (c_close a) (c_close b)
  && Qeq_bool (c_volume a) (c_volume b).

(** [xs] is how [ys] starts. *)
Fixpoint starts (xs ys : list Candle) : bool :=
  match xs, ys with
  | [], _ => true
  | x :: xs', y :: ys' => candle_eqb x y && starts xs' ys'
  | _ :: _, [] => false
  end.

(** The new candles of a window, as the specification counts them: the
    candles that follow, in [window], the longest end of the window
    fetched before it that [window] starts with. *)
Fixpoint new_candles (previous window : list Candle) : nat :=
  match previous with
  | [] => length window
  | _ :: rest =>
      if starts previous window then (length window - length previous)%nat
      else new_candles rest window
  end.

(** The latest 100 candles, as the trading loop fetches them: a flat
    market around two peaks. *)
Definition first_window : list Candle :=
  repeat (Sample.rising 10 11) 43 ++ Sample.two_peaks
  ++ repeat (Sample.rising 10 11) 44.

Definition newest : Candle := Sample.rising 10 11.

(** The latest 100 candles one candle later. *)
Definition second_window : list Candle := skipn 1 first_window ++ [newest].

End Replay.

(* ================================================================= *)
(** ** Inputs outside the domain of the pattern detectors *)

Module Degenerate.

(** A candle whose high lies below its low. *)
Definition inverted : Candle :=
  {| c_open := 105 # 10; c_high := 10; c_low := 11; c_close := 105 # 10;
     c_volume := 1 |}.

(** A falling candle through 100. *)
Definition falling : Candle :=
  {| c_open := 1005 # 10; c_high := 101; c_low := 99; c_close := 995 # 10;
     c_volume := 1 |}.

(** A zone whose strength is negative. *)
Definition weak_zone : SupportResistance.Zone :=
  {| SupportResistance.z_price := 100;
     SupportResistance.z_type := SupportResistance.High;
     SupportResistance.z_touches := 2%nat;
     SupportResistance.z_strength := -1 |}.

End Degenerate.

(* ================================================================= *)
(** ** Proof steps used repeatedly *)

(** Split a [Forall] over a list with known first elements. *)
Ltac wf_inv H :=
  repeat match type of H with
         | Forall _ (_ :: _) =>
             let a := fresh "W" in
             apply Forall_cons_iff in H; destruct H as [a H]
         end.

(** A detector that returns [not_detected]: confidence 0. *)
Ltac undetected :=
  eexists; split; [reflexivity | split; vm_compute; discriminate].

(** A list of patterns, each known to have its confidence in [[0, 1]]. *)
Ltac in_unit_all :=
  cbn [map snd app]; repeat (apply Forall_cons; [assumption|]); apply Forall_nil.

(* ================================================================= *)
(** * Verified properties *)

(** ** Basic facts about the built-ins *)

Lemma Qlt_bool_iff (x y : Q) : Qlt_bool x y = true <-> x < y.
Proof.
  unfold Qlt_bool. rewrite negb_true_iff. split; intro H.
  - apply Qnot_le_lt. intro L. apply Qle_bool_iff in L. congruence.
  - destruct (Qle_bool y x) eqn:E; [|reflexivity].
    apply Qle_bool_iff in E. exfalso. apply (Qlt_not_le _ _ H E).
Qed.

Lemma Qlt_bool_false_iff (x y : Q) : Qlt_bool x y = false <-> y <= x.
Proof.
  unfold Qlt_bool. rewrite negb_false_iff. apply Qle_bool_iff.
Qed.

Lemma Qle_bool_false_iff (x y : Q) : Qle_bool x y = false <-> y < x.
Proof.
  rewrite <- Qlt_bool_iff. unfold Qlt_bool.
  destruct (Qle_bool x y); simpl; intuition congruence.
Qed.

Lemma Qeq_bool_false_iff (x y : Q) : Qeq_bool x y = false <-> ~ x == y.
Proof.
  split.
  - apply Qeq_bool_neq.
  - intro H. destruct (Qeq_bool x y) eqn:E; [|reflexivity].
    apply Qeq_bool_eq in E. contradiction.
Qed.

Lemma pydiv_ok (a b : Q) : ~ b == 0 -> pydiv a b = Ok (a / b).
Proof.
  intro H. unfold pydiv. apply Qeq_bool_false_iff in H. rewrite H. reflexivity.
Qed.

Lemma pydiv_zero (a b : Q) : b == 0 -> pydiv a b = Raise ZeroDivisionError.
Proof.
  intro H. unfold pydiv. apply Qeq_eq_bool in H. rewrite H. reflexivity.
Qed.


Lemma scale_pos (n : nat) : 0 < inject_Z (10 ^ Z.of_nat n).
Proof.
  change 0 with (inject_Z 0). rewrite <- Zlt_Qlt.
  apply Z.pow_pos_nonneg; lia.
Qed.


(* ----------------------------------------------------------------- *)
(** ** Risk engine *)

Lemma position_size_unequal (rm : Risk.RiskManager) (e s : Q) :
  ~ e == s ->
  Risk.position_size rm e s = Ok (Py.round (Reference.unrounded_size rm e s) 8).
Proof.
  intro H. unfold Risk.position_size.
  apply Qeq_bool_false_iff in H as Hb. rewrite Hb.
  rewrite pydiv_ok; [reflexivity|].
  intro A. apply H.
  destruct (Qabs_Qle_condition (e - s) 0) as [F _].
  destruct F as [F1 F2]; [rewrite A; apply Qle_refl|]. lra.
Qed.

Lemma position_size_equal (rm : Risk.RiskManager) (e s : Q) :
  e == s -> Risk.position_size rm e s = Ok 0.
Proof.
  intro H. unfold Risk.position_size.
  apply Qeq_eq_bool in H. rewrite H. reflexivity.
Qed.




Lemma spread_filter_invalid_quote (rm : Risk.RiskManager) (bid ask : Q) :
  bid <= 0 \/ ask <= 0 \/ ask < bid -> Risk.spread_filter rm bid ask = Ok false.
Proof.
  intro H. unfold Risk.spread_filter.
  destruct H as [H | [H | H]].
  - apply Qle_bool_iff in H. rewrite H. reflexivity.
  - apply Qle_bool_iff in H. rewrite H, orb_true_r. reflexivity.
  - apply Qlt_bool_iff in H. rewrite H, orb_true_r. reflexivity.
Qed.

Lemma spread_filter_valid_quote (rm : Risk.RiskManager) (bid ask : Q) :
  0 < bid -> 0 < ask -> bid <= ask ->
  Risk.spread_filter rm bid ask
  = Ok (Qlt_bool (Reference.spread_in_points bid ask) (Risk.max_spread_points rm)).
Proof.
  intros Hb Ha Hc. unfold Risk.spread_filter, Risk.spread_points.
  assert (Hn : ~ bid == 0) by (intro E; rewrite E in Hb; discriminate Hb).
  apply Qle_bool_false_iff in Hb as ->.
  apply Qle_bool_false_iff in Ha as ->.
  apply Qlt_bool_false_iff in Hc as ->.
  simpl. rewrite (pydiv_ok _ _ Hn). reflexivity.
Qed.

(** C6, as stated, fails.  The two quoted spreads are not 5 and 1000
    points: by the claim's own formula bid=100, ask=100.005 is 0.5 points
    and bid=100, ask=101 is 100 points.  And rejection is not "exactly
    when the spread exceeds the ceiling": at bid=200, ask=201 the spread
    is 50 points, which does not exceed the 50-point ceiling, the quote is
    positive and not crossed, and the code rejects. *)
Lemma spread_filter_claim_fails :
  (exists sp, Risk.spread_points 100 (100005 # 1000) = Ok sp
              /\ sp == 1 # 2 /\ ~ sp == 5)
  /\ (exists sp, Risk.spread_points 100 101 = Ok sp
                 /\ sp == 100 /\ ~ sp == 1000)
  /\ (exists sp, Risk.spread_points 200 201 = Ok sp
                 /\ ~ Risk.max_spread_points Reference.test_manager < sp
                 /\ 0 < 200 /\ 0 < 201 /\ 200 <= 201
                 /\ Risk.spread_filter Reference.test_manager 200 201 = Ok false).
Proof.
  split; [|split].
  - eexists. split; [vm_compute; reflexivity|].
    split; [reflexivity | vm_compute; discriminate].
  - eexists. split; [vm_compute; reflexivity|].
    split; [reflexivity | vm_compute; discriminate].
  - eexists. split; [vm_compute; reflexivity|].
    repeat split; try (vm_compute; reflexivity); try (vm_compute; discriminate).
Qed.

(** C6, amended: [spread_filter] rejects whenever bid or ask is
    non-positive or bid exceeds ask, and whenever
    [(ask - bid) / bid * 10000] exceeds the configured ceiling; it accepts
    a positive, uncrossed quote whose spread is strictly below the
    ceiling.  With a 50-point ceiling, bid=100 and ask=100.005 (0.5
    points) is accepted and bid=100 and ask=101 (100 points) is
    rejected. *)
Theorem spread_filter_gate :
  (forall rm bid ask, bid <= 0 \/ ask <= 0 \/ ask < bid ->
     Risk.spread_filter rm bid ask = Ok false)
  /\ (forall rm bid ask, 0 < bid -> 0 < ask -> bid <= ask ->
        Risk.max_spread_points rm < Reference.spread_in_points bid ask ->
        Risk.spread_filter rm bid ask = Ok false)
  /\ (forall rm bid ask, 0 < bid -> 0 < ask -> bid <= ask ->
        Reference.spread_in_points bid ask < Risk.max_spread_points rm ->
        Risk.spread_filter rm bid ask = Ok true)
  /\ (Risk.max_spread_points Reference.test_manager == 50
      /\ Reference.spread_in_points 100 (100005 # 1000) == 1 # 2
      /\ Risk.spread_filter Reference.test_manager 100 (100005 # 1000) = Ok true
      /\ Reference.spread_in_points 100 101 == 100
      /\ Risk.spread_filter Reference.test_manager 100 101 = Ok false).
Proof.
  split; [exact spread_filter_invalid_quote|]. split; [|split].
  - intros rm bid ask Hb Ha Hc H.
    rewrite spread_filter_valid_quote by assumption.
    f_equal. apply Qlt_bool_false_iff. apply Qlt_le_weak. exact H.
  - intros rm bid ask Hb Ha Hc H.
    rewrite spread_filter_valid_quote by assumption.
    f_equal. apply Qlt_bool_iff. exact H.
  - repeat split; vm_compute; reflexivity.
Qed.

Lemma spread_filter_gate_witness :
  Risk.spread_filter Reference.test_manager 101 100 = Ok false
  /\ Risk.spread_filter Reference.test_manager 100 102 = Ok false
  /\ Risk.spread_filter Reference.test_manager 1000 1001 = Ok true.
Proof.
  split; [|split].
  - apply (proj1 spread_filter_gate). right. right. vm_compute. reflexivity.
  - apply (proj1 (proj2 spread_filter_gate)); vm_compute; try reflexivity;
      discriminate.
  - apply (proj1 (proj2 (proj2 spread_filter_gate))); vm_compute;
      try reflexivity; discriminate.
Defined.

Lemma track_daily_pnl_accumulates fos ios (rm : Risk.RiskManager)
  (w : Risk.World) (pnl : Q) :
  snd (fst (Risk.track_daily_pnl fos ios rm w pnl))
  = Risk.set_daily_loss_accumulation rm (Risk.daily_loss_accumulation rm + pnl).
Proof.
  unfold Risk.track_daily_pnl.
  match goal with |- context [match ?u with Ok _ => _ | Raise _ => _ end] =>
    destruct u end; reflexivity.
Qed.

Lemma manager_after_cons fos ios (rm : Risk.RiskManager) (w : Risk.World)
  (p : Q) (ps : list Q) :
  exists w',
    Scenario.manager_after (Scenario.record_trades fos ios rm w (p :: ps))
    = Scenario.manager_after
        (Scenario.record_trades fos ios
           (Risk.set_daily_loss_accumulation rm
              (Risk.daily_loss_accumulation rm + p)) w' ps).
Proof.
  simpl.
  pose proof (track_daily_pnl_accumulates fos ios rm w p) as H.
  destruct (Risk.track_daily_pnl fos ios rm w p) as [[r rm'] w'].
  simpl in H. subst rm'. exists w'.
  destruct (Scenario.record_trades fos ios _ w' ps) as [[rs rm''] w''].
  reflexivity.
Qed.

(** C2: with balance 10000 and a 5 % daily-loss limit the threshold is
    -500; starting from no accumulated PnL, after [track_daily_pnl] has
    recorded -200 and -150 [check_daily_loss_limit] still allows trading,
    and after it has also recorded -300 the accumulation is -650 and
    [check_daily_loss_limit] blocks. *)
Theorem daily_loss_breaker fos ios (rm : Risk.RiskManager) (w : Risk.World) :
  Risk.account_balance rm == 10000 ->
  Risk.max_daily_loss_pct rm == 5 ->
  Risk.daily_loss_accumulation rm == 0 ->
  let two := Scenario.manager_after
               (Scenario.record_trades fos ios rm w [-(200); -(150)]) in
  let three := Scenario.manager_after
                 (Scenario.record_trades fos ios rm w [-(200); -(150); -(300)]) in
  - (Risk.account_balance rm * (Risk.max_daily_loss_pct rm / 100)) == -(500)
  /\ Risk.check_daily_loss_limit two = (true, Risk.NoReason)
  /\ Risk.daily_loss_accumulation three == -(650)
  /\ fst (Risk.check_daily_loss_limit three) = false.
Proof.
  intros Hb Hp Ha two three.
  split; [rewrite Hb, Hp; reflexivity|].
  subst two three.
  destruct (manager_after_cons fos ios rm w (-(200)) [-(150)]) as [w1 ->].
  destruct (manager_after_cons fos ios rm w (-(200)) [-(150); -(300)]) as [w1' ->].
  set (rm1 := Risk.set_daily_loss_accumulation rm _).
  destruct (manager_after_cons fos ios rm1 w1 (-(150)) []) as [w2 ->].
  destruct (manager_after_cons fos ios rm1 w1' (-(150)) [-(300)]) as [w2' ->].
  set (rm2 := Risk.set_daily_loss_accumulation rm1 _).
  destruct (manager_after_cons fos ios rm2 w2' (-(300)) []) as [w3 ->].
  cbn [Scenario.record_trades Scenario.manager_after fst snd].
  unfold Risk.check_daily_loss_limit.
  subst rm2 rm1. cbn [Risk.set_daily_loss_accumulation Risk.daily_loss_accumulation
    Risk.account_balance Risk.max_daily_loss_pct].
  split; [|split].
  - replace (Qle_bool _ _) with false; [reflexivity|].
    symmetry. apply Qle_bool_false_iff. rewrite Hb, Hp, Ha. reflexivity.
  - rewrite Ha. reflexivity.
  - replace (Qle_bool _ _) with true; [reflexivity|].
    symmetry. apply Qle_bool_iff. rewrite Hb, Hp, Ha. vm_compute. discriminate.
Qed.

Lemma daily_loss_breaker_witness :
  exists w,
    Scenario.constructed Reference.test_config Reference.fresh_world
    = Some (Reference.test_manager, w)
    /\ Scenario.outcomes
         (Scenario.record_trades Reference.no_float_of_str Reference.no_int_of_str
            Reference.test_manager w [-(200); -(150); -(300)])
       = [Ok tt; Ok tt; Ok tt]
    /\ Risk.check_daily_loss_limit
         (Scenario.manager_after
            (Scenario.record_trades Reference.no_float_of_str
               Reference.no_int_of_str Reference.test_manager w [-(200); -(150)]))
       = (true, Risk.NoReason)
    /\ fst (Risk.check_daily_loss_limit
              (Scenario.manager_after
                 (Scenario.record_trades Reference.no_float_of_str
                    Reference.no_int_of_str Reference.test_manager w
                    [-(200); -(150); -(300)])))
       = false.
Proof.
  eexists. split; [vm_compute; reflexivity|].
  split; [vm_compute; reflexivity|].
  match goal with |- context [Scenario.record_trades _ _ _ ?w _] =>
    pose proof (daily_loss_breaker Reference.no_float_of_str
                  Reference.no_int_of_str Reference.test_manager w
                  (Qeq_refl _) (Qeq_refl _) (Qeq_refl _)) as H
  end.
  destruct H as [_ [H2 [_ H3]]]. split; [exact H2 | exact H3].
Defined.

(* ----------------------------------------------------------------- *)
(** *** The consecutive-loss counter *)

Lemma step_counter fos ios (o : Risk.op) (rm : Risk.RiskManager) (w : Risk.World) :
  Risk.consecutive_loss_counter (fst (Risk.step fos ios o (rm, w)))
  = match o with
    | Risk.OpIncrementConsecutiveLosses => (Risk.consecutive_loss_counter rm + 1)%Z
    | Risk.OpResetConsecutiveLosses => 0%Z
    | _ => Risk.consecutive_loss_counter rm
    end.
Proof.
  destruct o; try reflexivity.
  - (* track_daily_pnl *)
    simpl. pose proof (track_daily_pnl_accumulates fos ios rm w pnl) as H.
    destruct (Risk.track_daily_pnl fos ios rm w pnl) as [[r rm'] w'].
    simpl in *. subst rm'. reflexivity.
  - (* increment_consecutive_losses *)
    simpl. unfold Risk.increment_consecutive_losses.
    destruct (_ <=? _)%Z; reflexivity.
  - (* _load_daily_pnl *)
    simpl. unfold Risk._load_daily_pnl.
    destruct (exists_ (Risk.daily_pnl_file w)) as [[|]|x]; cbn [bind];
      [|reflexivity|reflexivity].
    unfold try_except, Risk.load_daily_pnl_body.
    destruct (read_json (Risk.daily_pnl_file w)) as [data|e]; simpl.
    + destruct (Json.get data "date" JNull) as [date|e]; simpl.
      * destruct (eq_str date (Risk.today w)).
        -- destruct (Json.get data "cumulative_pnl" (JFloat 0)) as [c|e]; simpl.
           ++ destruct (to_float fos c) as [v|e]; simpl; [reflexivity|].
              destruct (is_Exception e); reflexivity.
           ++ destruct (is_Exception e); reflexivity.
        -- reflexivity.
      * destruct (is_Exception e); reflexivity.
    + destruct (is_Exception e); reflexivity.
Qed.

(** C3: with a limit of 2 and the counter at 0, the first
    [increment_consecutive_losses] sets the counter to 1 and allows
    continuation, the second sets it to 2 and blocks.
    [reset_consecutive_losses] sets the counter to 0, and no other
    operation of the [RiskManager] does: the counter never goes negative,
    and an operation that takes it from a non-zero value to 0 is
    [reset_consecutive_losses]. *)
Theorem consecutive_loss_breaker :
  (forall rm,
     Risk.max_consecutive_losses rm = 2%Z ->
     Risk.consecutive_loss_counter rm = 0%Z ->
     let first := Risk.increment_consecutive_losses rm in
     let second := Risk.increment_consecutive_losses (snd first) in
     Risk.consecutive_loss_counter (snd first) = 1%Z
     /\ fst first = (true, Risk.NoReason)
     /\ Risk.consecutive_loss_counter (snd second) = 2%Z
     /\ fst second = (false, Risk.ConsecutiveLossLimitReached 2 2))
  /\ (forall rm, Risk.consecutive_loss_counter (Risk.reset_consecutive_losses rm) = 0%Z)
  /\ (forall fos ios o rm w,
        (0 <= Risk.consecutive_loss_counter rm)%Z ->
        (0 <= Risk.consecutive_loss_counter (fst (Risk.step fos ios o (rm, w))))%Z)
  /\ (forall fos ios o rm w,
        (0 <= Risk.consecutive_loss_counter rm)%Z ->
        Risk.consecutive_loss_counter rm <> 0%Z ->
        Risk.consecutive_loss_counter (fst (Risk.step fos ios o (rm, w))) = 0%Z ->
        o = Risk.OpResetConsecutiveLosses).
Proof.
  split; [|split; [|split]].
  - intros rm Hm Hc first second. subst first second.
    destruct rm. simpl in Hm, Hc. subst.
    repeat split; reflexivity.
  - reflexivity.
  - intros fos ios o rm w H. rewrite step_counter. destruct o; lia.
  - intros fos ios o rm w H Hn. rewrite step_counter.
    destruct o; try reflexivity; intro E; exfalso; lia.
Qed.

Lemma consecutive_loss_breaker_witness :
  Risk.consecutive_loss_counter
    (snd (Risk.increment_consecutive_losses Reference.test_manager)) = 1%Z
  /\ fst (Risk.increment_consecutive_losses
            (snd (Risk.increment_consecutive_losses Reference.test_manager)))
     = (false, Risk.ConsecutiveLossLimitReached 2 2)
  /\ (0 <= Risk.consecutive_loss_counter
             (fst (Risk.step Reference.no_float_of_str Reference.no_int_of_str
                     (Risk.OpTrackDailyPnl (-(100)))
                     (snd (Risk.increment_consecutive_losses Reference.test_manager),
                      Reference.fresh_world))))%Z.
Proof.
  pose proof (proj1 consecutive_loss_breaker Reference.test_manager
                eq_refl eq_refl) as H.
  cbv zeta in H. destruct H as [H1 [_ [_ H4]]].
  split; [exact H1|]. split; [exact H4|].
  apply (proj1 (proj2 (proj2 consecutive_loss_breaker))).
  rewrite H1. discriminate.
Defined.

(* ----------------------------------------------------------------- *)
(** ** Execution engine *)

Lemma uniform_in_range (a b : Q) (g : Execution.Rng) :
  Execution.rng_wf g -> a <= b ->
  a <= fst (Execution.uniform a b g) /\ fst (Execution.uniform a b g) <= b
  /\ Execution.rng_wf (snd (Execution.uniform a b g)).
Proof.
  intros Hg Hab. unfold Execution.uniform, Execution.random. simpl.
  destruct (Hg (Execution.random_pos g)) as [H0 H1].
  set (u := Execution.random_src g (Execution.random_pos g)) in *.
  assert (Hm : 0 <= (b - a) * u) by (apply Qmult_le_0_compat; lra).
  assert (Hn : 0 <= (b - a) * (1 - u)) by (apply Qmult_le_0_compat; lra).
  repeat split; try lra; apply Hg.
Qed.

(** C5: whatever the random source draws, the target-1 percentage
    returned by [randomize_partial_close_percentages] lies in
    [[0.28, 0.35]], the target-2 percentage in [[0.38, 0.42]], and the
    three percentages add up to 1 (exactly, hence within any
    tolerance). *)
Theorem partial_close_percentages (g : Execution.Rng) :
  Execution.rng_wf g ->
  let pcts := fst (Execution.randomize_partial_close_percentages g) in
  let tp1_pct := fst (fst pcts) in
  let tp2_pct := snd (fst pcts) in
  let runner_pct := snd pcts in
  (28 # 100 <= tp1_pct /\ tp1_pct <= 35 # 100)
  /\ (38 # 100 <= tp2_pct /\ tp2_pct <= 42 # 100)
  /\ tp1_pct + tp2_pct + runner_pct == 1
  /\ (forall tolerance, 0 <= tolerance ->
        Qabs (tp1_pct + tp2_pct + runner_pct - 1) <= tolerance).
Proof.
  intros Hg pcts tp1_pct tp2_pct runner_pct.
  unfold Execution.randomize_partial_close_percentages in pcts.
  destruct (uniform_in_range (28 # 100) (35 # 100) g Hg) as (A1 & A2 & Hg1);
    [vm_compute; discriminate|].
  destruct (Execution.uniform (28 # 100) (35 # 100) g) as [t1 g1].
  destruct (uniform_in_range (38 # 100) (42 # 100) g1 Hg1) as (B1 & B2 & Hg2);
    [vm_compute; discriminate|].
  destruct (Execution.uniform (38 # 100) (42 # 100) g1) as [t2 g2].
  cbn [fst snd] in *. subst pcts tp1_pct tp2_pct runner_pct. cbn [fst snd].
  assert (S1 : t1 + t2 + (1 - t1 - t2) == 1) by ring.
  split; [split; assumption|]. split; [split; assumption|].
  split; [exact S1|].
  intros tol Ht. apply Qabs_Qle_condition. split; lra.
Qed.

Lemma midpoint_rng_wf : Execution.rng_wf ExecutionReference.midpoint_rng.
Proof.
  intro n. split; vm_compute; [discriminate | reflexivity].
Qed.

Lemma partial_close_percentages_witness :
  exists tp1_pct tp2_pct runner_pct g,
    Execution.randomize_partial_close_percentages ExecutionReference.midpoint_rng
    = ((tp1_pct, tp2_pct, runner_pct), g)
    /\ (28 # 100 <= tp1_pct /\ tp1_pct <= 35 # 100)
    /\ (38 # 100 <= tp2_pct /\ tp2_pct <= 42 # 100)
    /\ tp1_pct + tp2_pct + runner_pct == 1.
Proof.
  pose proof (partial_close_percentages ExecutionReference.midpoint_rng
                midpoint_rng_wf) as H.
  cbv zeta in H.
  destruct (Execution.randomize_partial_close_percentages
              ExecutionReference.midpoint_rng) as [[[t1 t2] rn] g'] eqn:E.
  exists t1, t2, rn, g'. split; [reflexivity|].
  simpl in H. destruct H as (H1 & H2 & H3 & _). auto.
Defined.

(* ----------------------------------------------------------------- *)
(** *** Durable state readers *)

Lemma load_trade_history_total (d : Execution.Disk) :
  Durable.examinable (Execution.trade_history_file d) ->
  exists v, Execution.load_trade_history d = Ok v.
Proof.
  unfold Execution.load_trade_history, Durable.examinable.
  destruct (Execution.trade_history_file d); simpl; eauto. contradiction.
Qed.

Lemma load_open_positions_total (d : Execution.Disk) :
  Durable.examinable (Execution.open_positions_file d) ->
  exists v, Execution.load_open_positions d = Ok v.
Proof.
  unfold Execution.load_open_positions, Durable.examinable.
  destruct (Execution.open_positions_file d); simpl; eauto. contradiction.
Qed.

Lemma load_daily_pnl_body_raises_Exception fos (rm : Risk.RiskManager)
  (w : Risk.World) (e : exn) :
  Risk.load_daily_pnl_body fos rm w = Raise e -> is_Exception e = true.
Proof.
  unfold Risk.load_daily_pnl_body.
  destruct (Risk.daily_pnl_file w) as [| | | | raw | doc]; simpl;
    try (intro H; injection H as <-; reflexivity).
  destruct doc; simpl; try (intro H; injection H as <-; reflexivity).
  destruct (assoc_get "date" fields) as [date|]; simpl.
  - destruct (eq_str date (Risk.today w)); [|discriminate].
    destruct (assoc_get "cumulative_pnl" fields) as [c|]; simpl; [|discriminate].
    destruct c; simpl; try discriminate;
      try (intro H; injection H as <-; reflexivity).
    destruct (fos s); simpl; [discriminate|].
    intro H; injection H as <-; reflexivity.
  - discriminate.
Qed.

Lemma _load_daily_pnl_total fos (rm : Risk.RiskManager) (w : Risk.World) :
  Durable.examinable (Risk.daily_pnl_file w) ->
  exists s, Risk._load_daily_pnl fos rm w = Ok s.
Proof.
  intro X. unfold Risk._load_daily_pnl.
  destruct (exists_ (Risk.daily_pnl_file w)) as [[|]|x] eqn:P; cbn [bind].
  - unfold try_except.
    destruct (Risk.load_daily_pnl_body fos rm w) as [s|e] eqn:E; [eauto|].
    rewrite (load_daily_pnl_body_raises_Exception _ _ _ _ E). eauto.
  - eauto.
  - exfalso. unfold Durable.examinable in X.
    destruct (Risk.daily_pnl_file w); try discriminate P. contradiction.
Qed.

Lemma _load_daily_pnl_unusable fos (rm : Risk.RiskManager) (w : Risk.World) :
  Durable.unusable (Risk.daily_pnl_file w) ->
  Risk._load_daily_pnl fos rm w
  = Ok (match Risk.daily_pnl_file w with
        | Missing => rm
        | _ => Risk.set_daily_loss_accumulation rm 0
        end,
        Risk._reset_daily_pnl w).
Proof.
  unfold Risk._load_daily_pnl, Risk.load_daily_pnl_body.
  destruct (Risk.daily_pnl_file w); simpl; try reflexivity; contradiction.
Qed.

(** Where the paths can be examined the readers return, whatever the
    files hold.  [load_trade_history] and [load_open_positions] return
    the empty list for a file that is missing, unreadable, empty or
    unparseable; [_load_daily_pnl] then leaves (through [__init__], its
    caller) a zero accumulation and rewrites the file with the zeroed
    record. *)
Lemma durable_readers_return :
  (forall d, Durable.examinable (Execution.trade_history_file d) ->
        exists v, Execution.load_trade_history d = Ok v)
  /\ (forall d, Durable.examinable (Execution.open_positions_file d) ->
        exists v, Execution.load_open_positions d = Ok v)
  /\ (forall fos rm w, Durable.examinable (Risk.daily_pnl_file w) ->
        exists s, Risk._load_daily_pnl fos rm w = Ok s)
  /\ (forall d, Durable.unusable (Execution.trade_history_file d) ->
        Execution.load_trade_history d = Ok Durable.empty_list)
  /\ (forall d, Durable.unusable (Execution.open_positions_file d) ->
        Execution.load_open_positions d = Ok Durable.empty_list)
  /\ (forall fos rm w, Durable.unusable (Risk.daily_pnl_file w) ->
        exists rm',
          Risk._load_daily_pnl fos rm w = Ok (rm', Risk._reset_daily_pnl w)
          /\ (Risk.daily_loss_accumulation rm' = 0
              \/ Risk.daily_pnl_file w = Missing /\ rm' = rm))
  /\ (forall fos config w, Durable.unusable (Risk.daily_pnl_file w) ->
        exists rm,
          Risk.__init__ fos config w = Ok (rm, Risk._reset_daily_pnl w)
          /\ Risk.daily_loss_accumulation rm = 0
          /\ (Risk.writable w = true ->
              Risk.daily_pnl_file (Risk._reset_daily_pnl w)
              = Valid (Risk.fresh_daily_pnl w))).
Proof.
  split; [exact load_trade_history_total|].
  split; [exact load_open_positions_total|].
  split; [exact _load_daily_pnl_total|].
  split; [|split; [|split]].
  - intros d H. unfold Execution.load_trade_history.
    destruct (Execution.trade_history_file d); simpl; try reflexivity;
      contradiction.
  - intros d H. unfold Execution.load_open_positions.
    destruct (Execution.open_positions_file d); simpl; try reflexivity;
      contradiction.
  - intros fos rm w H. rewrite (_load_daily_pnl_unusable fos rm w H).
    eexists. split; [reflexivity|].
    destruct (Risk.daily_pnl_file w); simpl; auto.
  - intros fos config w H. unfold Risk.__init__.
    rewrite (_load_daily_pnl_unusable fos _ w H).
    eexists. split; [reflexivity|]. split.
    + destruct (Risk.daily_pnl_file w); reflexivity.
    + intro Hw. unfold Risk._reset_daily_pnl, Risk._save_daily_pnl.
      rewrite Hw. reflexivity.
Qed.

(** C9 at the failing input: the durable-state readers raise.  Each of
    them asks [exists()] before its [try] block, and for a path that
    cannot be examined (no search permission on the data directory)
    [exists()] raises [PermissionError], an [OSError]: [load_trade_history],
    [load_open_positions] and [_load_daily_pnl] pass it on to their
    caller instead of yielding the safe default, and so does the
    constructor of [RiskManager], whatever the other file, the date, the
    configuration and the manager are. *)
Theorem durable_readers_raise_when_inaccessible :
  (forall other,
     Execution.load_trade_history
       {| Execution.trade_history_file := Inaccessible;
          Execution.open_positions_file := other |}
     = Raise OSError)
  /\ (forall other,
        Execution.load_open_positions
          {| Execution.trade_history_file := other;
             Execution.open_positions_file := Inaccessible |}
        = Raise OSError)
  /\ (forall fos rm today writable,
        Risk._load_daily_pnl fos rm
          {| Risk.today := today; Risk.daily_pnl_file := Inaccessible;
             Risk.writable := writable |}
        = Raise OSError)
  /\ (forall fos config today writable,
        Risk.__init__ fos config
          {| Risk.today := today; Risk.daily_pnl_file := Inaccessible;
             Risk.writable := writable |}
        = Raise OSError)
  /\ is_Exception OSError = true.
Proof.
  split; [reflexivity|]. split; [reflexivity|]. split; [reflexivity|].
  split; reflexivity.
Qed.

(* ----------------------------------------------------------------- *)
(** *** Order submission *)

Lemma attempts_of_trace (r r' : Execution.Run) :
  Execution.trace r = Execution.trace r' ->
  Execution.attempts_of r = Execution.attempts_of r'.
Proof. unfold Execution.attempts_of. intros ->. reflexivity. Qed.

Lemma sleeps_of_trace (r r' : Execution.Run) :
  Execution.trace r = Execution.trace r' ->
  Execution.sleeps_of r = Execution.sleeps_of r'.
Proof. unfold Execution.sleeps_of. intros ->. reflexivity. Qed.

Lemma attempts_of_call (ex : Execution.Exchange) (q : Execution.OrderRequest)
  (r : Execution.Run) :
  Execution.attempts_of (snd (Execution.call_create_order ex q r))
  = Execution.attempts_of r ++ [q]
  /\ Execution.sleeps_of (snd (Execution.call_create_order ex q r))
     = Execution.sleeps_of r
  /\ Execution.rng (snd (Execution.call_create_order ex q r)) = Execution.rng r.
Proof.
  unfold Execution.call_create_order, Execution.attempts_of, Execution.sleeps_of.
  simpl. rewrite !flat_map_app. simpl. rewrite app_nil_r. auto.
Qed.

Lemma observe_sleep (d : Q) (r : Execution.Run) (g : Execution.Rng) :
  Execution.attempts_of (Execution.sleep d (Execution.set_rng r g))
  = Execution.attempts_of r
  /\ Execution.sleeps_of (Execution.sleep d (Execution.set_rng r g))
     = Execution.sleeps_of r ++ [d]
  /\ Execution.rng (Execution.sleep d (Execution.set_rng r g)) = g.
Proof.
  unfold Execution.sleep, Execution.set_rng, Execution.attempts_of,
    Execution.sleeps_of.
  simpl. rewrite !flat_map_app. simpl. rewrite app_nil_r. auto.
Qed.

(** When every exchange call raises an [Exception], the loop with [k]
    iterations left makes [k] attempts, sleeps between consecutive
    attempts for the back-off of the attempt just failed plus a jitter of
    at most 0.1 either way, and returns [None]. *)
Lemma retry_loop_exhausts (ex : Execution.Exchange) (req : Execution.OrderRequest)
  (m : Z) (init maxd mult : Q) :
  ExecutionReference.always_fails ex ->
  forall (k : nat) (a : Z) (r : Execution.Run),
    Z.of_nat k = (m - a + 1)%Z ->
    Execution.rng_wf (Execution.rng r) ->
    let out := Execution.retry_loop ex req m init maxd mult k a r in
    fst out = Ok None
    /\ Execution.attempts_of (snd out) = Execution.attempts_of r ++ repeat req k
    /\ (exists ds,
          Execution.sleeps_of (snd out) = Execution.sleeps_of r ++ ds
          /\ Forall2
               (fun attempt d =>
                  Qabs (d - ExecutionReference.backoff init mult maxd attempt)
                  <= 1 # 10)
               (map (fun i => (a + Z.of_nat i)%Z) (seq 0 (k - 1))) ds)
    /\ Execution.rng_wf (Execution.rng (snd out)).
Proof.
  intros Hex k. induction k as [|k IH]; intros a r Hk Hg out; subst out.
  - cbn [Execution.retry_loop fst snd repeat]. rewrite app_nil_r.
    split; [reflexivity|]. split; [reflexivity|]. split; [|exact Hg].
    exists []. rewrite app_nil_r. split; [reflexivity | constructor].
  - cbn [Execution.retry_loop].
    destruct (attempts_of_call ex req r) as (Ha & Hs & Hr).
    destruct (Hex (Execution.calls r) req) as (e & He & Hexc).
    destruct (Execution.call_create_order ex req r) as [outcome r1] eqn:Ec.
    assert (Ho : outcome = Raise e).
    { unfold Execution.call_create_order in Ec. injection Ec as <- _. exact He. }
    cbn [snd] in Ha, Hs, Hr. subst outcome. rewrite Hexc.
    destruct (a <? m)%Z eqn:Ham.
    + apply Z.ltb_lt in Ham.
      assert (Hg1 : Execution.rng_wf (Execution.rng r1)) by (rewrite Hr; exact Hg).
      destruct (uniform_in_range (- (1 # 10)) (1 # 10) (Execution.rng r1) Hg1)
        as (J1 & J2 & Hg2); [vm_compute; discriminate|].
      destruct (Execution.uniform (- (1 # 10)) (1 # 10) (Execution.rng r1))
        as [jitter g2].
      cbn [fst snd] in J1, J2, Hg2.
      set (delay := Qmin (init * mult ^ (a - 1)) maxd + jitter).
      destruct (observe_sleep delay r1 g2) as (Sa & Ss & Sr).
      set (r2 := Execution.sleep delay (Execution.set_rng r1 g2)) in *.
      assert (Hk' : Z.of_nat k = (m - (a + 1) + 1)%Z) by lia.
      assert (Hg' : Execution.rng_wf (Execution.rng r2)) by (rewrite Sr; exact Hg2).
      destruct (IH (a + 1)%Z r2 Hk' Hg') as (R1 & R2 & (ds & R3 & R4) & R5).
      split; [exact R1|]. split; [|split; [|exact R5]].
      * rewrite R2, Sa, Ha, <- app_assoc. reflexivity.
      * exists (delay :: ds). split.
        -- rewrite R3, Ss, Hs, <- app_assoc. reflexivity.
        -- destruct k as [|k']; [lia|].
           replace (S (S k') - 1)%nat with (S k') by lia.
           cbn [seq map]. constructor.
           ++ rewrite Z.add_0_r. unfold ExecutionReference.backoff, delay.
              apply Qabs_Qle_condition. split; lra.
           ++ replace (S k' - 1)%nat with k' in R4 by lia.
              rewrite <- seq_shift, map_map.
              erewrite map_ext; [exact R4|].
              intro i. simpl. lia.
    + apply Z.ltb_ge in Ham.
      assert (k = 0%nat) by lia. subst k.
      cbn [fst snd]. split; [reflexivity|]. split; [exact Ha|].
      split; [|rewrite Hr; exact Hg].
      exists []. rewrite app_nil_r. split; [exact Hs | constructor].
Qed.

Lemma randomize_lot_size_ok (config : Execution.Config) (base_size : Q)
  (r : Execution.Run) :
  ~ base_size == 0 ->
  exists v r',
    Execution.randomize_lot_size config base_size r = (Ok v, r')
    /\ Execution.trace r' = Execution.trace r
    /\ Execution.random_src (Execution.rng r') = Execution.random_src (Execution.rng r).
Proof.
  intro H. unfold Execution.randomize_lot_size, Execution.gauss.
  rewrite (pydiv_ok _ _ H). cbn [bind]. eexists. eexists.
  split; [reflexivity|]. split; reflexivity.
Qed.

Lemma randomize_tp_sl_ok (config : Execution.Config) (price : Q) (is_tp : bool)
  (r : Execution.Run) :
  ~ price == 0 ->
  exists v r',
    Execution.randomize_tp_sl config price is_tp r = (Ok v, r')
    /\ Execution.trace r' = Execution.trace r
    /\ Execution.random_src (Execution.rng r') = Execution.random_src (Execution.rng r).
Proof.
  intro H. unfold Execution.randomize_tp_sl, Execution.uniform, Execution.random.
  rewrite (pydiv_ok _ _ H). cbn [bind]. eexists. eexists.
  split; [reflexivity|]. split; reflexivity.
Qed.

Lemma rng_wf_same_source (g g' : Execution.Rng) :
  Execution.random_src g' = Execution.random_src g ->
  Execution.rng_wf g -> Execution.rng_wf g'.
Proof. unfold Execution.rng_wf. intros -> H. exact H. Qed.

(** The retry protocol on inputs that pass the randomization preamble:
    with [max_retries = 3] and an exchange whose every call raises an
    [Exception], [submit_order_with_retry] makes exactly three attempts
    with the same request, sleeps the human-like delay and then, between
    attempts, the back-off for attempts 1 and 2 plus a jitter of at most
    0.1 either way, and returns [None]. *)
Lemma retry_exhaustion (ex : Execution.Exchange) (config : Execution.Config)
  (symbol direction : string)
  (position_size entry_price stop_loss tp1_price tp2_price : Q)
  (r : Execution.Run) :
  ~ position_size == 0 -> ~ tp1_price == 0 -> ~ tp2_price == 0 ->
  ~ stop_loss == 0 ->
  Execution.get (Execution.cfg_max_retries config) 3%Z = 3%Z ->
  ExecutionReference.always_fails ex ->
  Execution.rng_wf (Execution.rng r) ->
  let out := Execution.submit_order_with_retry ex config symbol direction
               position_size entry_price stop_loss tp1_price tp2_price r in
  let initial_delay := Execution.get (Execution.cfg_retry_initial_delay config) (5 # 10) in
  let max_delay := Execution.get (Execution.cfg_retry_max_delay config) 5 in
  let multiplier := Execution.get (Execution.cfg_retry_backoff_multiplier config) 2 in
  fst out = Ok None
  /\ (exists req,
        Execution.attempts_of (snd out) = Execution.attempts_of r ++ [req; req; req])
  /\ (exists human d1 d2,
        Execution.sleeps_of (snd out) = Execution.sleeps_of r ++ [human; d1; d2]
        /\ Qabs (d1 - ExecutionReference.backoff initial_delay multiplier max_delay 1)
           <= 1 # 10
        /\ Qabs (d2 - ExecutionReference.backoff initial_delay multiplier max_delay 2)
           <= 1 # 10).
Proof.
  intros Hp H1 H2 Hs Hm Hex Hg out initial_delay max_delay multiplier.
  subst out. unfold Execution.submit_order_with_retry.
  destruct (randomize_lot_size_ok config position_size r Hp)
    as (v0 & r0 & -> & T0 & G0).
  destruct (randomize_tp_sl_ok config tp1_price true r0 H1)
    as (v1 & r1 & -> & T1 & G1).
  destruct (randomize_tp_sl_ok config tp2_price true r1 H2)
    as (v2 & r2 & -> & T2 & G2).
  destruct (randomize_tp_sl_ok config stop_loss false r2 Hs)
    as (v3 & r3 & -> & T3 & G3).
  rewrite Hm.
  set (req := {| Execution.req_symbol := symbol |}).
  unfold Execution.add_human_like_delay.
  destruct (Execution.uniform _ _ (Execution.rng r3)) as [human g4] eqn:Eu.
  assert (G4 : Execution.random_src g4 = Execution.random_src (Execution.rng r3)).
  { unfold Execution.uniform, Execution.random in Eu. injection Eu as _ <-.
    reflexivity. }
  destruct (observe_sleep human r3 g4) as (Sa & Ss & Sr).
  set (r4 := Execution.sleep human (Execution.set_rng r3 g4)) in *.
  assert (Hg4 : Execution.rng_wf (Execution.rng r4)).
  { rewrite Sr. apply (rng_wf_same_source (Execution.rng r)); [|exact Hg].
    congruence. }
  destruct (retry_loop_exhausts ex req 3%Z initial_delay max_delay multiplier
              Hex 3%nat 1%Z r4 eq_refl Hg4) as (R1 & R2 & (ds & R3 & R4) & _).
  fold initial_delay max_delay multiplier.
  change (Z.to_nat 3) with 3%nat.
  assert (A3 : Execution.attempts_of r3 = Execution.attempts_of r).
  { apply attempts_of_trace. congruence. }
  assert (S3 : Execution.sleeps_of r3 = Execution.sleeps_of r).
  { apply sleeps_of_trace. congruence. }
  split; [exact R1|]. split.
  - exists req. rewrite R2, Sa, A3. reflexivity.
  - cbn [seq map Nat.sub] in R4. clearbody r4 req.
    subst initial_delay max_delay multiplier.
    inversion R4 as [|a1 d1 l1 l1' Hd1 R4' E1 E2]; subst.
    inversion R4' as [|a2 d2 l2 l2' Hd2 R4'' E1 E2]; subst.
    inversion R4''; subst.
    exists human, d1, d2. rewrite R3, Ss, S3, <- app_assoc.
    split; [reflexivity|]. split; assumption.
Qed.

(** C4 at the failing input: a submission with position size 0 (what
    [RiskManager.position_size] returns when entry equals stop-loss)
    raises [ZeroDivisionError] out of [randomize_lot_size], before any
    attempt is made, whatever the exchange, the configuration and the
    random source are; so it does with the failing exchange and the
    configuration of the test suite. *)
Theorem submit_order_zero_size_raises :
  (forall ex config symbol direction entry_price stop_loss tp1_price tp2_price r,
     let out := Execution.submit_order_with_retry ex config symbol direction
                  0 entry_price stop_loss tp1_price tp2_price r in
     fst out = Raise ZeroDivisionError
     /\ Execution.attempts_of (snd out) = Execution.attempts_of r)
  /\ (let out := Execution.submit_order_with_retry
                   ExecutionReference.failing_exchange
                   ExecutionReference.test_config "BTC/USDT" "BUY"
                   0 100 95 105 110 ExecutionReference.start in
      ExecutionReference.always_fails ExecutionReference.failing_exchange
      /\ fst out = Raise ZeroDivisionError
      /\ Execution.attempts_of (snd out) = []).
Proof.
  assert (G : forall ex config symbol direction entry_price stop_loss
                     tp1_price tp2_price r,
             let out := Execution.submit_order_with_retry ex config symbol
                          direction 0 entry_price stop_loss tp1_price tp2_price r in
             fst out = Raise ZeroDivisionError
             /\ Execution.attempts_of (snd out) = Execution.attempts_of r).
  { intros. subst out. unfold Execution.submit_order_with_retry,
      Execution.randomize_lot_size, Execution.gauss.
    rewrite pydiv_zero by reflexivity. cbn [bind fst snd].
    split; reflexivity. }
  split; [exact G|].
  split; [|apply G].
  intros n req. eexists. split; reflexivity.
Qed.

(* ----------------------------------------------------------------- *)
(** ** Support/resistance zones *)

Lemma no_zones_iff (d : SupportResistance.Detector) :
  SupportResistance.no_zones d = true <-> SupportResistance.zones d = [].
Proof.
  unfold SupportResistance.no_zones.
  destruct (SupportResistance.zones d); split; intro H;
    try reflexivity; discriminate.
Qed.

(** One call: the rebuild branch runs exactly when the advanced counter
    has reached 100 or there are no zones; otherwise nothing but the
    counter changes and the stored list is returned. *)
Lemma update_zones_step (d : SupportResistance.Detector) (candles : list Candle) :
  let out := SupportResistance.update_zones d candles in
  let d' := fst (fst out) in
  let returned := snd (fst out) in
  let rebuilt := snd out in
  (rebuilt = true <->
     (100 <= SupportResistance.candle_count d + length candles)%nat
     \/ SupportResistance.zones d = [])
  /\ (rebuilt = true ->
        SupportResistance.zones d'
        = SupportResistance.cluster_zones d (SupportResistance.detect_swings d candles)
        /\ returned = SupportResistance.zones d'
        /\ SupportResistance.candle_count d' = 0%nat)
  /\ (rebuilt = false ->
        SupportResistance.zones d' = SupportResistance.zones d
        /\ returned = SupportResistance.zones d
        /\ SupportResistance.candle_count d'
           = (SupportResistance.candle_count d + length candles)%nat).
Proof.
  unfold SupportResistance.update_zones.
  destruct (Nat.leb 100 _ || SupportResistance.no_zones d) eqn:E;
    cbn [fst snd SupportResistance.zones SupportResistance.candle_count].
  - split; [|split].
    + split; [intros _|reflexivity].
      apply orb_true_iff in E. destruct E as [E|E].
      * left. apply Nat.leb_le. exact E.
      * right. apply no_zones_iff. exact E.
    + intros _. repeat split; reflexivity.
    + discriminate.
  - split; [|split].
    + split; [discriminate|]. intro H. exfalso.
      apply orb_false_iff in E. destruct E as [E1 E2].
      destruct H as [H|H].
      * apply Nat.leb_le in H. congruence.
      * apply no_zones_iff in H. congruence.
    + discriminate.
    + intros _. repeat split; reflexivity.
Qed.

(** The counter of the detector is the number of candles passed in since
    the last rebuild. *)
Lemma run_counts (inputs : list (list Candle)) :
  forall (d : SupportResistance.Detector) (log : list SupportResistance.Call),
    SupportResistance.candle_count d = SupportResistance.candles_since_rebuild log ->
    SupportResistance.candle_count (fst (SupportResistance.run d inputs log))
    = SupportResistance.candles_since_rebuild
        (snd (SupportResistance.run d inputs log)).
Proof.
  induction inputs as [|candles rest IH]; intros d log H; [exact H|].
  cbn [SupportResistance.run].
  pose proof (update_zones_step d candles) as S. cbv zeta in S.
  destruct (SupportResistance.update_zones d candles) as [[d' zs] rebuilt].
  cbn [fst snd] in S. apply IH.
  cbn [SupportResistance.candles_since_rebuild SupportResistance.call_rebuilt
       SupportResistance.call_candles].
  destruct S as (_ & St & Sf).
  destruct rebuilt.
  - apply St. reflexivity.
  - destruct (Sf eq_refl) as (_ & _ & ->). rewrite H. apply Nat.add_comm.
Qed.

(** C7 fails as stated: a rebuild does not wait for 100 new candles.
    The first call, on the latest 100 candles, rebuilds (no zones yet)
    and finds zones; the next call, on the latest 100 candles one candle
    later, brings one new candle and rebuilds again, because the counter
    advances by the 100 candles passed in. *)
Lemma zones_rebuilt_without_100_new_candles :
  let first :=
    SupportResistance.update_zones SupportResistance.default_detector
      Replay.first_window in
  let d1 := fst (fst first) in
  let second := SupportResistance.update_zones d1 Replay.second_window in
  snd first = true
  /\ SupportResistance.zones d1 <> []
  /\ Replay.new_candles Replay.first_window Replay.second_window = 1%nat
  /\ snd second = true.
Proof.
  split; [vm_compute; reflexivity|]. split; [vm_compute; discriminate|].
  split; vm_compute; reflexivity.
Qed.

(** C7, amended: take a detector as constructed and any sequence of
    [update_zones] calls, and look at the next call.  The detector's
    counter is the number of candles passed in since the last rebuild,
    every candle of every call counted whether or not it was passed in
    before; the rebuild runs exactly when that number, with the candles
    of this call added, has reached 100, or when there are no zones; and
    when it does not run, the stored zone list is kept and returned
    unchanged. *)
Theorem zones_rebuilt_only_when_due (lookback : nat) (cluster_tolerance : Q)
  (min_touches : nat) (earlier : list (list Candle)) (candles : list Candle) :
  let d0 := SupportResistance.__init__ lookback cluster_tolerance min_touches in
  let d := fst (SupportResistance.run d0 earlier []) in
  let log := snd (SupportResistance.run d0 earlier []) in
  let out := SupportResistance.update_zones d candles in
  let d' := fst (fst out) in
  let returned := snd (fst out) in
  let rebuilt := snd out in
  SupportResistance.candle_count d = SupportResistance.candles_since_rebuild log
  /\ (rebuilt = true <->
        (100 <= SupportResistance.candles_since_rebuild log + length candles)%nat
        \/ SupportResistance.zones d = [])
  /\ (rebuilt = true ->
        SupportResistance.zones d'
        = SupportResistance.cluster_zones d (SupportResistance.detect_swings d candles)
        /\ returned = SupportResistance.zones d'
        /\ SupportResistance.candle_count d' = 0%nat)
  /\ (rebuilt = false ->
        SupportResistance.zones d' = SupportResistance.zones d
        /\ returned = SupportResistance.zones d).
Proof.
  intros d0 d log out d' returned rebuilt.
  assert (C : SupportResistance.candle_count d
              = SupportResistance.candles_since_rebuild log).
  { apply run_counts. reflexivity. }
  pose proof (update_zones_step d candles) as S. cbv zeta in S.
  fold out in S. fold d' returned rebuilt in S.
  destruct S as (S1 & S2 & S3).
  split; [exact C|]. split; [rewrite <- C; exact S1|].
  split; [exact S2|].
  intro H. destruct (S3 H) as (A & B & _). split; assumption.
Qed.

Lemma zones_rebuilt_only_when_due_witness :
  let d := fst (SupportResistance.run SupportResistance.default_detector
                  [Sample.two_peaks] []) in
  let out := SupportResistance.update_zones d [Sample.doji 1] in
  SupportResistance.zones d <> []
  /\ snd out = false
  /\ snd (fst out) = SupportResistance.zones d
  /\ SupportResistance.zones (fst (fst out)) = SupportResistance.zones d.
Proof.
  intros d out.
  assert (R : snd out = false) by (vm_compute; reflexivity).
  pose proof (zones_rebuilt_only_when_due 3 (5 # 10000) 2 [Sample.two_peaks]
                [Sample.doji 1]) as H.
  cbv zeta in H. destruct H as (_ & _ & _ & H).
  destruct (H R) as [A B].
  split; [vm_compute; discriminate|]. split; [exact R|].
  split; [exact B | exact A].
Defined.

(* ----------------------------------------------------------------- *)
(** ** Breakout detector *)

Lemma detect_atr_spike_returns (e : Breakout.BreakoutEngine) (candles : list Candle) :
  exists s, Breakout.detect_atr_spike e candles = Ok s.
Proof.
  unfold Breakout.detect_atr_spike.
  destruct (Nat.ltb (length candles) 50); [eauto|].
  destruct (Breakout.calculate_atr (last_n 20 candles) 14) as [current|]; [|eauto].
  destruct (Breakout.calculate_atr candles 50) as [historical|]; [|eauto].
  destruct (Qlt_bool 0 historical) eqn:E; cbn [bind]; [|eauto].
  apply Qlt_bool_iff in E.
  rewrite pydiv_ok; [cbn [bind]; eauto|].
  intro Z. rewrite Z in E. exact (Qlt_irrefl 0 E).
Qed.

Lemma validate_body_wick_flat (e : Breakout.BreakoutEngine) (candle : Candle) :
  c_high candle == c_low candle ->
  Breakout.validate_body_wick e candle
  = Ok {| Breakout.valid := false; Breakout.body_ratio := 0;
          Breakout.wick_ratio := 0; Breakout.bw_direction := Breakout.NoDirection |}.
Proof.
  intro H. unfold Breakout.validate_body_wick.
  replace (Qeq_bool (c_high candle - c_low candle) 0) with true; [reflexivity|].
  symmetry. apply Qeq_bool_iff. rewrite H. ring.
Qed.

(** C10: for a candle list of at least 20 candles whose latest candle has
    high equal to low, [generate_breakout_signal] returns signal NONE
    with strength 0, and the body/wick validation it reports is invalid:
    the zero range is caught before any division by it. *)
Theorem flat_candle_never_breaks_out (e : Breakout.BreakoutEngine)
  (candles : list Candle) (latest : Candle) :
  (20 <= length candles)%nat ->
  nth_from_end 1 candles = Some latest ->
  c_high latest == c_low latest ->
  exists details,
    Breakout.generate_breakout_signal e candles
    = Ok {| Breakout.sig_signal := Breakout.NONE;
            Breakout.sig_strength := 0;
            Breakout.sig_details := Some details |}
    /\ Breakout.validate_body_wick e latest = Ok (Breakout.det_body_wick details)
    /\ Breakout.valid (Breakout.det_body_wick details) = false.
Proof.
  intros Hlen Hlast Hflat. unfold Breakout.generate_breakout_signal.
  replace (Nat.ltb (length candles) 20) with false
    by (symmetry; apply Nat.ltb_ge; exact Hlen).
  rewrite Hlast.
  destruct (detect_atr_spike_returns e candles) as [s ->].
  rewrite (validate_body_wick_flat e latest Hflat).
  cbn [bind Breakout.valid]. rewrite !andb_false_r. cbn [negb].
  eexists. split; [reflexivity|]. split; reflexivity.
Qed.

Lemma flat_candle_never_breaks_out_witness :
  exists details,
    Breakout.generate_breakout_signal Breakout.__init__ Sample.ends_flat
    = Ok {| Breakout.sig_signal := Breakout.NONE;
            Breakout.sig_strength := 0;
            Breakout.sig_details := Some details |}.
Proof.
  destruct (flat_candle_never_breaks_out Breakout.__init__ Sample.ends_flat
              (Sample.doji 100)) as (details & H & _).
  - apply Nat.leb_le. reflexivity.
  - reflexivity.
  - reflexivity.
  - exists details. exact H.
Defined.

(* ----------------------------------------------------------------- *)
(** ** Price-action confirmation score *)

Lemma not_detected_in_unit : Confirmation.confidence_in_unit PriceAction.not_detected.
Proof. split; vm_compute; discriminate. Qed.

Lemma Qmin1_in_unit (q : Q) : 0 <= q -> 0 <= Qmin 1 q /\ Qmin 1 q <= 1.
Proof.
  intro H. split.
  - apply Q.min_glb; [vm_compute; discriminate | exact H].
  - apply Q.le_min_l.
Qed.

Lemma Qdiv_nonneg (a b : Q) : 0 <= a -> 0 < b -> 0 <= a / b.
Proof.
  intros Ha Hb. apply Qle_shift_div_l; [exact Hb|]. lra.
Qed.

Lemma pos_neq0 (b : Q) : 0 < b -> ~ b == 0.
Proof. intros H E. rewrite E in H. exact (Qlt_irrefl 0 H). Qed.

Lemma ratio_in_unit (a b : Q) :
  0 <= a -> 0 < b ->
  exists q, pydiv a b = Ok q /\ 0 <= q.
Proof.
  intros Ha Hb. exists (a / b). split.
  - apply pydiv_ok, pos_neq0, Hb.
  - apply Qdiv_nonneg; assumption.
Qed.

Lemma well_formed_rev (candles : list Candle) :
  Forall Sample.well_formed candles -> Forall Sample.well_formed (rev candles).
Proof. apply Forall_rev. Qed.

Lemma detect_engulfing_in_unit (candles : list Candle) :
  Forall Sample.well_formed candles ->
  exists p, PriceAction.detect_engulfing candles = Ok p /\ Confirmation.confidence_in_unit p.
Proof.
  intro F. apply well_formed_rev in F. unfold PriceAction.detect_engulfing.
  destruct (rev candles) as [|curr [|prev rest]];
    try undetected.
  wf_inv F. destruct W0 as (P0 & P1 & P2 & P3 & P4).
  destruct (Qeq_bool (c_high prev - c_low prev) 0) eqn:E;
    [undetected|].
  apply Qeq_bool_false_iff in E.
  match goal with |- context [if ?b then _ else _] => destruct b end;
    [|undetected].
  destruct (ratio_in_unit (Qabs (c_close curr - c_open curr))
              (c_high prev - c_low prev)) as (q & -> & Hq).
  - apply Qabs_nonneg.
  - lra.
  - cbn [bind]. eexists. split; [reflexivity|]. apply Qmin1_in_unit, Hq.
Qed.

Lemma detect_pinbar_in_unit (candles : list Candle) :
  Forall Sample.well_formed candles ->
  exists p, PriceAction.detect_pinbar candles = Ok p /\ Confirmation.confidence_in_unit p.
Proof.
  intro F. apply well_formed_rev in F. unfold PriceAction.detect_pinbar.
  destruct (rev candles) as [|candle rest]; [undetected|].
  wf_inv F. destruct W as (P0 & P1 & P2 & P3 & P4).
  destruct (Qeq_bool (c_high candle - c_low candle) 0) eqn:E; [undetected|].
  apply Qeq_bool_false_iff in E.
  assert (R : 0 < c_high candle - c_low candle) by lra.
  destruct (ratio_in_unit (Qabs (c_close candle - c_open candle))
              (c_high candle - c_low candle)) as (br & -> & Hbr);
    [apply Qabs_nonneg | exact R |].
  cbn [bind].
  destruct (Qlt_bool br (3 # 10)) eqn:B; [|undetected].
  apply Qlt_bool_iff in B.
  assert (L : exists lw,
             (if Qlt_bool (c_open candle) (c_close candle)
              then pydiv (c_high candle - c_close candle)
                         (c_high candle - c_low candle)
              else pydiv (c_close candle - c_low candle)
                         (c_high candle - c_low candle)) = Ok lw /\ 0 <= lw).
  { destruct (Qlt_bool (c_open candle) (c_close candle));
      apply ratio_in_unit; lra. }
  destruct L as (lw & -> & Hlw). cbn [bind].
  destruct (Qlt_bool (4 # 10) lw) eqn:D; [|undetected].
  eexists. split; [reflexivity|].
  destruct (Qmin1_in_unit lw Hlw) as [M0 M1].
  unfold Confirmation.confidence_in_unit, PriceAction.detected_with. cbn [PriceAction.confidence].
  set (m := Qmin 1 lw) in *. split; nra.
Qed.

Lemma star_confidence_in_unit (q : Q) :
  Confirmation.confidence_in_unit (PriceAction.detected_with (Qmax (5 # 10) (Qmin 1 q))).
Proof.
  unfold Confirmation.confidence_in_unit, PriceAction.detected_with. cbn [PriceAction.confidence].
  split.
  - eapply Qle_trans; [|apply Q.le_max_l]. vm_compute. discriminate.
  - apply Q.max_lub; [vm_compute; discriminate | apply Q.le_min_l].
Qed.

Lemma small_body_positive_range (body range : Q) :
  Qlt_bool (Qabs body) (range * (5 # 10)) = true -> ~ range == 0.
Proof.
  intros H E. apply Qlt_bool_iff in H. rewrite E in H.
  pose proof (Qabs_nonneg body). lra.
Qed.

Lemma detect_morning_star_in_unit (candles : list Candle) :
  exists p, PriceAction.detect_morning_star candles = Ok p /\ Confirmation.confidence_in_unit p.
Proof.
  unfold PriceAction.detect_morning_star.
  destruct (rev candles) as [|c3 [|c2 [|c1 rest]]]; try undetected.
  destruct (Qlt_bool (c_close c1) (c_open c1)); cbn [andb]; [|undetected].
  destruct (Qlt_bool (Qabs _) _) eqn:S; cbn [andb]; [|undetected].
  destruct (Qlt_bool (c_open c3) (c_close c3)); [|undetected].
  rewrite pydiv_ok by (eapply small_body_positive_range; exact S).
  cbn [bind]. eexists. split; [reflexivity | apply star_confidence_in_unit].
Qed.

Lemma detect_evening_star_in_unit (candles : list Candle) :
  exists p, PriceAction.detect_evening_star candles = Ok p /\ Confirmation.confidence_in_unit p.
Proof.
  unfold PriceAction.detect_evening_star.
  destruct (rev candles) as [|c3 [|c2 [|c1 rest]]]; try undetected.
  destruct (Qlt_bool (c_open c1) (c_close c1)); cbn [andb]; [|undetected].
  destruct (Qlt_bool (Qabs _) _) eqn:S; cbn [andb]; [|undetected].
  destruct (Qlt_bool (c_close c3) (c_open c3)); [|undetected].
  rewrite pydiv_ok by (eapply small_body_positive_range; exact S).
  cbn [bind]. eexists. split; [reflexivity | apply star_confidence_in_unit].
Qed.

Lemma well_formed_high_pos (c : Candle) : Sample.well_formed c -> 0 < c_high c.
Proof. intros (P0 & P1 & P2 & P3 & P4). lra. Qed.

Lemma well_formed_low_pos (c : Candle) : Sample.well_formed c -> 0 < c_low c.
Proof. intros (P0 & _). exact P0. Qed.

Lemma detect_break_of_structure_in_unit (candles : list Candle) :
  Forall Sample.well_formed candles ->
  exists p, PriceAction.detect_break_of_structure candles = Ok p
            /\ Confirmation.confidence_in_unit p.
Proof.
  intro F. apply well_formed_rev in F. unfold PriceAction.detect_break_of_structure.
  destruct (rev candles) as [|current [|r4 [|r3 [|r2 [|r1 rest]]]]]; try undetected.
  wf_inv F.
  set (swing_high := max_list _ _). set (swing_low := min_list _ _).
  assert (Hh : 0 < swing_high).
  { unfold swing_high, max_list. cbn [fold_left].
    eapply Qlt_le_trans; [apply (well_formed_high_pos r1); assumption|].
    eapply Qle_trans; [|apply Q.le_max_l].
    eapply Qle_trans; [|apply Q.le_max_l]. apply Q.le_max_l. }
  assert (Hl : 0 < swing_low).
  { unfold swing_low, min_list. cbn [fold_left].
    repeat apply Q.min_glb_lt; apply well_formed_low_pos; assumption. }
  destruct (Qlt_bool swing_high (c_close current)) eqn:U; cbn [andb].
  - destruct (Qlt_bool (c_open current) (c_close current)).
    + apply Qlt_bool_iff in U.
      destruct (ratio_in_unit (c_close current - swing_high) swing_high)
        as (q & -> & Hq); [lra | exact Hh |].
      cbn [bind]. eexists. split; [reflexivity | apply Qmin1_in_unit, Hq].
    + destruct (Qlt_bool (c_close current) swing_low) eqn:D; cbn [andb];
        [|undetected].
      destruct (Qlt_bool (c_close current) (c_open current)); [|undetected].
      apply Qlt_bool_iff in D.
      destruct (ratio_in_unit (swing_low - c_close current) swing_low)
        as (q & -> & Hq); [lra | exact Hl |].
      cbn [bind]. eexists. split; [reflexivity | apply Qmin1_in_unit, Hq].
  - destruct (Qlt_bool (c_close current) swing_low) eqn:D; cbn [andb];
      [|undetected].
    destruct (Qlt_bool (c_close current) (c_open current)); [|undetected].
    apply Qlt_bool_iff in D.
    destruct (ratio_in_unit (swing_low - c_close current) swing_low)
      as (q & -> & Hq); [lra | exact Hl |].
    cbn [bind]. eexists. split; [reflexivity | apply Qmin1_in_unit, Hq].
Qed.

Lemma detect_fair_value_gap_in_unit (candles : list Candle) :
  Forall Sample.well_formed candles ->
  exists p, PriceAction.detect_fair_value_gap candles = Ok p
            /\ Confirmation.confidence_in_unit p.
Proof.
  intro F. apply well_formed_rev in F. unfold PriceAction.detect_fair_value_gap.
  destruct (rev candles) as [|curr [|prev rest]]; try undetected.
  wf_inv F.
  pose proof (well_formed_high_pos prev W0) as Hh.
  pose proof (well_formed_low_pos prev W0) as Hl.
  destruct (Qlt_bool (c_high prev) (c_low curr)) eqn:U.
  - apply Qlt_bool_iff in U.
    destruct (ratio_in_unit (c_low curr - c_high prev) (c_high prev))
      as (q & -> & Hq); [lra | exact Hh |].
    cbn [bind]. eexists. split; [reflexivity | apply Qmin1_in_unit, Hq].
  - destruct (Qlt_bool (c_high curr) (c_low prev)) eqn:D; [|undetected].
    apply Qlt_bool_iff in D.
    destruct (ratio_in_unit (c_low prev - c_high curr) (c_low prev))
      as (q & -> & Hq); [lra | exact Hl |].
    cbn [bind]. eexists. split; [reflexivity | apply Qmin1_in_unit, Hq].
Qed.

Lemma detect_ema_retest_in_unit (candles : list Candle) (ema_values : list Q) :
  Confirmation.latest_positive ema_values ->
  exists p, PriceAction.detect_ema_retest candles ema_values = Ok p
            /\ Confirmation.confidence_in_unit p.
Proof.
  unfold Confirmation.latest_positive, PriceAction.detect_ema_retest. intro H.
  destruct (_ || _); [undetected|].
  destruct (rev ema_values) as [|curr_ema [|prev_ema erest]]; try undetected.
  destruct (rev candles) as [|current [|previous crest]]; try undetected.
  match goal with |- context [if ?b then _ else _] => destruct b end;
    [|undetected].
  destruct (ratio_in_unit (Qabs (c_close current - curr_ema)) curr_ema)
    as (distance & -> & Hd); [apply Qabs_nonneg | exact H |].
  cbn [bind].
  destruct (ratio_in_unit distance (1 # 100)) as (q & -> & Hq);
    [exact Hd | reflexivity |].
  cbn [bind]. eexists. split; [reflexivity|].
  destruct (Qmin1_in_unit q Hq) as [M0 M1].
  unfold Confirmation.confidence_in_unit, PriceAction.detected_with.
  cbn [PriceAction.confidence]. split; lra.
Qed.

Lemma sr_retest_loop_in_unit (current previous : Candle)
  (sr_zones : list SupportResistance.Zone) :
  Forall Confirmation.strength_nonneg sr_zones ->
  Confirmation.confidence_in_unit (PriceAction.sr_retest_loop current previous sr_zones).
Proof.
  induction 1 as [|zone rest Hz _ IH]; [apply not_detected_in_unit|].
  cbn [PriceAction.sr_retest_loop].
  match goal with |- context [if ?b then _ else _] => destruct b end;
    [|exact IH].
  apply Qmin1_in_unit. unfold Confirmation.strength_nonneg in Hz.
  apply Qmult_le_0_compat; [exact Hz | vm_compute; discriminate].
Qed.

Lemma detect_sr_retest_in_unit (candles : list Candle)
  (sr_zones : list SupportResistance.Zone) :
  Forall Confirmation.strength_nonneg sr_zones ->
  exists p, PriceAction.detect_sr_retest candles sr_zones = Ok p
            /\ Confirmation.confidence_in_unit p.
Proof.
  intro F. unfold PriceAction.detect_sr_retest.
  destruct (rev candles) as [|current [|previous crest]]; try undetected.
  destruct sr_zones as [|z zs]; [undetected|].
  eexists. split; [reflexivity | apply sr_retest_loop_in_unit, F].
Qed.

Lemma fold_sum_bounds (xs : list Q) :
  Forall (fun x => 0 <= x /\ x <= 1) xs ->
  forall a, a <= fold_left Qplus xs a
            /\ fold_left Qplus xs a <= a + inject_Z (Z.of_nat (length xs)).
Proof.
  induction 1 as [|x xs [H0 H1] _ IH]; intro a.
  - cbn [fold_left length]. change (inject_Z (Z.of_nat 0)) with 0. split; lra.
  - cbn [fold_left length]. destruct (IH (a + x)) as [L U].
    rewrite Nat2Z.inj_succ, <- Z.add_1_r, inject_Z_plus.
    change (inject_Z 1) with 1. split; lra.
Qed.

Lemma confirmations_spec (evaluated : list (string * PriceAction.Pattern)) :
  let confirmations :=
    flat_map (fun np : string * PriceAction.Pattern =>
                if PriceAction.detected (snd np)
                then [(fst np, PriceAction.confidence (snd np))] else [])
             evaluated in
  map snd confirmations = Confirmation.detected_confidences evaluated
  /\ length confirmations
     = length (filter PriceAction.detected (map snd evaluated))
  /\ (length confirmations <= length evaluated)%nat.
Proof.
  unfold Confirmation.detected_confidences.
  induction evaluated as [|[name p] rest (IH1 & IH2 & IH3)]; [cbn; auto|].
  cbn [flat_map map filter snd fst].
  destruct (PriceAction.detected p); cbn [app map length].
  - rewrite IH1, IH2. repeat split; lia.
  - rewrite IH1, IH2. repeat split; lia.
Qed.

Lemma score_in_unit (evaluated : list (string * PriceAction.Pattern)) :
  Forall Confirmation.confidence_in_unit (map snd evaluated) ->
  (1 <= length evaluated)%nat ->
  let score := Py.sum (Confirmation.detected_confidences evaluated)
               / inject_Z (Z.of_nat (length evaluated)) in
  0 <= score /\ score <= 1.
Proof.
  intros F L score.
  assert (Fd : Forall (fun x => 0 <= x /\ x <= 1) (Confirmation.detected_confidences evaluated)).
  { unfold Confirmation.detected_confidences. apply Forall_map.
    apply Forall_forall. intros p Hp. apply filter_In in Hp.
    rewrite Forall_forall in F. apply F, Hp. }
  destruct (fold_sum_bounds _ Fd 0) as [S0 S1].
  fold (Py.sum (Confirmation.detected_confidences evaluated)) in S0, S1.
  destruct (confirmations_spec evaluated) as (E1 & _ & E3). cbv zeta in E1, E3.
  assert (Ln : (length (Confirmation.detected_confidences evaluated) <= length evaluated)%nat).
  { rewrite <- E1, length_map. exact E3. }
  assert (Hn : 0 < inject_Z (Z.of_nat (length evaluated))).
  { change 0 with (inject_Z 0). rewrite <- Zlt_Qlt. lia. }
  assert (Hle : inject_Z (Z.of_nat (length (Confirmation.detected_confidences evaluated)))
                <= inject_Z (Z.of_nat (length evaluated))).
  { rewrite <- Zle_Qle. lia. }
  subst score. split.
  - apply Qdiv_nonneg; assumption.
  - apply Qle_shift_div_r; [exact Hn|]. lra.
Qed.

Lemma evaluated_patterns_spec (candles : list Candle)
  (sr_zones : option (list SupportResistance.Zone)) (ema_values : option (list Q)) :
  Forall Sample.well_formed candles ->
  (forall ema, ema_values = Some ema -> Confirmation.latest_positive ema) ->
  (forall zs, sr_zones = Some zs -> Forall Confirmation.strength_nonneg zs) ->
  exists evaluated,
    PriceAction.evaluated_patterns candles sr_zones ema_values = Ok evaluated
    /\ map fst evaluated = Confirmation.applicable sr_zones ema_values
    /\ Forall Confirmation.confidence_in_unit (map snd evaluated).
Proof.
  intros F He Hz. unfold PriceAction.evaluated_patterns.
  destruct (detect_engulfing_in_unit candles F) as (p1 & -> & U1).
  destruct (detect_pinbar_in_unit candles F) as (p2 & -> & U2).
  destruct (detect_morning_star_in_unit candles) as (p3 & -> & U3).
  destruct (detect_evening_star_in_unit candles) as (p4 & -> & U4).
  destruct (detect_break_of_structure_in_unit candles F) as (p5 & -> & U5).
  destruct (detect_fair_value_gap_in_unit candles F) as (p6 & -> & U6).
  cbn [bind].
  assert (B : Forall Confirmation.confidence_in_unit [p1; p2; p3; p4; p5; p6])
    by (repeat (apply Forall_cons; [assumption|]); apply Forall_nil).
  unfold Confirmation.applicable.
  destruct ema_values as [[|e es]|]; cbn [Confirmation.available length Nat.ltb Nat.leb try_except bind].
  - destruct sr_zones as [[|z zs]|]; cbn [Confirmation.available bind app map fst snd].
    + eexists. split; [reflexivity|]. split; [reflexivity | in_unit_all].
    + destruct (detect_sr_retest_in_unit candles (z :: zs) (Hz _ eq_refl))
        as (p8 & -> & U8).
      cbn [bind app map fst snd]. eexists. split; [reflexivity|].
      split; [reflexivity | in_unit_all].
    + eexists. split; [reflexivity|]. split; [reflexivity | in_unit_all].
  - destruct (detect_ema_retest_in_unit candles (e :: es) (He _ eq_refl))
      as (p7 & -> & U7).
    cbn [bind try_except app].
    destruct sr_zones as [[|z zs]|]; cbn [Confirmation.available bind app map fst snd].
    + eexists. split; [reflexivity|].
      split; [reflexivity | in_unit_all].
    + destruct (detect_sr_retest_in_unit candles (z :: zs) (Hz _ eq_refl))
        as (p8 & -> & U8).
      cbn [bind app map fst snd]. eexists. split; [reflexivity|].
      split; [reflexivity | in_unit_all].
    + eexists. split; [reflexivity|].
      split; [reflexivity | in_unit_all].
  - destruct sr_zones as [[|z zs]|]; cbn [Confirmation.available bind app map fst snd].
    + eexists. split; [reflexivity|]. split; [reflexivity | in_unit_all].
    + destruct (detect_sr_retest_in_unit candles (z :: zs) (Hz _ eq_refl))
        as (p8 & -> & U8).
      cbn [bind app map fst snd]. eexists. split; [reflexivity|].
      split; [reflexivity | in_unit_all].
    + eexists. split; [reflexivity|]. split; [reflexivity | in_unit_all].
Qed.

(** C8 fails as stated, on every input the amendment leaves out.  With a
    candle whose prices are all 0 before a gap, [detect_fair_value_gap]
    divides by the previous high and [calculate_confirmation_score]
    raises [ZeroDivisionError]; with a moving-average series whose
    latest value is 0, [detect_ema_retest] divides by it and the call
    raises as well; with a candle whose high lies below its low the
    engulfing confidence, and with a zone of negative strength the
    zone-retest confidence, is negative, and so is the score. *)
Lemma confirmation_score_claim_fails :
  PriceAction.calculate_confirmation_score Confirmation.analyzer
    [Sample.doji 0; Sample.rising 1 2] None None
  = Raise ZeroDivisionError
  /\ PriceAction.calculate_confirmation_score Confirmation.analyzer
       (repeat (Sample.rising 99 101) 10) None (Some [1000; 0])
     = Raise ZeroDivisionError
  /\ (exists r,
        PriceAction.calculate_confirmation_score Confirmation.analyzer
          [Degenerate.inverted; Sample.rising 9 12] None None = Ok r
        /\ PriceAction.confirmation_score r < 0)
  /\ (exists r,
        PriceAction.calculate_confirmation_score Confirmation.analyzer
          [Sample.rising 99 101; Degenerate.falling]
          (Some [Degenerate.weak_zone]) None = Ok r
        /\ PriceAction.confirmation_score r < 0).
Proof.
  split; [vm_compute; reflexivity|]. split; [vm_compute; reflexivity|].
  split; eexists; (split; [vm_compute; reflexivity | vm_compute; reflexivity]).
Qed.

(** C8, amended: on well-formed candles (positive prices, low below and high
    above open and close), with a positive latest moving-average value
    and non-negative zone strengths when these inputs are given,
    [calculate_confirmation_score] returns; the patterns it evaluates are
    exactly the applicable ones (the moving-average and zone retests are
    left out when their input is absent or empty); [confirmation_count]
    is the number of detected patterns; [confirmation_score] is the sum
    of the detected confidences divided by the number of evaluated
    patterns; and the score lies in [[0, 1]]. *)
Theorem confirmation_score_over_applicable (a : PriceAction.PriceActionAnalyzer)
  (candles : list Candle)
  (sr_zones : option (list SupportResistance.Zone)) (ema_values : option (list Q)) :
  Forall Sample.well_formed candles ->
  (forall ema, ema_values = Some ema -> Confirmation.latest_positive ema) ->
  (forall zs, sr_zones = Some zs -> Forall Confirmation.strength_nonneg zs) ->
  exists evaluated r,
    PriceAction.evaluated_patterns candles sr_zones ema_values = Ok evaluated
    /\ PriceAction.calculate_confirmation_score a candles sr_zones ema_values = Ok r
    /\ map fst evaluated = Confirmation.applicable sr_zones ema_values
    /\ PriceAction.confirmation_count r
       = length (filter PriceAction.detected (map snd evaluated))
    /\ PriceAction.confirmation_score r
       == Py.sum (Confirmation.detected_confidences evaluated)
          / inject_Z (Z.of_nat (length evaluated))
    /\ 0 <= PriceAction.confirmation_score r
    /\ PriceAction.confirmation_score r <= 1.
Proof.
  intros F He Hz.
  destruct (evaluated_patterns_spec candles sr_zones ema_values F He Hz)
    as (evaluated & E & N & U).
  unfold PriceAction.calculate_confirmation_score. rewrite E. cbn [bind].
  eexists. eexists. split; [reflexivity|]. split; [reflexivity|].
  cbn [PriceAction.confirmation_count PriceAction.confirmation_score].
  destruct (confirmations_spec evaluated) as (C1 & C2 & _). cbv zeta in C1, C2.
  assert (L : (6 <= length evaluated)%nat).
  { rewrite <- (length_map fst), N. unfold Confirmation.applicable. rewrite length_app.
    cbn [length]. lia. }
  replace (Nat.max 1 (length evaluated)) with (length evaluated) by lia.
  rewrite C1.
  destruct (score_in_unit evaluated U) as [S0 S1]; [lia|].
  split; [exact N|]. split; [exact C2|]. split; [reflexivity|].
  split; assumption.
Qed.

Lemma gap_up_well_formed : Forall Sample.well_formed Confirmation.gap_up.
Proof.
  repeat (apply Forall_cons;
          [unfold Sample.well_formed;
           repeat split; vm_compute; first [reflexivity | discriminate]|]).
  apply Forall_nil.
Qed.

Lemma confirmation_score_over_applicable_witness :
  exists r,
    PriceAction.calculate_confirmation_score Confirmation.analyzer
      Confirmation.gap_up (Some [Confirmation.zone_at_12]) None = Ok r
    /\ PriceAction.confirmation_count r = 1%nat
    /\ PriceAction.confirmation_score r == 1 # 77
    /\ 0 <= PriceAction.confirmation_score r
    /\ PriceAction.confirmation_score r <= 1.
Proof.
  destruct (confirmation_score_over_applicable Confirmation.analyzer
              Confirmation.gap_up (Some [Confirmation.zone_at_12]) None
              gap_up_well_formed)
    as (evaluated & r & _ & E & _ & _ & _ & S0 & S1).
  - discriminate.
  - intros zs H. injection H as <-.
    apply Forall_cons; [vm_compute; discriminate | apply Forall_nil].
  - exists r. assert (V := E). vm_compute in V. injection V as <-.
    split; [exact E|]. split; [reflexivity|]. split; [reflexivity|].
    split; vm_compute; discriminate.
Defined.

(* ================================================================= *)
(** * Further properties *)

(** ** Risk engine: sizing *)

Lemma round_half_even_mono (x y : Q) :
  x <= y -> (round_half_even x <= round_half_even y)%Z.
Proof.
  intro H. unfold round_half_even.
  pose proof (Qfloor_resp_le _ _ H) as F.
  pose proof (Qfloor_le x) as Lx. pose proof (Qlt_floor x) as Ux.
  pose proof (Qfloor_le y) as Ly. pose proof (Qlt_floor y) as Uy.
  rewrite inject_Z_plus in Ux, Uy. change (inject_Z 1) with 1 in Ux, Uy.
  destruct (Z.eq_dec (Qfloor x) (Qfloor y)) as [E|N].
  - rewrite <- E in *.
    destruct (Qcompare (x - inject_Z (Qfloor x)) (1 # 2)) eqn:Cx;
      destruct (Qcompare (y - inject_Z (Qfloor x)) (1 # 2)) eqn:Cy;
      first [apply Qeq_alt in Cx | apply Qlt_alt in Cx | apply Qgt_alt in Cx];
      first [apply Qeq_alt in Cy | apply Qlt_alt in Cy | apply Qgt_alt in Cy];
      try (destruct (Z.even (Qfloor x))); try lia; exfalso; lra.
  - assert (S : (Qfloor x + 1 <= Qfloor y)%Z) by lia.
    destruct (Qcompare (x - inject_Z (Qfloor x)) (1 # 2));
      destruct (Qcompare (y - inject_Z (Qfloor y)) (1 # 2));
      try (destruct (Z.even (Qfloor x))); try (destruct (Z.even (Qfloor y))); lia.
Qed.

Lemma round_mono (x y : Q) (n : nat) : x <= y -> Py.round x n <= Py.round y n.
Proof.
  intro H. unfold Py.round.
  pose proof (scale_pos n) as Hs. set (s := inject_Z (10 ^ Z.of_nat n)) in *.
  assert (M : x * s <= y * s) by (apply Qmult_le_compat_r; lra).
  apply round_half_even_mono in M. rewrite Zle_Qle in M.
  unfold Qdiv. apply Qmult_le_compat_r; [exact M|].
  apply Qlt_le_weak, Qinv_lt_0_compat, Hs.
Qed.

Lemma round_half_even_comp (x y : Q) :
  x == y -> round_half_even x = round_half_even y.
Proof.
  intro H. unfold round_half_even. rewrite (Qfloor_comp _ _ H).
  assert (E : x - inject_Z (Qfloor y) == y - inject_Z (Qfloor y))
    by (rewrite H; reflexivity).
  rewrite E. reflexivity.
Qed.

Lemma round_comp (x y : Q) (n : nat) : x == y -> Py.round x n == Py.round y n.
Proof.
  intro H. unfold Py.round.
  assert (E : x * inject_Z (10 ^ Z.of_nat n) == y * inject_Z (10 ^ Z.of_nat n))
    by (rewrite H; reflexivity).
  rewrite (round_half_even_comp _ _ E). reflexivity.
Qed.

(** X1: if the minimum lot size is carried by 8 decimals (as 0.001 is),
    a position size computed from distinct entry and stop-loss prices is
    never below it: the final rounding cannot undercut the floor. *)
Theorem position_size_at_least_min_lot (rm : Risk.RiskManager) (e s : Q) :
  ~ e == s ->
  Ledger.on_grid (Risk.exchange_min_lot_size rm) ->
  exists v, Risk.position_size rm e s = Ok v
            /\ Risk.exchange_min_lot_size rm <= v.
Proof.
  intros H G. rewrite (position_size_unequal rm e s H).
  eexists. split; [reflexivity|].
  unfold Ledger.on_grid in G. rewrite <- G at 1.
  apply round_mono. unfold Reference.unrounded_size. apply Q.le_max_r.
Qed.

Lemma position_size_at_least_min_lot_witness :
  exists v, Risk.position_size Reference.test_manager 1 (99 # 100) = Ok v
            /\ 1 # 1000 <= v.
Proof.
  apply (position_size_at_least_min_lot Reference.test_manager 1 (99 # 100)).
  - vm_compute. discriminate.
  - vm_compute. reflexivity.
Defined.

Lemma Qabs_zero_iff (x : Q) : Qabs x == 0 <-> x == 0.
Proof.
  split; intro H.
  - pose proof (Qle_Qabs x) as A. pose proof (Qle_Qabs (- x)) as B.
    rewrite Qabs_opp in B. rewrite H in A, B. apply Qle_antisym; lra.
  - rewrite H. reflexivity.
Qed.

Lemma no_distance_iff (x y : Q) : Qabs (x - y) == 0 <-> x == y.
Proof.
  rewrite Qabs_zero_iff. split; intro H.
  - apply Qle_antisym; lra.
  - rewrite H. ring.
Qed.

(** X2: the position size depends on entry and stop-loss only through
    their distance; in particular a long and a short trade with the same
    stop distance are sized alike, and swapping entry and stop-loss
    changes nothing. *)
Theorem position_size_by_distance (rm : Risk.RiskManager) (e s e' s' : Q) :
  Qabs (e - s) == Qabs (e' - s') ->
  exists v v',
    Risk.position_size rm e s = Ok v
    /\ Risk.position_size rm e' s' = Ok v'
    /\ v == v'.
Proof.
  intro H.
  destruct (Qeq_dec e s) as [E|N].
  - assert (E' : e' == s').
    { apply no_distance_iff. rewrite <- H. apply no_distance_iff. exact E. }
    rewrite (position_size_equal rm e s E), (position_size_equal rm e' s' E').
    exists 0, 0. repeat split; reflexivity.
  - assert (N' : ~ e' == s').
    { intro E'. apply N.
      apply no_distance_iff. rewrite H. apply no_distance_iff. exact E'. }
    rewrite (position_size_unequal rm e s N), (position_size_unequal rm e' s' N').
    eexists. eexists. split; [reflexivity|]. split; [reflexivity|].
    apply round_comp. unfold Reference.unrounded_size. rewrite H. reflexivity.
Qed.

Lemma position_size_by_distance_witness :
  exists v v',
    Risk.position_size Reference.test_manager 100 95 = Ok v
    /\ Risk.position_size Reference.test_manager 95 100 = Ok v'
    /\ v == v'.
Proof.
  apply position_size_by_distance. vm_compute. reflexivity.
Defined.

(** ** Risk engine: circuit breakers and the daily file *)

Lemma after_losses_state (k : nat) (rm : Risk.RiskManager) :
  Risk.consecutive_loss_counter (Ledger.after_losses k rm)
  = (Risk.consecutive_loss_counter rm + Z.of_nat k)%Z
  /\ Risk.max_consecutive_losses (Ledger.after_losses k rm)
     = Risk.max_consecutive_losses rm.
Proof.
  induction k as [|k [IH1 IH2]].
  - cbn [Ledger.after_losses]. split; [lia | reflexivity].
  - cbn [Ledger.after_losses]. unfold Risk.increment_consecutive_losses.
    destruct (_ <=? _)%Z; cbn [snd Risk.set_consecutive_loss_counter
      Risk.consecutive_loss_counter Risk.max_consecutive_losses];
      rewrite IH1, IH2; split; try reflexivity; lia.
Qed.

(** X3: for any configured limit, starting from a counter of 0, the
    [k+1]-th loss in a row is allowed to continue exactly when [k+1] is
    still below the limit; once the limit is reached every further loss
    is blocked too. *)
Theorem breaker_trips_at_limit (rm : Risk.RiskManager) (k : nat) :
  Risk.consecutive_loss_counter rm = 0%Z ->
  Risk.consecutive_loss_counter (Ledger.after_losses k rm) = Z.of_nat k
  /\ (fst (fst (Risk.increment_consecutive_losses (Ledger.after_losses k rm)))
      = true
      <-> (Z.of_nat k + 1 < Risk.max_consecutive_losses rm)%Z).
Proof.
  intro H0. destruct (after_losses_state k rm) as [C M]. rewrite H0 in C.
  split; [lia|].
  unfold Risk.increment_consecutive_losses.
  cbn [Risk.set_consecutive_loss_counter Risk.consecutive_loss_counter
       Risk.max_consecutive_losses].
  rewrite C, M.
  destruct (Risk.max_consecutive_losses rm <=? 0 + Z.of_nat k + 1)%Z eqn:E;
    cbn [fst].
  - apply Z.leb_le in E. split; [discriminate | lia].
  - apply Z.leb_gt in E. split; [lia | reflexivity].
Qed.

Lemma breaker_trips_at_limit_witness :
  fst (fst (Risk.increment_consecutive_losses
              (Ledger.after_losses 0 Reference.test_manager))) = true
  /\ fst (fst (Risk.increment_consecutive_losses
                 (Ledger.after_losses 1 Reference.test_manager))) = false
  /\ fst (fst (Risk.increment_consecutive_losses
                 (Ledger.after_losses 5 Reference.test_manager))) = false.
Proof.
  pose proof (breaker_trips_at_limit Reference.test_manager 0 eq_refl) as [_ A].
  pose proof (breaker_trips_at_limit Reference.test_manager 1 eq_refl) as [_ B].
  pose proof (breaker_trips_at_limit Reference.test_manager 5 eq_refl) as [_ C].
  split; [apply A; reflexivity|].
  split; apply not_true_is_false; intro T;
    [apply B in T | apply C in T]; discriminate T.
Defined.

(** One trade recorded on a file the program itself wrote. *)
Lemma track_daily_pnl_on_record fos ios (rm : Risk.RiskManager) (w : Risk.World)
  (date : string) (c : Q) (t win lose : Z) (pnl : Q) :
  Risk.writable w = true ->
  Risk.daily_pnl_file w = Valid (Ledger.daily_record date c t win lose) ->
  exists w',
    Risk.track_daily_pnl fos ios rm w pnl
    = (Ok tt,
       Risk.set_daily_loss_accumulation rm (Risk.daily_loss_accumulation rm + pnl),
       w')
    /\ Risk.writable w' = true
    /\ Risk.today w' = Risk.today w
    /\ Risk.daily_pnl_file w'
       = Valid (Ledger.daily_record date (Py.round (c + pnl) 8) (t + 1)
                  (win + Ledger.wins [pnl]) (lose + Ledger.non_wins [pnl])).
Proof.
  intros Hw Hf. unfold Risk.track_daily_pnl. rewrite Hf.
  unfold Ledger.daily_record, Ledger.wins, Ledger.non_wins.
  cbn [read_json getitem Json.get setitem assoc_get assoc_set bind to_float to_int
       String.eqb Ascii.eqb Bool.eqb filter length].
  destruct (Qlt_bool 0 pnl);
    cbn [Json.get setitem assoc_get assoc_set bind to_int negb
         String.eqb Ascii.eqb Bool.eqb length Z.of_nat];
    unfold Risk._save_daily_pnl; rewrite Hw;
    eexists; (split; [reflexivity|]); cbn; rewrite ?Z.add_0_r; auto.
Qed.

Lemma wins_cons (p : Q) (ps : list Q) :
  Ledger.wins (p :: ps) = (Ledger.wins [p] + Ledger.wins ps)%Z
  /\ Ledger.non_wins (p :: ps) = (Ledger.non_wins [p] + Ledger.non_wins ps)%Z.
Proof.
  unfold Ledger.wins, Ledger.non_wins. cbn [filter].
  destruct (Qlt_bool 0 p); cbn [negb length]; split; lia.
Qed.

Lemma wins_and_non_wins (pnls : list Q) :
  (Ledger.wins pnls + Ledger.non_wins pnls)%Z = Z.of_nat (length pnls).
Proof.
  induction pnls as [|p ps IH]; [reflexivity|].
  destruct (wins_cons p ps) as [-> ->].
  unfold Ledger.wins at 1, Ledger.non_wins at 1. cbn [filter length].
  destruct (Qlt_bool 0 p); cbn [negb length]; lia.
Qed.

(** X4: on a writable disk whose [daily_pnl.json] was written by the
    program, any run of [track_daily_pnl] calls returns normally and
    keeps the books: [trades_today] grows by the number of trades,
    [winning_trades] by the trades with positive PnL, [losing_trades] by
    all the others (a trade with zero PnL counts as a loss), so the two
    always add up to the growth of [trades_today]; [cumulative_pnl] is
    re-rounded to 8 decimals at every trade. *)
Theorem daily_file_bookkeeping fos ios (pnls : list Q) :
  forall (rm : Risk.RiskManager) (w : Risk.World)
         (date : string) (c : Q) (t win lose : Z),
    Risk.writable w = true ->
    Risk.daily_pnl_file w = Valid (Ledger.daily_record date c t win lose) ->
    let out := Scenario.record_trades fos ios rm w pnls in
    Scenario.outcomes out = repeat (Ok tt) (length pnls)
    /\ Risk.daily_pnl_file (Ledger.world_after out)
       = Valid (Ledger.daily_record date (Ledger.rounded_total c pnls)
                  (t + Z.of_nat (length pnls))
                  (win + Ledger.wins pnls) (lose + Ledger.non_wins pnls))
    /\ (Ledger.wins pnls + Ledger.non_wins pnls)%Z = Z.of_nat (length pnls).
Proof.
  induction pnls as [|p ps IH]; intros rm w date c t win lose Hw Hf out;
    subst out.
  - cbn [Scenario.record_trades Scenario.outcomes Ledger.world_after fst snd
         repeat length Ledger.rounded_total fold_left].
    split; [reflexivity|]. split; [|reflexivity].
    rewrite Hf. unfold Ledger.wins, Ledger.non_wins. cbn [filter length Z.of_nat].
    rewrite !Z.add_0_r. reflexivity.
  - destruct (track_daily_pnl_on_record fos ios rm w date c t win lose p Hw Hf)
      as (w' & E & Hw' & _ & Hf').
    cbn [Scenario.record_trades]. rewrite E.
    specialize (IH (Risk.set_daily_loss_accumulation rm
                      (Risk.daily_loss_accumulation rm + p)) w' date _ _ _ _ Hw' Hf').
    cbv zeta in IH.
    destruct (Scenario.record_trades fos ios _ w' ps) as [[rs rm''] w''].
    unfold Scenario.outcomes, Ledger.world_after in *. cbn [fst snd] in *.
    destruct IH as (I1 & I2 & I3).
    split; [cbn [length repeat]; rewrite I1; reflexivity|].
    split; [|apply wins_and_non_wins].
    rewrite I2. destruct (wins_cons p ps) as [-> ->].
    cbn [length Ledger.rounded_total fold_left].
    rewrite Nat2Z.inj_succ. unfold Ledger.rounded_total.
    f_equal. f_equal; lia.
Qed.

Lemma daily_file_bookkeeping_witness :
  exists w,
    Scenario.constructed Reference.test_config Reference.fresh_world
    = Some (Reference.test_manager, w)
    /\ Risk.daily_pnl_file
         (Ledger.world_after
            (Scenario.record_trades Reference.no_float_of_str
               Reference.no_int_of_str Reference.test_manager w [100; -(50); 0]))
       = Valid (Ledger.daily_record "2024-01-01" (5000000000 # 100000000) 3 1 2).
Proof.
  eexists. split; [vm_compute; reflexivity|].
  match goal with |- context [Scenario.record_trades _ _ _ ?w _] =>
    destruct (daily_file_bookkeeping Reference.no_float_of_str
                Reference.no_int_of_str [100; -(50); 0]
                Reference.test_manager w "2024-01-01" 0 0 0 0
                eq_refl eq_refl) as (_ & H & _)
  end.
  rewrite H. vm_compute. reflexivity.
Defined.

(** X5: [track_daily_pnl] is not atomic.  When [daily_pnl.json] parses
    but indexing the document by [cumulative_pnl] raises ([KeyError] for
    a dictionary without the key, [TypeError] for any other document),
    the call raises that exception, yet the in-memory accumulation has
    already been advanced by the PnL, and the file is left as it was. *)
Theorem track_daily_pnl_raises_after_accumulating fos ios
  (rm : Risk.RiskManager) (w : Risk.World) (doc : json) (pnl : Q) (e : exn) :
  Risk.daily_pnl_file w = Valid doc ->
  getitem doc "cumulative_pnl" = Raise e ->
  Risk.track_daily_pnl fos ios rm w pnl
  = (Raise e,
     Risk.set_daily_loss_accumulation rm (Risk.daily_loss_accumulation rm + pnl),
     w).
Proof.
  intros Hf Hk. unfold Risk.track_daily_pnl. rewrite Hf.
  cbn [read_json]. rewrite Hk. reflexivity.
Qed.

Lemma track_daily_pnl_raises_after_accumulating_witness :
  Risk.track_daily_pnl Reference.no_float_of_str Reference.no_int_of_str
    Reference.test_manager
    {| Risk.today := "2024-01-01"; Risk.daily_pnl_file := Valid (JDict []);
       Risk.writable := true |} (-(200))
  = (Raise (KeyError "cumulative_pnl"),
     Risk.set_daily_loss_accumulation Reference.test_manager (0 + -(200)),
     {| Risk.today := "2024-01-01"; Risk.daily_pnl_file := Valid (JDict []);
        Risk.writable := true |}).
Proof.
  apply (track_daily_pnl_raises_after_accumulating
           Reference.no_float_of_str Reference.no_int_of_str
           Reference.test_manager _ (JDict []) (-(200))
           (KeyError "cumulative_pnl")); reflexivity.
Defined.



Lemma step_touches_only_counters fos ios (o : Risk.op) (rm : Risk.RiskManager)
  (w : Risk.World) :
  exists (n : Z) (v : Q),
    fst (Risk.step fos ios o (rm, w))
    = Risk.set_consecutive_loss_counter (Risk.set_daily_loss_accumulation rm v) n.
Proof.
  assert (Same : rm = Risk.set_consecutive_loss_counter
                        (Risk.set_daily_loss_accumulation rm
                           (Risk.daily_loss_accumulation rm))
                        (Risk.consecutive_loss_counter rm))
    by (destruct rm; reflexivity).
  assert (Acc : forall v,
             Risk.set_daily_loss_accumulation rm v
             = Risk.set_consecutive_loss_counter
                 (Risk.set_daily_loss_accumulation rm v)
                 (Risk.consecutive_loss_counter rm))
    by (intro v; destruct rm; reflexivity).
  destruct o; cbn [Risk.step fst]; try (eexists; eexists; exact Same).
  - pose proof (track_daily_pnl_accumulates fos ios rm w pnl) as H.
    destruct (Risk.track_daily_pnl fos ios rm w pnl) as [[r rm'] w'].
    cbn [fst snd] in *. subst rm'. eexists. eexists. apply Acc.
  - unfold Risk.increment_consecutive_losses.
    destruct (_ <=? _)%Z; cbn [snd fst];
      exists (Risk.consecutive_loss_counter rm + 1)%Z,
             (Risk.daily_loss_accumulation rm);
      destruct rm; reflexivity.
  - exists 0%Z, (Risk.daily_loss_accumulation rm). destruct rm; reflexivity.
  - unfold Risk._load_daily_pnl.
    destruct (exists_ (Risk.daily_pnl_file w)) as [[|]|x]; cbn [bind];
      [|eexists; eexists; exact Same|eexists; eexists; exact Same].
    unfold try_except, Risk.load_daily_pnl_body.
    destruct (read_json (Risk.daily_pnl_file w)) as [data|e]; cbn [bind].
    + destruct (Json.get data "date" JNull) as [date|e]; cbn [bind].
      * destruct (eq_str date (Risk.today w)).
        -- destruct (Json.get data "cumulative_pnl" (JFloat 0)) as [c|e];
             cbn [bind].
           ++ destruct (to_float fos c) as [v|e]; cbn [bind fst].
              ** eexists. eexists. apply Acc.
              ** destruct (is_Exception e); cbn [fst];
                   eexists; eexists; first [apply Acc | exact Same].
           ++ destruct (is_Exception e); cbn [fst];
                eexists; eexists; first [apply Acc | exact Same].
        -- cbn [fst]. eexists. eexists. apply Acc.
      * destruct (is_Exception e); cbn [fst];
          eexists; eexists; first [apply Acc | exact Same].
    + destruct (is_Exception e); cbn [fst];
        eexists; eexists; first [apply Acc | exact Same].
Qed.

(** X7: the daily-loss breaker has no latch.  A blocked manager stays
    blocked through any non-positive PnL; but with a positive balance
    and a positive limit, as soon as a gain brings the day's
    accumulation back to zero or above, [check_daily_loss_limit] allows
    trading again, on the same day and without any reset.  No operation
    of the [RiskManager] ever sets [shutdown_required] or
    [shutdown_reason], or changes the configured balance and limits. *)
Theorem daily_breaker_has_no_latch :
  (forall fos ios rm w pnl,
     Ledger.blocked rm -> pnl <= 0 ->
     Ledger.blocked (snd (fst (Risk.track_daily_pnl fos ios rm w pnl))))
  /\ (forall fos ios rm w pnl,
        0 < Risk.account_balance rm -> 0 < Risk.max_daily_loss_pct rm ->
        0 <= Risk.daily_loss_accumulation rm + pnl ->
        ~ Ledger.blocked (snd (fst (Risk.track_daily_pnl fos ios rm w pnl))))
  /\ (forall fos ios o rm w,
        let rm' := fst (Risk.step fos ios o (rm, w)) in
        Risk.shutdown_required rm' = Risk.shutdown_required rm
        /\ Risk.shutdown_reason rm' = Risk.shutdown_reason rm
        /\ Risk.account_balance rm' = Risk.account_balance rm
        /\ Risk.max_daily_loss_pct rm' = Risk.max_daily_loss_pct rm
        /\ Risk.max_consecutive_losses rm' = Risk.max_consecutive_losses rm).
Proof.
  assert (Iff : forall rm, Ledger.blocked rm
                <-> Risk.daily_loss_accumulation rm
                    <= - (Risk.account_balance rm
                          * (Risk.max_daily_loss_pct rm / 100))).
  { intro rm. unfold Ledger.blocked, Risk.check_daily_loss_limit.
    destruct (Qle_bool _ _) eqn:E; cbn [fst].
    - apply Qle_bool_iff in E. split; [intros _; exact E | reflexivity].
    - apply Qle_bool_false_iff in E. split; [discriminate|].
      intro L. exfalso. apply (Qlt_not_le _ _ E L). }
  assert (A : forall fos ios rm w pnl,
             Ledger.blocked (snd (fst (Risk.track_daily_pnl fos ios rm w pnl)))
             <-> Risk.daily_loss_accumulation rm + pnl
                 <= - (Risk.account_balance rm
                       * (Risk.max_daily_loss_pct rm / 100))).
  { intros. rewrite track_daily_pnl_accumulates, Iff. reflexivity. }
  split; [|split].
  - intros fos ios rm w pnl B P. apply A. apply Iff in B. lra.
  - intros fos ios rm w pnl Hb Hl Hp B. apply A in B.
    assert (T : 0 < Risk.account_balance rm
                    * (Risk.max_daily_loss_pct rm / 100)).
    { apply Qmult_lt_0_compat; [exact Hb|].
      apply Qlt_shift_div_l; [reflexivity|]. lra. }
    lra.
  - intros fos ios o rm w rm'. subst rm'.
    destruct (step_touches_only_counters fos ios o rm w) as (n & v & ->).
    repeat split; reflexivity.
Qed.

Lemma daily_breaker_has_no_latch_witness :
  Ledger.blocked (Risk.set_daily_loss_accumulation Reference.test_manager (-(650)))
  /\ Ledger.blocked
       (snd (fst (Risk.track_daily_pnl Reference.no_float_of_str
                    Reference.no_int_of_str
                    (Risk.set_daily_loss_accumulation Reference.test_manager (-(650)))
                    Reference.fresh_world (-(10)))))
  /\ ~ Ledger.blocked
         (snd (fst (Risk.track_daily_pnl Reference.no_float_of_str
                      Reference.no_int_of_str
                      (Risk.set_daily_loss_accumulation Reference.test_manager (-(650)))
                      Reference.fresh_world 700))).
Proof.
  destruct daily_breaker_has_no_latch as (Stay & Back & _).
  assert (H : Ledger.blocked
                (Risk.set_daily_loss_accumulation Reference.test_manager (-(650))))
    by reflexivity.
  split; [exact H|]. split.
  - apply Stay; [exact H | vm_compute; discriminate].
  - apply Back; [reflexivity | reflexivity | vm_compute; discriminate].
Defined.

(** ** Execution engine: randomization *)

Lemma Qmult_le_nonneg_l (z x y : Q) : 0 <= z -> x <= y -> z * x <= z * y.
Proof.
  intros Hz H. rewrite (Qmult_comm z x), (Qmult_comm z y).
  apply Qmult_le_compat_r; assumption.
Qed.

(** X8: for a non-negative configured variance and a non-zero price,
    [randomize_tp_sl] returns a price within that percentage of the
    original, whatever the random source draws. *)
Theorem randomize_tp_sl_within_variance (config : Execution.Config)
  (price : Q) (is_tp : bool) (r : Execution.Run) :
  Execution.rng_wf (Execution.rng r) ->
  0 <= Execution.get (Execution.cfg_tp_sl_variance_pct config) 1 ->
  ~ price == 0 ->
  exists p,
    fst (Execution.randomize_tp_sl config price is_tp r) = Ok p
    /\ Qabs (p - price)
       <= Qabs price * (Execution.get (Execution.cfg_tp_sl_variance_pct config) 1 / 100).
Proof.
  intros Hg Hv Hp. unfold Execution.randomize_tp_sl.
  set (v := Execution.get (Execution.cfg_tp_sl_variance_pct config) 1) in *.
  assert (Hd : 0 <= v / 100) by (apply Qle_shift_div_l; lra).
  set (d := v / 100) in *.
  destruct (uniform_in_range (1 - d) (1 + d) (Execution.rng r) Hg)
    as (L & U & _); [lra|].
  destruct (Execution.uniform (1 - d) (1 + d) (Execution.rng r)) as [f g].
  cbn [fst snd] in *.
  rewrite (pydiv_ok _ _ Hp). cbn [bind]. eexists. split; [reflexivity|].
  assert (E : price * f - price == price * (f - 1)) by ring.
  rewrite E, Qabs_Qmult.
  apply Qmult_le_nonneg_l; [apply Qabs_nonneg|].
  apply Qabs_Qle_condition. split; lra.
Qed.

Lemma randomize_tp_sl_within_variance_witness :
  exists p,
    fst (Execution.randomize_tp_sl ExecutionReference.test_config 105 true
           ExecutionReference.start) = Ok p
    /\ Qabs (p - 105) <= Qabs 105 * (1 / 100).
Proof.
  apply (randomize_tp_sl_within_variance ExecutionReference.test_config 105 true
           ExecutionReference.start).
  - exact midpoint_rng_wf.
  - vm_compute. discriminate.
  - vm_compute. discriminate.
Defined.

(** X9: the Gaussian lot-size jitter is not bounded by the configured
    variance: for a positive variance and a non-zero base size,
    [randomize_lot_size] returns [base * (1 + z * variance / 300)] for
    the standard normal deviate [z] drawn, which lies within the
    variance percentage of the base exactly when [|z| <= 3]. *)
Theorem randomize_lot_size_within_variance_iff (config : Execution.Config)
  (base_size : Q) (r : Execution.Run) :
  0 < Execution.get (Execution.cfg_lot_variance_pct config) 3 ->
  ~ base_size == 0 ->
  let variance_pct := Execution.get (Execution.cfg_lot_variance_pct config) 3 in
  let z := Execution.normal_src (Execution.rng r)
             (Execution.normal_pos (Execution.rng r)) in
  exists size,
    fst (Execution.randomize_lot_size config base_size r) = Ok size
    /\ size == base_size * (1 + z * (variance_pct / 100 / 3))
    /\ (Qabs (size - base_size) <= Qabs base_size * (variance_pct / 100)
        <-> Qabs z <= 3).
Proof.
  intros Hv Hb variance_pct z. unfold Execution.randomize_lot_size, Execution.gauss.
  fold variance_pct. fold z. fold variance_pct in Hv. clearbody variance_pct z.
  rewrite (pydiv_ok _ _ Hb). cbn [bind fst]. eexists.
  split; [reflexivity|]. split; [reflexivity|].
  assert (Hd : 0 < variance_pct / 100)
    by (apply Qlt_shift_div_l; [reflexivity | lra]).
  set (d := variance_pct / 100) in *.
  assert (E : base_size * (1 + z * (d / 3)) - base_size
              == base_size * (z * (d / 3))) by ring.
  rewrite E, !Qabs_Qmult.
  assert (Hb' : 0 < Qabs base_size).
  { destruct (Qle_lt_or_eq _ _ (Qabs_nonneg base_size)) as [P|Z0]; [exact P|].
    exfalso. apply Hb. apply Qabs_zero_iff. symmetry. exact Z0. }
  rewrite (Qabs_pos (d / 3))
    by (apply Qlt_le_weak, Qlt_shift_div_l; [reflexivity | lra]).
  rewrite Qmult_le_l by exact Hb'.
  assert (F : Qabs z * (d / 3) == (d / 3) * Qabs z) by ring.
  assert (G : d == (d / 3) * 3) by field.
  rewrite F. rewrite G at 2.
  apply Qmult_le_l. apply Qlt_shift_div_l; [reflexivity | lra].
Qed.

Lemma randomize_lot_size_within_variance_iff_witness :
  exists size,
    fst (Execution.randomize_lot_size ExecutionReference.test_config 1
           ExecutionReference.start) = Ok size
    /\ Qabs (size - 1) <= Qabs 1 * (3 / 100).
Proof.
  destruct (randomize_lot_size_within_variance_iff ExecutionReference.test_config
              1 ExecutionReference.start) as (size & E & _ & I).
  - vm_compute. reflexivity.
  - vm_compute. discriminate.
  - exists size. split; [exact E|]. apply I. vm_compute. discriminate.
Defined.

(** ** Execution engine: partial closes and validation *)

(** X10: the three legs of a partial-close plan use up the position:
    their close sizes add up to the total position size to within one
    part in [10^9], their percentages to 100 to within [10^-9], and the
    runner keeps between 22.99 % and 34.01 % of the position; for a
    non-negative position no leg has a negative size.  Each leg carries
    the price it was given: the two targets, and the moving average for
    the runner. *)
Theorem partial_close_plan_adds_up (tp1_price tp2_price ema21 total : Q)
  (g : Execution.Rng) :
  Execution.rng_wf g ->
  let plan := fst (OrderExecutor.partial_close_logic tp1_price tp2_price ema21
                     total g) in
  Qabs (OrderExecutor.close_size (OrderExecutor.tp1 plan)
        + OrderExecutor.close_size (OrderExecutor.tp2 plan)
        + OrderExecutor.close_size (OrderExecutor.runner plan) - total)
  <= Qabs total * (1 # 1000000000)
  /\ Qabs (OrderExecutor.percentage (OrderExecutor.tp1 plan)
           + OrderExecutor.percentage (OrderExecutor.tp2 plan)
           + OrderExecutor.percentage (OrderExecutor.runner plan) - 100)
     <= 1 # 1000000000
  /\ 2299 # 100 <= OrderExecutor.percentage (OrderExecutor.runner plan)
  /\ OrderExecutor.percentage (OrderExecutor.runner plan) <= 3401 # 100
  /\ (0 <= total ->
      0 <= OrderExecutor.close_size (OrderExecutor.tp1 plan)
      /\ 0 <= OrderExecutor.close_size (OrderExecutor.tp2 plan)
      /\ 0 <= OrderExecutor.close_size (OrderExecutor.runner plan))
  /\ OrderExecutor.close_price (OrderExecutor.tp1 plan) = tp1_price
  /\ OrderExecutor.close_price (OrderExecutor.tp2 plan) = tp2_price
  /\ OrderExecutor.close_price (OrderExecutor.runner plan) = ema21.
Proof.
  intros Hg plan. subst plan.
  unfold OrderExecutor.partial_close_logic,
    Execution.randomize_partial_close_percentages.
  destruct (uniform_in_range (28 # 100) (35 # 100) g Hg) as (A1 & A2 & Hg1);
    [vm_compute; discriminate|].
  destruct (Execution.uniform (28 # 100) (35 # 100) g) as [t1 g1].
  destruct (uniform_in_range (38 # 100) (42 # 100) g1 Hg1) as (B1 & B2 & _);
    [vm_compute; discriminate|].
  destruct (Execution.uniform (38 # 100) (42 # 100) g1) as [t2 g2].
  cbn [fst snd OrderExecutor.tp1 OrderExecutor.tp2 OrderExecutor.runner
       OrderExecutor.close_size OrderExecutor.percentage
       OrderExecutor.close_price] in *.
  split.
  { setoid_replace (total * t1 + total * t2 + total * (1 - t1 - t2) - total)
      with 0 by ring.
    change (Qabs 0) with 0. apply Qmult_le_0_compat;
      [apply Qabs_nonneg | vm_compute; discriminate]. }
  split.
  { setoid_replace (t1 * 100 + t2 * 100 + (1 - t1 - t2) * 100 - 100)
      with 0 by ring.
    vm_compute. discriminate. }
  split; [lra|]. split; [lra|].
  split; [|repeat split; reflexivity].
  intro Ht. repeat split; apply Qmult_le_0_compat; lra.
Qed.

Lemma partial_close_plan_adds_up_witness :
  let plan := fst (OrderExecutor.partial_close_logic 105 110 104 35
                     ExecutionReference.midpoint_rng) in
  0 <= OrderExecutor.close_size (OrderExecutor.runner plan)
  /\ OrderExecutor.close_price (OrderExecutor.runner plan) = 104.
Proof.
  intro plan.
  destruct (partial_close_plan_adds_up 105 110 104 35
              ExecutionReference.midpoint_rng midpoint_rng_wf)
    as (_ & _ & _ & _ & N & _ & _ & P).
  split; [apply N; vm_compute; discriminate | exact P].
Defined.

(** X11: [order_validation] is the laxer of the two spread gates and
    has no guard of its own: for a bid of 0 it raises
    [ZeroDivisionError] where [spread_filter] returns [False]; and every
    quote [spread_filter] accepts under a ceiling passes the spread test
    of [order_validation] under the same ceiling, so that only slippage
    can still reject the order. *)
Theorem order_validation_after_spread_filter :
  (forall ask thr expected actual max_slip,
     OrderExecutor.order_validation 0 ask thr expected actual max_slip
     = Raise ZeroDivisionError)
  /\ (forall rm ask, Risk.spread_filter rm 0 ask = Ok false)
  /\ (forall rm bid ask expected actual max_slip,
        Risk.spread_filter rm bid ask = Ok true ->
        ~ expected == 0 ->
        OrderExecutor.order_validation bid ask (Risk.max_spread_points rm)
          expected actual max_slip
        = if Qlt_bool max_slip (Qabs (actual - expected) / expected * 100)
          then Ok (false,
                   OrderExecutor.SlippageAboveThreshold
                     (Qabs (actual - expected) / expected * 100) max_slip)
          else Ok (true, OrderExecutor.ValidationPassed)).
Proof.
  split; [|split].
  - intros. unfold OrderExecutor.order_validation.
    rewrite pydiv_zero by reflexivity. reflexivity.
  - intros. apply spread_filter_invalid_quote. left. apply Qle_refl.
  - intros rm bid ask expected actual max_slip H He.
    unfold Risk.spread_filter, Risk.spread_points in H.
    unfold OrderExecutor.order_validation.
    destruct (Qle_bool bid 0 || Qle_bool ask 0 || Qlt_bool ask bid);
      [discriminate H|].
    destruct (pydiv (ask - bid) bid) as [q|e]; [|discriminate H].
    cbn [bind] in *. injection H as H. apply Qlt_bool_iff in H.
    replace (Qlt_bool (Risk.max_spread_points rm) (q * 10000)) with false
      by (symmetry; apply Qlt_bool_false_iff; lra).
    rewrite (pydiv_ok _ _ He). reflexivity.
Qed.

Lemma order_validation_after_spread_filter_witness :
  OrderExecutor.order_validation 100 (100005 # 1000) 50 100 (10002 # 100) (5 # 100)
  = Ok (true, OrderExecutor.ValidationPassed).
Proof.
  etransitivity.
  - apply (proj2 (proj2 order_validation_after_spread_filter)
             Reference.test_manager 100 (100005 # 1000) 100 (10002 # 100) (5 # 100)).
    + vm_compute. reflexivity.
    + vm_compute. discriminate.
  - vm_compute. reflexivity.
Defined.

(** ** Execution engine: the retry loop beyond exhaustion *)

Lemma calls_of_call (ex : Execution.Exchange) (q : Execution.OrderRequest)
  (r : Execution.Run) :
  Execution.calls (snd (Execution.call_create_order ex q r)) = S (Execution.calls r)
  /\ fst (Execution.call_create_order ex q r)
     = Execution.create_order ex (Execution.calls r) q.
Proof. split; reflexivity. Qed.

Lemma retry_loop_succeeds (ex : Execution.Exchange) (req : Execution.OrderRequest)
  (m : Z) (init maxd mult : Q) (order : json) :
  forall (k remaining : nat) (a : Z) (r : Execution.Run),
    Submission.fails_before ex (Execution.calls r) k ->
    Submission.succeeds_at ex (Execution.calls r + k) order ->
    (k < remaining)%nat ->
    (a + Z.of_nat k <= m)%Z ->
    Execution.rng_wf (Execution.rng r) ->
    let out := Execution.retry_loop ex req m init maxd mult remaining a r in
    fst out = Ok (Some order)
    /\ Execution.attempts_of (snd out) = Execution.attempts_of r ++ repeat req (S k)
    /\ (exists ds,
          Execution.sleeps_of (snd out) = Execution.sleeps_of r ++ ds
          /\ Forall2
               (fun attempt d =>
                  Qabs (d - ExecutionReference.backoff init mult maxd attempt)
                  <= 1 # 10)
               (map (fun i => (a + Z.of_nat i)%Z) (seq 0 k)) ds).
Proof.
  induction k as [|k IH]; intros remaining a r Hf Hs Hr Ha Hg out; subst out;
    (destruct remaining as [|remaining]; [lia|]); cbn [Execution.retry_loop].
  - destruct (attempts_of_call ex req r) as (A & S0 & _).
    destruct (Execution.call_create_order ex req r) as [outcome r1] eqn:Ec.
    assert (Ho : outcome = Ok order).
    { unfold Execution.call_create_order in Ec. injection Ec as <- _.
      rewrite <- (Hs req). f_equal. lia. }
    subst outcome. cbn [fst snd] in *.
    split; [reflexivity|]. split; [exact A|].
    exists []. rewrite app_nil_r. split; [exact S0 | constructor].
  - destruct (attempts_of_call ex req r) as (A & S0 & R0).
    destruct (calls_of_call ex req r) as (C0 & _).
    destruct (Hf 0%nat req) as (e & He & Hexc); [lia|].
    rewrite Nat.add_0_r in He.
    destruct (Execution.call_create_order ex req r) as [outcome r1] eqn:Ec.
    assert (Ho : outcome = Raise e).
    { unfold Execution.call_create_order in Ec. injection Ec as <- _. exact He. }
    subst outcome. cbn [fst snd] in *. rewrite Hexc.
    replace (a <? m)%Z with true by (symmetry; apply Z.ltb_lt; lia).
    assert (Hg1 : Execution.rng_wf (Execution.rng r1)) by (rewrite R0; exact Hg).
    destruct (uniform_in_range (- (1 # 10)) (1 # 10) (Execution.rng r1) Hg1)
      as (J1 & J2 & Hg2); [vm_compute; discriminate|].
    destruct (Execution.uniform (- (1 # 10)) (1 # 10) (Execution.rng r1))
      as [jitter g2].
    cbn [fst snd] in J1, J2, Hg2.
    set (delay := Qmin (init * mult ^ (a - 1)) maxd + jitter).
    destruct (observe_sleep delay r1 g2) as (Sa & Ss & Sr).
    assert (Sc : Execution.calls (Execution.sleep delay (Execution.set_rng r1 g2))
                 = S (Execution.calls r)) by (rewrite <- C0; reflexivity).
    set (r2 := Execution.sleep delay (Execution.set_rng r1 g2)) in *.
    assert (Hf' : Submission.fails_before ex (Execution.calls r2) k).
    { intros i q Hi. rewrite Sc.
      destruct (Hf (S i) q) as (e' & E1 & E2); [lia|].
      exists e'. split; [|exact E2]. rewrite <- E1. f_equal. lia. }
    assert (Hs' : Submission.succeeds_at ex (Execution.calls r2 + k) order).
    { intro q. rewrite Sc, <- (Hs q). f_equal. lia. }
    assert (Hg' : Execution.rng_wf (Execution.rng r2)) by (rewrite Sr; exact Hg2).
    destruct (IH remaining (a + 1)%Z r2 Hf' Hs' ltac:(lia) ltac:(lia) Hg')
      as (R1 & R2 & (ds & R3 & R4)).
    split; [exact R1|]. split.
    + rewrite R2, Sa, A, <- app_assoc. reflexivity.
    + exists (delay :: ds). split.
      * rewrite R3, Ss, S0, <- app_assoc. reflexivity.
      * cbn [seq map]. constructor.
        -- rewrite Z.add_0_r. unfold ExecutionReference.backoff, delay.
           apply Qabs_Qle_condition. split; lra.
        -- rewrite <- seq_shift, map_map.
           erewrite map_ext; [exact R4|].
           intro i. simpl. lia.
Qed.

Lemma randomize_lot_size_calls (config : Execution.Config) (base_size : Q)
  (r : Execution.Run) :
  Execution.calls (snd (Execution.randomize_lot_size config base_size r))
  = Execution.calls r.
Proof. reflexivity. Qed.

Lemma randomize_tp_sl_calls (config : Execution.Config) (price : Q) (is_tp : bool)
  (r : Execution.Run) :
  Execution.calls (snd (Execution.randomize_tp_sl config price is_tp r))
  = Execution.calls r.
Proof.
  unfold Execution.randomize_tp_sl.
  destruct (Execution.uniform _ _ (Execution.rng r)). reflexivity.
Qed.

(** With a non-zero size and non-zero prices the preamble of
    [submit_order_with_retry] returns, sleeps the human-like delay once,
    and enters the loop with a request for the entry price. *)
Lemma submit_reaches_loop (ex : Execution.Exchange) (config : Execution.Config)
  (symbol direction : string)
  (position_size entry_price stop_loss tp1_price tp2_price : Q)
  (r : Execution.Run) :
  ~ position_size == 0 -> ~ tp1_price == 0 -> ~ tp2_price == 0 ->
  ~ stop_loss == 0 ->
  Execution.rng_wf (Execution.rng r) ->
  exists req r4 human,
    Execution.submit_order_with_retry ex config symbol direction
      position_size entry_price stop_loss tp1_price tp2_price r
    = Execution.retry_loop ex req
        (Execution.get (Execution.cfg_max_retries config) 3%Z)
        (Execution.get (Execution.cfg_retry_initial_delay config) (5 # 10))
        (Execution.get (Execution.cfg_retry_max_delay config) 5)
        (Execution.get (Execution.cfg_retry_backoff_multiplier config) 2)
        (Z.to_nat (Execution.get (Execution.cfg_max_retries config) 3%Z)) 1%Z r4
    /\ Execution.attempts_of r4 = Execution.attempts_of r
    /\ Execution.sleeps_of r4 = Execution.sleeps_of r ++ [human]
    /\ Execution.calls r4 = Execution.calls r
    /\ Execution.rng_wf (Execution.rng r4)
    /\ Execution.req_symbol req = symbol
    /\ Execution.req_side req = Execution.lower direction
    /\ Execution.req_price req = entry_price.
Proof.
  intros Hp H1 H2 Hs Hg. unfold Execution.submit_order_with_retry.
  pose proof (randomize_lot_size_calls config position_size r) as C0.
  destruct (randomize_lot_size_ok config position_size r Hp)
    as (v0 & r0 & E0 & T0 & G0). rewrite E0 in *. cbn [snd] in C0.
  pose proof (randomize_tp_sl_calls config tp1_price true r0) as C1.
  destruct (randomize_tp_sl_ok config tp1_price true r0 H1)
    as (v1 & r1 & E1 & T1 & G1). rewrite E1 in *. cbn [snd] in C1.
  pose proof (randomize_tp_sl_calls config tp2_price true r1) as C2.
  destruct (randomize_tp_sl_ok config tp2_price true r1 H2)
    as (v2 & r2 & E2 & T2 & G2). rewrite E2 in *. cbn [snd] in C2.
  pose proof (randomize_tp_sl_calls config stop_loss false r2) as C3.
  destruct (randomize_tp_sl_ok config stop_loss false r2 Hs)
    as (v3 & r3 & E3 & T3 & G3). rewrite E3 in *. cbn [snd] in C3.
  unfold Execution.add_human_like_delay.
  destruct (Execution.uniform _ _ (Execution.rng r3)) as [human g4] eqn:Eu.
  assert (G4 : Execution.random_src g4 = Execution.random_src (Execution.rng r3)).
  { unfold Execution.uniform, Execution.random in Eu. injection Eu as _ <-.
    reflexivity. }
  destruct (observe_sleep human r3 g4) as (Sa & Ss & Sr).
  eexists. exists (Execution.sleep human (Execution.set_rng r3 g4)), human.
  split; [reflexivity|].
  split; [rewrite Sa; apply attempts_of_trace; congruence|].
  split; [rewrite Ss; f_equal; apply sleeps_of_trace; congruence|].
  split; [cbn [Execution.sleep Execution.set_rng Execution.calls]; congruence|].
  split; [|repeat split; reflexivity].
  rewrite Sr. apply (rng_wf_same_source (Execution.rng r)); [congruence | exact Hg].
Qed.

(** X12: when the exchange raises [Exception]s on the first [k] calls
    and accepts the next one, with [k] below [max_retries], a submission
    with non-zero size and prices makes exactly [k + 1] attempts, all
    with the same request, backs off after each failure by
    [min(initial * multiplier^(attempt-1), max)] plus a jitter of at most
    0.1, and returns the accepted order. *)
Theorem submit_order_succeeds_on_retry (ex : Execution.Exchange)
  (config : Execution.Config) (symbol direction : string)
  (position_size entry_price stop_loss tp1_price tp2_price : Q)
  (r : Execution.Run) (k : nat) (order : json) :
  ~ position_size == 0 -> ~ tp1_price == 0 -> ~ tp2_price == 0 ->
  ~ stop_loss == 0 ->
  Execution.rng_wf (Execution.rng r) ->
  (Z.of_nat k < Execution.get (Execution.cfg_max_retries config) 3%Z)%Z ->
  Submission.fails_before ex (Execution.calls r) k ->
  Submission.succeeds_at ex (Execution.calls r + k) order ->
  let out := Execution.submit_order_with_retry ex config symbol direction
               position_size entry_price stop_loss tp1_price tp2_price r in
  fst out = Ok (Some order)
  /\ (exists req,
        Execution.attempts_of (snd out)
        = Execution.attempts_of r ++ repeat req (S k)
        /\ Execution.req_price req = entry_price
        /\ Execution.req_side req = Execution.lower direction)
  /\ (exists human ds,
        Execution.sleeps_of (snd out) = Execution.sleeps_of r ++ human :: ds
        /\ Forall2
             (fun attempt d =>
                Qabs (d - ExecutionReference.backoff
                            (Execution.get (Execution.cfg_retry_initial_delay config) (5 # 10))
                            (Execution.get (Execution.cfg_retry_backoff_multiplier config) 2)
                            (Execution.get (Execution.cfg_retry_max_delay config) 5)
                            attempt)
                <= 1 # 10)
             (map (fun i => (1 + Z.of_nat i)%Z) (seq 0 k)) ds).
Proof.
  intros Hp H1 H2 Hs Hg Hk Hf Hok out. subst out.
  destruct (submit_reaches_loop ex config symbol direction position_size
              entry_price stop_loss tp1_price tp2_price r Hp H1 H2 Hs Hg)
    as (req & r4 & human & -> & A4 & S4 & C4 & G4 & _ & Q2 & Q3).
  rewrite <- C4 in Hf, Hok.
  set (m := Execution.get (Execution.cfg_max_retries config) 3%Z) in *.
  assert (K1 : (k < Z.to_nat m)%nat) by lia.
  assert (K2 : (1 + Z.of_nat k <= m)%Z) by lia.
  destruct (retry_loop_succeeds ex req m
              (Execution.get (Execution.cfg_retry_initial_delay config) (5 # 10))
              (Execution.get (Execution.cfg_retry_max_delay config) 5)
              (Execution.get (Execution.cfg_retry_backoff_multiplier config) 2)
              order k (Z.to_nat m) 1%Z r4 Hf Hok K1 K2 G4)
    as (R1 & R2 & (ds & R3 & R4)).
  split; [exact R1|]. split.
  - exists req. rewrite R2, A4. auto.
  - exists human, ds. rewrite R3, S4, <- app_assoc. split; [reflexivity | exact R4].
Qed.

Lemma third_time_lucky_fails_twice :
  Submission.fails_before Submission.third_time_lucky 0 2
  /\ Submission.succeeds_at Submission.third_time_lucky 2
       (JDict [("id"%string, JStr "12345")]).
Proof.
  split.
  - intros i req Hi. exists (ExchangeError "Connection failed").
    destruct i as [|[|i]]; [split; reflexivity | split; reflexivity | lia].
  - intro req. reflexivity.
Qed.

Lemma submit_order_succeeds_on_retry_witness :
  let out := Execution.submit_order_with_retry Submission.third_time_lucky
               ExecutionReference.test_config "BTC/USDT" "BUY"
               (1 # 10) 100 95 105 110 ExecutionReference.start in
  fst out = Ok (Some (JDict [("id"%string, JStr "12345")]))
  /\ length (Execution.attempts_of (snd out)) = 3%nat.
Proof.
  intro out.
  destruct (submit_order_succeeds_on_retry Submission.third_time_lucky
              ExecutionReference.test_config "BTC/USDT" "BUY"
              (1 # 10) 100 95 105 110 ExecutionReference.start 2
              (JDict [("id"%string, JStr "12345")]))
    as (R & (req & A & _) & _);
    try (vm_compute; discriminate); try exact midpoint_rng_wf;
    try apply third_time_lucky_fails_twice.
  - reflexivity.
  - fold out in R, A. split; [exact R|]. rewrite A. reflexivity.
Defined.

(** X13: an interruption that is not an [Exception] (a cancellation, a
    keyboard interrupt) is neither retried nor turned into [None]: when
    the first exchange call of a submission with non-zero size and
    prices is interrupted, [submit_order_with_retry] raises the
    interruption to its caller after that single attempt, without
    backing off. *)
Theorem submit_order_interruption_propagates (ex : Execution.Exchange)
  (config : Execution.Config) (symbol direction : string)
  (position_size entry_price stop_loss tp1_price tp2_price : Q)
  (r : Execution.Run) (e : exn) :
  ~ position_size == 0 -> ~ tp1_price == 0 -> ~ tp2_price == 0 ->
  ~ stop_loss == 0 ->
  Execution.rng_wf (Execution.rng r) ->
  (0 < Execution.get (Execution.cfg_max_retries config) 3%Z)%Z ->
  Submission.interrupted_at ex (Execution.calls r) e ->
  let out := Execution.submit_order_with_retry ex config symbol direction
               position_size entry_price stop_loss tp1_price tp2_price r in
  fst out = Raise e
  /\ length (Execution.attempts_of (snd out))
     = S (length (Execution.attempts_of r))
  /\ length (Execution.sleeps_of (snd out))
     = S (length (Execution.sleeps_of r)).
Proof.
  intros Hp H1 H2 Hs Hg Hm [Hne Hi] out. subst out.
  destruct (submit_reaches_loop ex config symbol direction position_size
              entry_price stop_loss tp1_price tp2_price r Hp H1 H2 Hs Hg)
    as (req & r4 & human & -> & A4 & S4 & C4 & _).
  destruct (Z.to_nat (Execution.get (Execution.cfg_max_retries config) 3%Z))
    as [|n] eqn:En; [lia|].
  cbn [Execution.retry_loop].
  destruct (attempts_of_call ex req r4) as (A & S0 & _).
  destruct (Execution.call_create_order ex req r4) as [outcome r5] eqn:Ec.
  assert (Ho : outcome = Raise e).
  { unfold Execution.call_create_order in Ec. injection Ec as <- _.
    rewrite C4. apply Hi. }
  subst outcome. rewrite Hne. cbn [fst snd] in *.
  split; [reflexivity|].
  rewrite A, S0, A4, S4, !length_app. cbn [length]. split; lia.
Qed.

Lemma submit_order_interruption_propagates_witness :
  fst (Execution.submit_order_with_retry Submission.cancelled_exchange
         ExecutionReference.test_config "BTC/USDT" "BUY"
         (1 # 10) 100 95 105 110 ExecutionReference.start)
  = Raise CancelledError.
Proof.
  apply (submit_order_interruption_propagates Submission.cancelled_exchange
           ExecutionReference.test_config "BTC/USDT" "BUY"
           (1 # 10) 100 95 105 110 ExecutionReference.start CancelledError);
    try (vm_compute; discriminate); try exact midpoint_rng_wf.
  - reflexivity.
  - split; [reflexivity | intro req; reflexivity].
Defined.

(** X14: with [max_retries] configured as 0 or less, a submission with
    non-zero size and prices still sleeps the human-like delay but never
    calls the exchange, and returns [None] even if the exchange would
    have accepted the order. *)
Theorem submit_order_without_retries (ex : Execution.Exchange)
  (config : Execution.Config) (symbol direction : string)
  (position_size entry_price stop_loss tp1_price tp2_price : Q)
  (r : Execution.Run) :
  ~ position_size == 0 -> ~ tp1_price == 0 -> ~ tp2_price == 0 ->
  ~ stop_loss == 0 ->
  Execution.rng_wf (Execution.rng r) ->
  (Execution.get (Execution.cfg_max_retries config) 3%Z <= 0)%Z ->
  let out := Execution.submit_order_with_retry ex config symbol direction
               position_size entry_price stop_loss tp1_price tp2_price r in
  fst out = Ok None
  /\ Execution.attempts_of (snd out) = Execution.attempts_of r
  /\ Execution.calls (snd out) = Execution.calls r
  /\ length (Execution.sleeps_of (snd out))
     = S (length (Execution.sleeps_of r)).
Proof.
  intros Hp H1 H2 Hs Hg Hm out. subst out.
  destruct (submit_reaches_loop ex config symbol direction position_size
              entry_price stop_loss tp1_price tp2_price r Hp H1 H2 Hs Hg)
    as (req & r4 & human & -> & A4 & S4 & C4 & _).
  replace (Z.to_nat (Execution.get (Execution.cfg_max_retries config) 3%Z))
    with 0%nat by lia.
  cbn [Execution.retry_loop fst snd].
  split; [reflexivity|]. split; [exact A4|]. split; [exact C4|].
  rewrite S4, length_app. cbn [length]. lia.
Qed.

Lemma submit_order_without_retries_witness :
  let config :=
    {| Execution.cfg_lot_variance_pct := None;
       Execution.cfg_tp_sl_variance_pct := None;
       Execution.cfg_min_human_delay := None;
       Execution.cfg_max_human_delay := None;
       Execution.cfg_max_retries := Some 0%Z;
       Execution.cfg_retry_initial_delay := None;
       Execution.cfg_retry_max_delay := None;
       Execution.cfg_retry_backoff_multiplier := None |} in
  let out := Execution.submit_order_with_retry Submission.accepting_exchange
               config "BTC/USDT" "BUY" (1 # 10) 100 95 105 110
               ExecutionReference.start in
  fst out = Ok None /\ Execution.attempts_of (snd out) = [].
Proof.
  intros config out.
  destruct (submit_order_without_retries Submission.accepting_exchange
              config "BTC/USDT" "BUY" (1 # 10) 100 95 105 110
              ExecutionReference.start) as (R & A & _);
    try (vm_compute; discriminate); try exact midpoint_rng_wf.
  split; [exact R | exact A].
Defined.

(** ** Durable state: saving *)

Lemma write_then_rename_outcome (t : StateManager.target) (doc : json)
  (s : StateManager.Store) :
  let out := StateManager.write_then_rename t doc s in
  (StateManager.faults s (StateManager.writes s) = StateManager.NoFault ->
   fst out = Ok tt
   /\ StateManager.target_file (snd out) t = Valid doc
   /\ StateManager.temp_file (snd out) t = Missing)
  /\ (StateManager.faults s (StateManager.writes s) <> StateManager.NoFault ->
      fst out = Raise OSError
      /\ StateManager.target_file (snd out) t = StateManager.target_file s t)
  /\ StateManager.faults (snd out) = StateManager.faults s
  /\ (forall t', t' <> t ->
        StateManager.target_file (snd out) t' = StateManager.target_file s t'
        /\ StateManager.temp_file (snd out) t' = StateManager.temp_file s t').
Proof.
  unfold StateManager.write_then_rename.
  destruct (StateManager.faults s (StateManager.writes s)) eqn:F;
    destruct t; cbn; (split; [intro H; try discriminate H; auto|]);
    (split; [intro H; try (exfalso; apply H; reflexivity); auto|]);
    (split; [reflexivity|]);
    intros [] N; try (exfalso; apply N; reflexivity); auto.
Qed.

(** X15: [save_open_positions] replaces [open_positions.json] atomically.
    When the write goes through, no [.tmp] file is left and
    [load_open_positions] returns exactly the list saved (replacing
    whatever was there); when opening, writing or renaming fails, the
    call raises [OSError] and [open_positions.json] is untouched, so a
    reader still gets the previous positions.  [trade_history.json] is
    never affected. *)
Theorem save_open_positions_atomic (positions : list json)
  (s : StateManager.Store) :
  let out := StateManager.save_open_positions positions s in
  (StateManager.faults s (StateManager.writes s) = StateManager.NoFault ->
   fst out = Ok tt
   /\ Execution.load_open_positions (StateManager.disk (snd out))
      = Ok (JList positions)
   /\ StateManager.open_positions_tmp (snd out) = Missing)
  /\ (StateManager.faults s (StateManager.writes s) <> StateManager.NoFault ->
      fst out = Raise OSError
      /\ Execution.load_open_positions (StateManager.disk (snd out))
         = Execution.load_open_positions (StateManager.disk s))
  /\ Execution.trade_history_file (StateManager.disk (snd out))
     = Execution.trade_history_file (StateManager.disk s).
Proof.
  intro out. subst out. unfold StateManager.save_open_positions.
  pose proof (write_then_rename_outcome StateManager.OpenPositions
                (JList positions) s) as H. cbv zeta in H.
  destruct H as (Hok & Hbad & _ & Hother).
  split; [|split].
  - intro F. destruct (Hok F) as (R & T & M). split; [exact R|].
    split; [|exact M]. unfold Execution.load_open_positions.
    cbn [StateManager.target_file] in T. rewrite T. reflexivity.
  - intro F. destruct (Hbad F) as (R & T). split; [exact R|].
    unfold Execution.load_open_positions.
    cbn [StateManager.target_file] in T. rewrite T. reflexivity.
  - destruct (Hother StateManager.TradeHistory) as [T _]; [discriminate|].
    exact T.
Qed.

Lemma save_open_positions_atomic_witness :
  let s := {| StateManager.disk :=
                {| Execution.trade_history_file := Missing;
                   Execution.open_positions_file := Valid (JList [JInt 1]) |};
              StateManager.trade_history_tmp := Missing;
              StateManager.open_positions_tmp := Missing;
              StateManager.faults := fun _ => StateManager.RenameFails;
              StateManager.writes := 0 |} in
  fst (StateManager.save_open_positions [JInt 2] s) = Raise OSError
  /\ Execution.load_open_positions
       (StateManager.disk (snd (StateManager.save_open_positions [JInt 2] s)))
     = Ok (JList [JInt 1]).
Proof.
  intro s.
  destruct (save_open_positions_atomic [JInt 2] s) as (_ & B & _).
  destruct B as [R L]; [discriminate|]. split; [exact R|]. rewrite L. reflexivity.
Defined.

Lemma save_trade_history_on_list (trade : json) (trades : list json)
  (s : StateManager.Store) :
  StateManager.healthy s ->
  Execution.trade_history_file (StateManager.disk s) = Valid (JList trades) ->
  exists s',
    StateManager.save_trade_history trade s = (Ok tt, s')
    /\ StateManager.healthy s'
    /\ Execution.trade_history_file (StateManager.disk s')
       = Valid (JList (trades ++ [trade]))
    /\ StateManager.trade_history_tmp s' = Missing
    /\ Execution.open_positions_file (StateManager.disk s')
       = Execution.open_positions_file (StateManager.disk s).
Proof.
  intros H F. unfold StateManager.save_trade_history, Execution.load_trade_history.
  rewrite F. cbn [exists_ negb read_json try_except].
  unfold StateManager.write_then_rename. rewrite (H (StateManager.writes s)).
  eexists. split; [reflexivity|]. cbn. repeat split; auto.
Qed.

(** X16: on a store where writes go through, saving trades one after
    another onto a [trade_history.json] that holds a list appends them
    in order: all saves return, [load_trade_history] then returns the
    old list followed by the saved trades, unchanged, no [.tmp] file is
    left behind (when at least one trade was saved), and
    [open_positions.json] is not touched. *)
Theorem save_trades_appends (trades : list json) :
  forall (old : list json) (s : StateManager.Store),
    StateManager.healthy s ->
    Execution.trade_history_file (StateManager.disk s) = Valid (JList old) ->
    let out := StateManager.save_trades trades s in
    fst out = Ok tt
    /\ Execution.load_trade_history (StateManager.disk (snd out))
       = Ok (JList (old ++ trades))
    /\ (trades <> [] -> StateManager.trade_history_tmp (snd out) = Missing)
    /\ Execution.open_positions_file (StateManager.disk (snd out))
       = Execution.open_positions_file (StateManager.disk s)
    /\ StateManager.healthy (snd out).
Proof.
  induction trades as [|t ts IH]; intros old s H F out; subst out.
  - cbn [StateManager.save_trades fst snd]. rewrite app_nil_r.
    split; [reflexivity|]. split.
    + unfold Execution.load_trade_history. rewrite F. reflexivity.
    + split; [intro N; contradiction|]. split; [reflexivity | exact H].
  - cbn [StateManager.save_trades].
    destruct (save_trade_history_on_list t old s H F)
      as (s' & -> & H' & F' & T' & P').
    destruct (IH (old ++ [t]) s' H' F') as (R & L & T & P & Hh).
    split; [exact R|]. split; [rewrite L, <- app_assoc; reflexivity|].
    split; [|split; [congruence | exact Hh]].
    intros _. destruct ts as [|t2 ts']; [exact T' | apply T; discriminate].
Qed.

Lemma save_trades_appends_witness :
  let s := {| StateManager.disk :=
                {| Execution.trade_history_file := Valid (JList [JInt 1]);
                   Execution.open_positions_file := Missing |};
              StateManager.trade_history_tmp := Missing;
              StateManager.open_positions_tmp := Missing;
              StateManager.faults := fun _ => StateManager.NoFault;
              StateManager.writes := 0 |} in
  Execution.load_trade_history
    (StateManager.disk (snd (StateManager.save_trades [JInt 2; JInt 3] s)))
  = Ok (JList [JInt 1; JInt 2; JInt 3]).
Proof.
  intro s.
  destruct (save_trades_appends [JInt 2; JInt 3] [JInt 1] s) as (_ & L & _).
  - intro n. reflexivity.
  - reflexivity.
  - exact L.
Defined.

(** X17: what [save_trade_history] does to a history it cannot extend.
    Over a file that is missing, unreadable, empty or unparseable it
    starts a new history holding only the trade saved, so the previous
    content is gone; over a file that parses to anything but a list it
    raises [AttributeError] and leaves the store as it was. *)
Theorem save_trade_history_edge_cases (trade : json) (s : StateManager.Store) :
  StateManager.faults s (StateManager.writes s) = StateManager.NoFault ->
  (Durable.unusable (Execution.trade_history_file (StateManager.disk s)) ->
   fst (StateManager.save_trade_history trade s) = Ok tt
   /\ Execution.load_trade_history
        (StateManager.disk (snd (StateManager.save_trade_history trade s)))
      = Ok (JList [trade]))
  /\ (forall doc,
        Execution.trade_history_file (StateManager.disk s) = Valid doc ->
        (forall trades, doc <> JList trades) ->
        StateManager.save_trade_history trade s = (Raise AttributeError, s)).
Proof.
  intro F. split.
  - intro U. unfold StateManager.save_trade_history.
    assert (L : Execution.load_trade_history (StateManager.disk s) = Ok (JList [])).
    { unfold Execution.load_trade_history.
      destruct (Execution.trade_history_file (StateManager.disk s));
        try reflexivity; contradiction. }
    rewrite L.
    pose proof (write_then_rename_outcome StateManager.TradeHistory
                  (JList ([] ++ [trade])) s) as H. cbv zeta in H.
    destruct H as (Hok & _). destruct (Hok F) as (R & T & _).
    split; [exact R|]. unfold Execution.load_trade_history.
    cbn [StateManager.target_file] in T. rewrite T. reflexivity.
  - intros doc V N. unfold StateManager.save_trade_history,
      Execution.load_trade_history. rewrite V.
    cbn [exists_ negb read_json try_except].
    destruct doc; try reflexivity. exfalso. apply (N items). reflexivity.
Qed.

Lemma save_trade_history_edge_cases_witness :
  let s := {| StateManager.disk :=
                {| Execution.trade_history_file := Corrupt "[{";
                   Execution.open_positions_file := Missing |};
              StateManager.trade_history_tmp := Missing;
              StateManager.open_positions_tmp := Missing;
              StateManager.faults := fun _ => StateManager.NoFault;
              StateManager.writes := 0 |} in
  Execution.load_trade_history
    (StateManager.disk (snd (StateManager.save_trade_history (JInt 7) s)))
  = Ok (JList [JInt 7]).
Proof.
  intro s.
  destruct (save_trade_history_edge_cases (JInt 7) s eq_refl) as [A _].
  apply A. exact I.
Defined.

(** ** First-run probe *)

(** X18: when [check_first_run_status] lets the probe be skipped.  It
    answers "not a first run" only if the marker file exists, the trade
    history parses to something non-empty whose last element is a
    dictionary, and the time stamp read from it lies less than 30 days
    back.  The stamp is [close_time] when that key is present, even when
    it is [null]: a last trade with a [null] close time is never answered
    as "not a first run", and is answered as a first run (whatever its
    [entry_time]) wherever the marker's path can be examined.  A last
    trade with neither key counts as made now, and is answered as
    recent. *)
Theorem first_run_probe_decision (now_iso : string)
  (days_since : string -> result Z) :
  (forall f st,
     FirstRunSafetyTrade.check_first_run_status now_iso days_since f
     = Ok (false, st) ->
     exists_ (FirstRunSafetyTrade.marker_file f) = Ok true
     /\ exists doc d s days,
          FirstRunSafetyTrade.trade_history_file f = Valid doc
          /\ FirstRunSafetyTrade.truthy doc = true
          /\ FirstRunSafetyTrade.last_item doc = Ok (JDict d)
          /\ (assoc_get "close_time" d = Some (JStr s)
              \/ assoc_get "close_time" d = None
                 /\ assoc_get "entry_time" d = Some (JStr s)
              \/ assoc_get "close_time" d = None
                 /\ assoc_get "entry_time" d = None /\ s = now_iso)
          /\ days_since s = Ok days /\ (days < 30)%Z)
  /\ (forall f trades d,
        FirstRunSafetyTrade.trade_history_file f = Valid (JList trades) ->
        nth_from_end 1 trades = Some (JDict d) ->
        assoc_get "close_time" d = Some JNull ->
        (forall b st,
           FirstRunSafetyTrade.check_first_run_status now_iso days_since f
           = Ok (b, st) -> b = true)
        /\ (Durable.examinable (FirstRunSafetyTrade.marker_file f) ->
            exists st,
              FirstRunSafetyTrade.check_first_run_status now_iso days_since f
              = Ok (true, st)))
  /\ (forall f trades d,
        days_since now_iso = Ok 0%Z ->
        exists_ (FirstRunSafetyTrade.marker_file f) = Ok true ->
        FirstRunSafetyTrade.trade_history_file f = Valid (JList trades) ->
        nth_from_end 1 trades = Some (JDict d) ->
        assoc_get "close_time" d = None ->
        assoc_get "entry_time" d = None ->
        FirstRunSafetyTrade.check_first_run_status now_iso days_since f
        = Ok (false, FirstRunSafetyTrade.HistoryRecent)).
Proof.
  split; [|split].
  - intros f st H. unfold FirstRunSafetyTrade.check_first_run_status in H.
    destruct (exists_ (FirstRunSafetyTrade.marker_file f)) as [[|]|x];
      cbn [bind negb] in H; try discriminate H.
    split; [reflexivity|].
    destruct (exists_ (FirstRunSafetyTrade.trade_history_file f)) as [[|]|x];
      cbn [bind negb] in H; try discriminate H.
    unfold try_except, bare_except in H.
    destruct (FirstRunSafetyTrade.check_history now_iso days_since f)
      as [[b st']|e] eqn:C; [|discriminate H].
    injection H as -> ->. unfold FirstRunSafetyTrade.check_history in C.
    destruct (FirstRunSafetyTrade.trade_history_file f) as [| | | | raw | doc];
      try discriminate C.
    cbn [read_json bind] in C.
    destruct (FirstRunSafetyTrade.truthy doc) eqn:T; [|discriminate C].
    cbn [negb] in C.
    destruct (FirstRunSafetyTrade.last_item doc) as [last|e] eqn:LI;
      [|discriminate C].
    cbn [bind] in C.
    destruct last as [| | | | | |d]; try discriminate C.
    exists doc, d. cbn [Json.get bind] in C.
    destruct (assoc_get "entry_time" d) as [entry|] eqn:E;
      destruct (assoc_get "close_time" d) as [stamp|] eqn:K; cbn [bind] in C.
    + destruct stamp as [| | | |s| |]; try discriminate C.
      destruct (days_since s) as [days|e] eqn:D; [|discriminate C].
      cbn [bind] in C. destruct (30 <=? days)%Z eqn:L; [discriminate C|].
      exists s, days. apply Z.leb_gt in L. repeat split; auto.
    + destruct entry as [| | | |s| |]; try discriminate C.
      destruct (days_since s) as [days|e] eqn:D; [|discriminate C].
      cbn [bind] in C. destruct (30 <=? days)%Z eqn:L; [discriminate C|].
      exists s, days. apply Z.leb_gt in L. repeat split; auto.
    + destruct stamp as [| | | |s| |]; try discriminate C.
      destruct (days_since s) as [days|e] eqn:D; [|discriminate C].
      cbn [bind] in C. destruct (30 <=? days)%Z eqn:L; [discriminate C|].
      exists s, days. apply Z.leb_gt in L. repeat split; auto.
    + destruct (days_since now_iso) as [days|e] eqn:D; [|discriminate C].
      cbn [bind] in C. destruct (30 <=? days)%Z eqn:L; [discriminate C|].
      exists now_iso, days. apply Z.leb_gt in L. repeat split; auto.
  - intros f trades d F L K.
    assert (R : forall m,
              exists_ (FirstRunSafetyTrade.marker_file f) = Ok m ->
              exists st,
                FirstRunSafetyTrade.check_first_run_status now_iso days_since f
                = Ok (true, st)).
    { intros m M. unfold FirstRunSafetyTrade.check_first_run_status.
      rewrite M. cbn [bind]. destruct m; cbn [negb]; [|eexists; reflexivity].
      rewrite F. cbn [exists_ bind negb].
      unfold FirstRunSafetyTrade.check_history. rewrite F. cbn [read_json bind].
      destruct (FirstRunSafetyTrade.truthy (JList trades));
        cbn [negb try_except]; [|eexists; reflexivity].
      cbn [FirstRunSafetyTrade.last_item]. rewrite L. cbn [bind Json.get].
      rewrite K. destruct (assoc_get "entry_time" d);
        cbn [bind try_except bare_except]; eexists; reflexivity. }
    split.
    + intros b st H.
      destruct (exists_ (FirstRunSafetyTrade.marker_file f)) as [m|x] eqn:M.
      * destruct (R m eq_refl) as [st' E]. rewrite E in H.
        inversion H. reflexivity.
      * unfold FirstRunSafetyTrade.check_first_run_status in H.
        rewrite M in H. discriminate H.
    + intro X. unfold Durable.examinable in X.
      destruct (FirstRunSafetyTrade.marker_file f) eqn:M;
        try contradiction; eapply R; reflexivity.
  - intros f trades d D M F L K E.
    unfold FirstRunSafetyTrade.check_first_run_status. rewrite M, F.
    cbn [exists_ bind negb]. unfold FirstRunSafetyTrade.check_history.
    rewrite F. cbn [read_json bind].
    assert (T : FirstRunSafetyTrade.truthy (JList trades) = true).
    { destruct trades; [discriminate L | reflexivity]. }
    rewrite T. cbn [negb FirstRunSafetyTrade.last_item]. rewrite L.
    cbn [bind Json.get]. rewrite K, E. cbn [bind]. rewrite D. reflexivity.
Qed.

Lemma first_run_probe_decision_witness :
  let open_trade :=
    [("entry_time"%string, JStr "2024-01-01T10:00:00"); ("close_time"%string, JNull)] in
  let bare_trade := [("symbol"%string, JStr "BTC/USDT")] in
  let files trade :=
    {| FirstRunSafetyTrade.marker_file := Empty;
       FirstRunSafetyTrade.trade_history_file := Valid (JList [JDict trade]) |} in
  (exists st,
     FirstRunSafetyTrade.check_first_run_status "2024-01-01T12:00:00"
       (fun _ => Ok 0%Z) (files open_trade) = Ok (true, st))
  /\ FirstRunSafetyTrade.check_first_run_status "2024-01-01T12:00:00"
       (fun _ => Ok 0%Z) (files bare_trade)
     = Ok (false, FirstRunSafetyTrade.HistoryRecent).
Proof.
  intros open_trade bare_trade files.
  destruct (first_run_probe_decision "2024-01-01T12:00:00" (fun _ => Ok 0%Z))
    as (_ & Null & Bare).
  split.
  - apply (Null (files open_trade) [JDict open_trade] open_trade); reflexivity.
  - apply (Bare (files bare_trade) [JDict bare_trade] bare_trade); reflexivity.
Defined.

(** X19: the safety trade's brackets.  For a positive price
    [safety_parameters] returns a size of
    [max(balance * 0.0002 / (price * 0.01), 0.001)]; for direction
    ["BUY"] the stop-loss lies below the price and the two targets above
    it in order, and for every other direction string (["SELL"], but
    also ["LONG"]) the stop-loss lies above and the targets below.  Size
    and prices are all non-zero, so the submission that follows gets
    past its randomization preamble and into the retry loop. *)
Theorem safety_trade_brackets (ex : Execution.Exchange)
  (config : Execution.Config) (symbol direction : string)
  (price balance : Q) (r : Execution.Run) :
  0 < price ->
  Execution.rng_wf (Execution.rng r) ->
  exists size sl tp1 tp2,
    FirstRunSafetyTrade.safety_parameters direction price balance
    = Ok (size, sl, tp1, tp2)
    /\ size == Qmax (balance * ((2 # 100) / 100) / (price * (1 # 100))) (1 # 1000)
    /\ 1 # 1000 <= size
    /\ (direction = "BUY"%string -> sl < price /\ price < tp1 /\ tp1 < tp2)
    /\ (direction <> "BUY"%string -> tp2 < tp1 /\ tp1 < price /\ price < sl)
    /\ 0 < sl /\ 0 < tp1 /\ 0 < tp2
    /\ exists req r',
         FirstRunSafetyTrade.execute_safety_trade ex config symbol direction
           price balance r
         = Execution.retry_loop ex req
             (Execution.get (Execution.cfg_max_retries config) 3%Z)
             (Execution.get (Execution.cfg_retry_initial_delay config) (5 # 10))
             (Execution.get (Execution.cfg_retry_max_delay config) 5)
             (Execution.get (Execution.cfg_retry_backoff_multiplier config) 2)
             (Z.to_nat (Execution.get (Execution.cfg_max_retries config) 3%Z))
             1%Z r'
         /\ Execution.req_price req = price
         /\ Execution.attempts_of r' = Execution.attempts_of r.
Proof.
  intros Hp Hg.
  unfold FirstRunSafetyTrade.execute_safety_trade,
    FirstRunSafetyTrade.safety_parameters.
  assert (Hd : 0 < price * (1 # 100)) by lra.
  replace (Qlt_bool 0 (price * (1 # 100))) with true
    by (symmetry; apply Qlt_bool_iff; exact Hd).
  rewrite pydiv_ok by (intro Z0; rewrite Z0 in Hd; exact (Qlt_irrefl 0 Hd)).
  cbn [bind].
  set (size := Qmax _ (1 # 1000)).
  assert (Hs : 1 # 1000 <= size) by apply Q.le_max_r.
  destruct (String.eqb direction "BUY") eqn:B.
  - apply String.eqb_eq in B.
    destruct (submit_reaches_loop ex config symbol direction size price
                (price - price * (1 # 100))
                (price + price * (1 # 100) * (15 # 10))
                (price + price * (1 # 100) * (25 # 10)) r)
      as (req & r4 & human & E & A4 & _ & _ & _ & _ & _ & Q3);
      try (intro Z0; lra); try exact Hg.
    eexists. eexists. eexists. eexists. split; [reflexivity|].
    split; [reflexivity|]. split; [exact Hs|].
    split; [intros _; repeat split; lra|].
    split; [intro N; contradiction|].
    split; [lra|]. split; [lra|]. split; [lra|].
    exists req, r4. rewrite E. auto.
  - apply String.eqb_neq in B.
    destruct (submit_reaches_loop ex config symbol direction size price
                (price + price * (1 # 100))
                (price - price * (1 # 100) * (15 # 10))
                (price - price * (1 # 100) * (25 # 10)) r)
      as (req & r4 & human & E & A4 & _ & _ & _ & _ & _ & Q3);
      try (intro Z0; lra); try exact Hg.
    eexists. eexists. eexists. eexists. split; [reflexivity|].
    split; [reflexivity|]. split; [exact Hs|].
    split; [intro N; contradiction|].
    split; [intros _; repeat split; lra|].
    split; [lra|]. split; [lra|]. split; [lra|].
    exists req, r4. rewrite E. auto.
Qed.

Lemma safety_trade_brackets_witness :
  exists size sl tp1 tp2,
    FirstRunSafetyTrade.safety_parameters "LONG" 100 10000 = Ok (size, sl, tp1, tp2)
    /\ tp2 < tp1 /\ tp1 < 100 /\ 100 < sl.
Proof.
  destruct (safety_trade_brackets Submission.accepting_exchange
              ExecutionReference.test_config "BTC/USDT" "LONG" 100 10000
              ExecutionReference.start)
    as (size & sl & tp1 & tp2 & E & _ & _ & _ & Sell & _).
  - reflexivity.
  - exact midpoint_rng_wf.
  - exists size, sl, tp1, tp2. split; [exact E|]. apply Sell. discriminate.
Defined.

(** ** Graceful shutdown *)

Lemma cancel_loop_prefix (ex : GracefulShutdown.Exchange)
  (orders : list GracefulShutdown.Order) :
  forall n made,
    exists done_ left_,
      orders = done_ ++ left_
      /\ snd (GracefulShutdown.cancel_loop ex orders n made) = rev done_ ++ made
      /\ (fst (GracefulShutdown.cancel_loop ex orders n made)
          = GracefulShutdown.Swept -> left_ = [])
      /\ (GracefulShutdown.cancels_settle ex ->
          fst (GracefulShutdown.cancel_loop ex orders n made)
          = GracefulShutdown.Swept).
Proof.
  induction orders as [|o rest IH]; intros n made.
  - exists [], []. cbn. auto.
  - cbn [GracefulShutdown.cancel_loop].
    destruct (IH (S n) (o :: made)) as (d & l & E & M & Sw & C).
    assert (Go : exists done_ left_,
               o :: rest = done_ ++ left_
               /\ snd (GracefulShutdown.cancel_loop ex rest (S n) (o :: made))
                  = rev done_ ++ made
               /\ (fst (GracefulShutdown.cancel_loop ex rest (S n) (o :: made))
                   = GracefulShutdown.Swept -> left_ = [])
               /\ (GracefulShutdown.cancels_settle ex ->
                   fst (GracefulShutdown.cancel_loop ex rest (S n) (o :: made))
                   = GracefulShutdown.Swept)).
    { exists (o :: d), l. split; [cbn; congruence|].
      split; [|split; assumption].
      rewrite M. cbn [rev]. rewrite <- app_assoc. reflexivity. }
    destruct (GracefulShutdown.cancel_order ex n o) as [u|e|] eqn:K.
    + exact Go.
    + destruct (is_Exception e) eqn:X; [exact Go|].
      exists [o], rest. cbn. split; [reflexivity|]. split; [reflexivity|].
      split; [discriminate|]. intro H. destruct (H n o) as [_ H2].
      rewrite (H2 e K) in X. discriminate X.
    + exists [o], rest. cbn. split; [reflexivity|]. split; [reflexivity|].
      split; [discriminate|]. intro H. destruct (H n o) as [H1 _].
      contradiction.
Qed.

(** X20: [cancel_pending_orders] asks the exchange to cancel the open
    orders one by one in the order fetched, each at most once: the
    cancellations attempted are a prefix of the open orders, and all of
    them whenever the sweep returns.  A cancellation that raises an
    [Exception] does not stop the sweep: if no cancellation is
    interrupted or runs into the time bound, every open order is
    attempted and the sweep returns. *)
Theorem cancel_pending_orders_sweeps_all (ex : GracefulShutdown.Exchange)
  (open_orders : list GracefulShutdown.Order) :
  GracefulShutdown.fetch_open_orders ex = GracefulShutdown.Returned open_orders ->
  (exists left_,
     open_orders = snd (GracefulShutdown.cancel_pending_orders ex) ++ left_
     /\ (fst (GracefulShutdown.cancel_pending_orders ex) = GracefulShutdown.Swept ->
         left_ = []))
  /\ (GracefulShutdown.cancels_settle ex ->
      GracefulShutdown.cancel_pending_orders ex
      = (GracefulShutdown.Swept, open_orders)).
Proof.
  intro F. unfold GracefulShutdown.cancel_pending_orders. rewrite F.
  destruct (cancel_loop_prefix ex open_orders 0 []) as (d & l & E & M & Sw & C).
  destruct (GracefulShutdown.cancel_loop ex open_orders 0 []) as [end_ made].
  cbn [fst snd] in *. subst made. rewrite app_nil_r, rev_involutive.
  split.
  - exists l. split; [exact E | exact Sw].
  - intro H. rewrite (C H) in *. rewrite (Sw eq_refl) in E.
    rewrite app_nil_r in E. subst d. reflexivity.
Qed.

Lemma cancel_pending_orders_sweeps_all_witness :
  let a := {| GracefulShutdown.order_id := "1";
              GracefulShutdown.order_symbol := "BTC/USDT" |} in
  let b := {| GracefulShutdown.order_id := "2";
              GracefulShutdown.order_symbol := "ETH/USDT" |} in
  let ex := {| GracefulShutdown.fetch_open_orders :=
                 GracefulShutdown.Returned [a; b];
               GracefulShutdown.cancel_order := fun n _ =>
                 match n with
                 | O => GracefulShutdown.Raised (ExchangeError "order not found")
                 | _ => GracefulShutdown.Returned tt
                 end;
               GracefulShutdown.close := Ok tt |} in
  GracefulShutdown.cancel_pending_orders ex = (GracefulShutdown.Swept, [a; b]).
Proof.
  intros a b ex.
  apply (cancel_pending_orders_sweeps_all ex [a; b] eq_refl).
  intros [|n] o; cbn; split; try discriminate; intros e E;
    inversion E; reflexivity.
Defined.

Lemma save_trades_on_list (trades : list json) :
  forall (old : list json) (s : StateManager.Store),
    StateManager.healthy s ->
    Execution.trade_history_file (StateManager.disk s) = Valid (JList old) ->
    exists s',
      StateManager.save_trades trades s = (Ok tt, s')
      /\ Execution.trade_history_file (StateManager.disk s')
         = Valid (JList (old ++ trades))
      /\ Execution.open_positions_file (StateManager.disk s')
         = Execution.open_positions_file (StateManager.disk s).
Proof.
  induction trades as [|t ts IH]; intros old s H F.
  - exists s. cbn [StateManager.save_trades]. rewrite app_nil_r. auto.
  - cbn [StateManager.save_trades].
    destruct (save_trade_history_on_list t old s H F)
      as (s' & -> & H' & F' & _ & P').
    destruct (IH (old ++ [t]) s' H' F') as (s2 & E & F2 & P2).
    exists s2. split; [exact E|]. rewrite <- app_assoc in F2.
    split; [exact F2 | congruence].
Qed.

Lemma save_open_positions_healthy (positions : list json)
  (s : StateManager.Store) :
  StateManager.healthy s ->
  exists s',
    StateManager.save_open_positions positions s = (Ok tt, s')
    /\ StateManager.healthy s'
    /\ Execution.open_positions_file (StateManager.disk s')
       = Valid (JList positions)
    /\ Execution.trade_history_file (StateManager.disk s')
       = Execution.trade_history_file (StateManager.disk s).
Proof.
  intro H. unfold StateManager.save_open_positions,
    StateManager.write_then_rename. rewrite (H (StateManager.writes s)).
  eexists. split; [reflexivity|]. cbn. repeat split; auto.
Qed.

Lemma save_given_positions (ps : list json) (s : StateManager.Store)
  (old : list json) :
  StateManager.healthy s ->
  Execution.trade_history_file (StateManager.disk s) = Valid (JList old) ->
  exists s1,
    (match ps with
     | [] => (Ok tt, s)
     | p :: q => StateManager.save_open_positions (p :: q) s
     end) = (Ok tt, s1)
    /\ StateManager.healthy s1
    /\ Execution.trade_history_file (StateManager.disk s1) = Valid (JList old)
    /\ (ps <> [] ->
        Execution.open_positions_file (StateManager.disk s1) = Valid (JList ps))
    /\ (ps = [] ->
        Execution.open_positions_file (StateManager.disk s1)
        = Execution.open_positions_file (StateManager.disk s)).
Proof.
  intros H F. destruct ps as [|p ps].
  - exists s. split; [reflexivity|]. split; [exact H|]. split; [exact F|].
    split; [intro N; contradiction | reflexivity].
  - destruct (save_open_positions_healthy (p :: ps) s H)
      as (s1 & E & H1 & O1 & T1).
    exists s1. split; [exact E|]. split; [exact H1|].
    split; [congruence|]. split; [intros _; exact O1 | discriminate].
Qed.

(** X21: what [cleanup] leaves behind, on a store where writes go
    through and [trade_history.json] holds a list.  If the sweep of
    pending orders runs into the 30 s bound, [cleanup] returns 1 with
    nothing saved and the exchange connection not closed.  If the sweep
    returns (also when fetching the open orders raised an [Exception]),
    the trades given are appended to the history, the positions given
    replace [open_positions.json] when there is at least one (with none,
    or an empty list, the file keeps its previous content), the
    connection is closed, and [cleanup] returns 0 even if closing raises
    an [Exception]. *)
Theorem cleanup_outcome (ex : GracefulShutdown.Exchange)
  (positions trades : option (list json)) (s : StateManager.Store)
  (old : list json) :
  StateManager.healthy s ->
  Execution.trade_history_file (StateManager.disk s) = Valid (JList old) ->
  let out := GracefulShutdown.cleanup ex positions trades s in
  GracefulShutdown.cancellations out
  = snd (GracefulShutdown.cancel_pending_orders ex)
  /\ (fst (GracefulShutdown.cancel_pending_orders ex) = GracefulShutdown.Expired ->
      GracefulShutdown.returned out = Ok 1%Z
      /\ GracefulShutdown.store out = s
      /\ GracefulShutdown.close_called out = false)
  /\ (fst (GracefulShutdown.cancel_pending_orders ex) = GracefulShutdown.Swept ->
      GracefulShutdown.close_called out = true
      /\ Execution.load_trade_history
           (StateManager.disk (GracefulShutdown.store out))
         = Ok (JList (old ++ GracefulShutdown.given trades))
      /\ (GracefulShutdown.given positions <> [] ->
          Execution.load_open_positions
            (StateManager.disk (GracefulShutdown.store out))
          = Ok (JList (GracefulShutdown.given positions)))
      /\ (GracefulShutdown.given positions = [] ->
          Execution.open_positions_file
            (StateManager.disk (GracefulShutdown.store out))
          = Execution.open_positions_file (StateManager.disk s))
      /\ ((forall e, GracefulShutdown.close ex = Raise e ->
                     is_Exception e = true) ->
          GracefulShutdown.returned out = Ok 0%Z)).
Proof.
  intros H F out. subst out. unfold GracefulShutdown.cleanup.
  destruct (GracefulShutdown.cancel_pending_orders ex) as [end_ made].
  cbn [fst snd].
  destruct end_ as [|e|].
  - destruct (save_given_positions (GracefulShutdown.given positions) s old H F)
      as (s1 & E1 & H1 & F1 & Pne & Pe).
    rewrite E1.
    destruct (save_trades_on_list (GracefulShutdown.given trades) old s1 H1 F1)
      as (s2 & E2 & F2 & P2).
    rewrite E2.
    assert (R : Execution.load_trade_history (StateManager.disk s2)
                = Ok (JList (old ++ GracefulShutdown.given trades))).
    { unfold Execution.load_trade_history. rewrite F2. reflexivity. }
    assert (L : GracefulShutdown.given positions <> [] ->
                Execution.load_open_positions (StateManager.disk s2)
                = Ok (JList (GracefulShutdown.given positions))).
    { intro N. unfold Execution.load_open_positions. rewrite P2, (Pne N).
      reflexivity. }
    assert (K : GracefulShutdown.given positions = [] ->
                Execution.open_positions_file (StateManager.disk s2)
                = Execution.open_positions_file (StateManager.disk s)).
    { intro N. rewrite P2. exact (Pe N). }
    destruct (GracefulShutdown.close ex) as [u|e] eqn:C;
      [|destruct (is_Exception e) eqn:X];
      cbn [GracefulShutdown.close_called GracefulShutdown.store
           GracefulShutdown.returned GracefulShutdown.cancellations];
      (split; [reflexivity|]); (split; [discriminate|]); intros _;
      (split; [reflexivity|]); (split; [exact R|]); (split; [exact L|]);
      (split; [exact K|]); intro A; try reflexivity.
    rewrite (A e eq_refl) in X. discriminate X.
  - cbn. split; [reflexivity|]. split; discriminate.
  - cbn. split; [reflexivity|]. split; [auto | discriminate].
Qed.

Lemma cleanup_outcome_witness :
  let a := {| GracefulShutdown.order_id := "1";
              GracefulShutdown.order_symbol := "BTC/USDT" |} in
  let ex := {| GracefulShutdown.fetch_open_orders :=
                 GracefulShutdown.Raised (ExchangeError "rate limit");
               GracefulShutdown.cancel_order := fun _ _ =>
                 GracefulShutdown.Returned tt;
               GracefulShutdown.close := Raise OSError |} in
  let s := {| StateManager.disk :=
                {| Execution.trade_history_file := Valid (JList [JInt 1]);
                   Execution.open_positions_file := Valid (JList [JInt 5]) |};
              StateManager.trade_history_tmp := Missing;
              StateManager.open_positions_tmp := Missing;
              StateManager.faults := fun _ => StateManager.NoFault;
              StateManager.writes := 0 |} in
  let out := GracefulShutdown.cleanup ex (Some []) (Some [JInt 2]) s in
  GracefulShutdown.returned out = Ok 0%Z
  /\ Execution.load_trade_history
       (StateManager.disk (GracefulShutdown.store out))
     = Ok (JList [JInt 1; JInt 2])
  /\ Execution.open_positions_file
       (StateManager.disk (GracefulShutdown.store out))
     = Valid (JList [JInt 5]).
Proof.
  intros a ex s out.
  destruct (cleanup_outcome ex (Some []) (Some [JInt 2]) s [JInt 1])
    as (_ & _ & Sw).
  - intro n. reflexivity.
  - reflexivity.
  - destruct (Sw eq_refl) as (_ & T & _ & P & R).
    split; [|split; [exact T | exact (P eq_refl)]].
    apply R. intros e E. inversion E. reflexivity.
Defined.

(** ** Breakout detector: when a signal fires *)

Lemma body_wick_valid (e : Breakout.BreakoutEngine) (candle : Candle)
  (bw : Breakout.BodyWick) :
  Breakout.validate_body_wick e candle = Ok bw ->
  Breakout.valid bw = true ->
  ~ c_high candle == c_low candle
  /\ Breakout.body_ratio bw
     == Qabs (c_close candle - c_open candle) / (c_high candle - c_low candle)
  /\ Breakout.min_body_ratio e <= Breakout.body_ratio bw
  /\ Breakout.wick_ratio bw <= Breakout.max_wick_ratio e
  /\ (Breakout.bw_direction bw = Breakout.Up <-> c_open candle < c_close candle)
  /\ (Breakout.bw_direction bw = Breakout.Down <-> c_close candle <= c_open candle).
Proof.
  unfold Breakout.validate_body_wick.
  destruct (Qeq_bool (c_high candle - c_low candle) 0) eqn:Z.
  - intros E V. inversion E; subst bw. discriminate V.
  - apply Qeq_bool_false_iff in Z.
    rewrite !(pydiv_ok _ _ Z). cbn [bind].
    assert (N : ~ c_high candle == c_low candle) by (intro E; apply Z; lra).
    destruct (Qlt_bool (c_open candle) (c_close candle)) eqn:D;
      intros E V; inversion E; subst bw; cbn [Breakout.valid] in V;
      apply andb_true_iff in V; destruct V as [V1 V2];
      apply Qle_bool_iff in V1, V2;
      cbn [Breakout.body_ratio Breakout.wick_ratio Breakout.bw_direction];
      (split; [exact N|]); (split; [reflexivity|]);
      (split; [exact V1|]); (split; [exact V2|]).
    + apply Qlt_bool_iff in D. split; split; intro H; try reflexivity;
        try exact D; try discriminate H. lra.
    + apply Qlt_bool_false_iff in D. split; split; intro H; try reflexivity;
        try exact D; try discriminate H. lra.
Qed.

Lemma atr_spike_fired (e : Breakout.BreakoutEngine) (candles : list Candle)
  (s : Breakout.AtrSpike) :
  Breakout.detect_atr_spike e candles = Ok s ->
  Breakout.spike s = true ->
  (50 <= length candles)%nat /\ Breakout.atr_threshold e < Breakout.ratio s.
Proof.
  unfold Breakout.detect_atr_spike.
  destruct (Nat.ltb (length candles) 50) eqn:L.
  - intros E V. inversion E; subst s. discriminate V.
  - apply Nat.ltb_ge in L.
    destruct (Breakout.calculate_atr (last_n 20 candles) 14) as [current|];
      [|intros E V; inversion E; subst s; discriminate V].
    destruct (Breakout.calculate_atr candles 50) as [historical|];
      [|intros E V; inversion E; subst s; discriminate V].
    destruct (if Qlt_bool 0 historical then pydiv current historical else Ok 0)
      as [r|x]; cbn [bind]; [|discriminate].
    intros E V. inversion E; subst s. cbn [Breakout.spike Breakout.ratio] in *.
    apply Qlt_bool_iff in V. split; [exact L | exact V].
Qed.

(** X22: what a fired breakout signal tells.  With a positive ATR
    threshold [generate_breakout_signal] returns for every candle list
    and every [min_body_ratio].  When the signal is LONG or SHORT there
    are at least 50 candles, the latest candle has a non-zero range,
    LONG means its close lies above its open and SHORT that it does not,
    its body fills at least [min_body_ratio] of its range (to within
    [10^-9]), and the strength is at most 1 and, for a positive
    [min_body_ratio], at least [min(1, min_body_ratio)].  When the
    signal is NONE the strength is 0. *)
Theorem breakout_signal_when_fired (e : Breakout.BreakoutEngine)
  (candles : list Candle) :
  0 < Breakout.atr_threshold e ->
  exists s,
    Breakout.generate_breakout_signal e candles = Ok s
    /\ (Breakout.sig_signal s = Breakout.NONE -> Breakout.sig_strength s = 0)
    /\ (Breakout.sig_signal s <> Breakout.NONE ->
        (50 <= length candles)%nat
        /\ exists current,
             nth_from_end 1 candles = Some current
             /\ ~ c_high current == c_low current
             /\ (Breakout.sig_signal s = Breakout.LONG <->
                 c_open current < c_close current)
             /\ Breakout.min_body_ratio e - (1 # 1000000000)
                <= Qabs (c_close current - c_open current)
                   / (c_high current - c_low current)
             /\ (0 < Breakout.min_body_ratio e ->
                 Qmin 1 (Breakout.min_body_ratio e) <= Breakout.sig_strength s)
             /\ Breakout.sig_strength s <= 1).
Proof.
  intros Ht. unfold Breakout.generate_breakout_signal.
  destruct (Nat.ltb (length candles) 20) eqn:L.
  { eexists. split; [reflexivity|]. cbn. split; [reflexivity|].
    intro N. exfalso. apply N. reflexivity. }
  apply Nat.ltb_ge in L.
  destruct (nth_from_end 1 candles) as [current|] eqn:C.
  2:{ exfalso. unfold nth_from_end in C.
      replace (Nat.leb 1 (length candles)) with true in C
        by (symmetry; apply Nat.leb_le; lia).
      apply nth_error_None in C. lia. }
  destruct (detect_atr_spike_returns e candles) as [sp Sp]. rewrite Sp.
  cbn [bind].
  destruct (Breakout.validate_body_wick e current) as [bw|x] eqn:B.
  2:{ exfalso. unfold Breakout.validate_body_wick in B.
      destruct (Qeq_bool (c_high current - c_low current) 0) eqn:Z;
        [discriminate B|].
      apply Qeq_bool_false_iff in Z. rewrite !(pydiv_ok _ _ Z) in B.
      cbn [bind] in B.
      destruct (Qlt_bool (c_open current) (c_close current)); discriminate B. }
  cbn [bind].
  destruct (Breakout.compressed (Breakout.detect_compression e candles)
            && Breakout.spike sp && Breakout.valid bw) eqn:V; cbn [negb].
  2:{ eexists. split; [reflexivity|]. cbn. split; [reflexivity|].
      intro N. exfalso. apply N. reflexivity. }
  apply andb_true_iff in V. destruct V as [V Vb].
  apply andb_true_iff in V. destruct V as [_ Vs].
  destruct (atr_spike_fired e candles sp Sp Vs) as [L50 R].
  destruct (body_wick_valid e current bw B Vb) as (N & BR & Bmin & _ & Up & Dn).
  rewrite (pydiv_ok _ _ (pos_neq0 _ Ht)). cbn [bind].
  eexists. split; [reflexivity|].
  cbn [Breakout.sig_signal Breakout.sig_strength].
  split.
  { intro E. destruct (Breakout.bw_direction bw); discriminate E. }
  intros _. split; [exact L50|]. exists current. split; [reflexivity|].
  split; [exact N|]. split.
  { rewrite <- Up. destruct (Breakout.bw_direction bw);
      split; intro H; try reflexivity; try discriminate H. }
  split; [rewrite <- BR; lra|].
  split; [|apply Q.le_min_l]. intro Hb.
  apply Q.min_glb; [apply Q.le_min_l|].
  apply Qle_trans with (Breakout.min_body_ratio e); [apply Q.le_min_r|].
  apply Qle_trans with (Breakout.body_ratio bw); [exact Bmin|].
  assert (Q1 : 1 <= Breakout.ratio sp / Breakout.atr_threshold e).
  { apply Qle_shift_div_l; [exact Ht|]. lra. }
  assert (B0 : 0 <= Breakout.body_ratio bw) by lra.
  set (q := Breakout.ratio sp / Breakout.atr_threshold e) in *.
  set (b := Breakout.body_ratio bw) in *.
  clearbody q b. nra.
Qed.

Lemma breakout_signal_when_fired_witness :
  exists s,
    Breakout.generate_breakout_signal Breakout.__init__ Rally.candles = Ok s
    /\ Breakout.sig_signal s = Breakout.LONG
    /\ 6 # 10 <= Breakout.sig_strength s.
Proof.
  destruct (breakout_signal_when_fired Breakout.__init__ Rally.candles)
    as (s & E & _ & F); [reflexivity|].
  exists s. split; [exact E|].
  assert (L : Breakout.sig_signal s = Breakout.LONG).
  { assert (K : Breakout.generate_breakout_signal Breakout.__init__ Rally.candles
                = Ok s) by exact E.
    vm_compute in K. inversion K. reflexivity. }
  split; [exact L|].
  destruct F as (_ & current & _ & _ & _ & _ & S & _).
  - rewrite L. discriminate.
  - apply Qle_trans with (Qmin 1 (Breakout.min_body_ratio Breakout.__init__));
      [vm_compute; discriminate | apply S; reflexivity].
Defined.

(** ** Liquidity sweeps *)

Lemma closure_in_unit (d : Sweep.LiquiditySweepDetector) (current previous : Candle) :
  exists cl,
    Sweep.validate_closure_inside d current previous = Ok cl
    /\ (Sweep.inside cl = true <->
        c_low previous <= c_close current /\ c_close current <= c_high previous)
    /\ 0 <= Sweep.closure_ratio cl /\ Sweep.closure_ratio cl <= 1.
Proof.
  unfold Sweep.validate_closure_inside.
  destruct (Qle_bool (c_low previous) (c_close current)
            && Qle_bool (c_close current) (c_high previous)) eqn:I.
  - apply andb_true_iff in I. destruct I as [I1 I2].
    apply Qle_bool_iff in I1, I2.
    destruct (Qeq_bool (c_high previous - c_low previous) 0) eqn:Z; cbn [bind].
    + eexists. split; [reflexivity|]. cbn [Sweep.inside Sweep.closure_ratio].
      split; [tauto|]. split; vm_compute; discriminate.
    + apply Qeq_bool_false_iff in Z. rewrite (pydiv_ok _ _ Z). cbn [bind].
      eexists. split; [reflexivity|]. cbn [Sweep.inside Sweep.closure_ratio].
      split; [tauto|].
      assert (P : 0 < c_high previous - c_low previous).
      { apply Qnot_le_lt. intro N. apply Z. lra. }
      split.
      * apply Qle_shift_div_l; [exact P|]. lra.
      * apply Qle_shift_div_r; [exact P|]. lra.
  - cbn [bind]. eexists. split; [reflexivity|].
    cbn [Sweep.inside Sweep.closure_ratio]. split.
    + split; [discriminate|]. intros [I1 I2].
      apply Qle_bool_iff in I1, I2. rewrite I1, I2 in I. discriminate I.
    + split; vm_compute; discriminate.
Qed.

Lemma wick_touch_iff (d : Sweep.LiquiditySweepDetector) (current previous : Candle)
  (zone_price : Q) :
  let tolerance := zone_price * Sweep.wick_touch_tolerance d in
  let w := Sweep.detect_wick_touch d current previous zone_price in
  (Sweep.touched w = true <->
   (zone_price - tolerance <= c_high current
    /\ c_high current <= zone_price + tolerance)
   \/ (zone_price - tolerance <= c_low current
       /\ c_low current <= zone_price + tolerance))
  /\ 0 <= Sweep.distance w
  /\ (Sweep.wt_direction w = Sweep.Up ->
      zone_price - tolerance <= c_high current
      /\ c_high current <= zone_price + tolerance)
  /\ (Sweep.wt_direction w = Sweep.Down ->
      zone_price - tolerance <= c_low current
      /\ c_low current <= zone_price + tolerance).
Proof.
  intros tolerance w. subst w. unfold Sweep.detect_wick_touch.
  fold tolerance.
  destruct (Qle_bool (zone_price - tolerance) (c_high current)
            && Qle_bool (c_high current) (zone_price + tolerance)) eqn:H.
  - apply andb_true_iff in H. destruct H as [H1 H2].
    apply Qle_bool_iff in H1, H2.
    cbn [Sweep.touched Sweep.distance Sweep.wt_direction].
    split; [tauto|]. split; [apply Qabs_nonneg|].
    split; [tauto | discriminate].
  - destruct (Qle_bool (zone_price - tolerance) (c_low current)
              && Qle_bool (c_low current) (zone_price + tolerance)) eqn:L.
    + apply andb_true_iff in L. destruct L as [L1 L2].
      apply Qle_bool_iff in L1, L2.
      cbn [Sweep.touched Sweep.distance Sweep.wt_direction].
      split; [tauto|]. split; [apply Qabs_nonneg|].
      split; [discriminate | tauto].
    + cbn [Sweep.touched Sweep.distance Sweep.wt_direction].
      split; [|split; [|split; discriminate]].
      * split; [discriminate|]. intros [[A B]|[A B]];
          apply Qle_bool_iff in A, B.
        -- rewrite A, B in H. discriminate H.
        -- rewrite A, B in L. discriminate L.
      * apply Q.min_glb; apply Qabs_nonneg.
Qed.

Lemma zone_sweep_bounds (d : Sweep.LiquiditySweepDetector)
  (current previous : Candle) (zone : SupportResistance.Zone) :
  Sweep.sweepable zone ->
  exists c,
    Sweep.zone_sweep d current previous zone = Ok c
    /\ forall s b, c = Some (s, b) ->
        0 <= s /\ s <= SupportResistance.z_strength zone
        /\ Sweep.best_touched_level b = SupportResistance.z_price zone
        /\ Sweep.best_zone_strength b = SupportResistance.z_strength zone
        /\ Sweep.best_direction b
           = Sweep.wt_direction
               (Sweep.detect_wick_touch d current previous
                  (SupportResistance.z_price zone))
        /\ Sweep.touched
             (Sweep.detect_wick_touch d current previous
                (SupportResistance.z_price zone)) = true
        /\ c_low previous <= c_close current
        /\ c_close current <= c_high previous.
Proof.
  intros (Hp & Hs0 & Hs1). unfold Sweep.zone_sweep.
  destruct (wick_touch_iff d current previous (SupportResistance.z_price zone))
    as (_ & D0 & _).
  destruct (Sweep.touched (Sweep.detect_wick_touch d current previous
                             (SupportResistance.z_price zone))) eqn:T;
    cbn [negb].
  2:{ eexists. split; [reflexivity|]. intros s b E. discriminate E. }
  destruct (closure_in_unit d current previous) as (cl & -> & I & C0 & C1).
  cbn [bind].
  destruct (Sweep.inside cl) eqn:In_; cbn [negb].
  2:{ eexists. split; [reflexivity|]. intros s b E. discriminate E. }
  assert (Hz : 0 < SupportResistance.z_price zone * (1 # 100)) by lra.
  rewrite (pydiv_ok _ _ (pos_neq0 _ Hz)). cbn [bind].
  eexists. split; [reflexivity|]. intros s b E. inversion E; subst s b.
  cbn [Sweep.best_touched_level Sweep.best_zone_strength Sweep.best_direction].
  destruct (proj1 I eq_refl) as [I1 I2].
  assert (M : 0 <= Qmin 1 (Sweep.distance
                 (Sweep.detect_wick_touch d current previous
                    (SupportResistance.z_price zone))
               / (SupportResistance.z_price zone * (1 # 100)))
              /\ Qmin 1 (Sweep.distance
                 (Sweep.detect_wick_touch d current previous
                    (SupportResistance.z_price zone))
               / (SupportResistance.z_price zone * (1 # 100))) <= 1).
  { apply Qmin1_in_unit. apply Qdiv_nonneg; assumption. }
  set (m := Qmin 1 _) in *.
  assert (K : 0 <= (if Qlt_bool (Sweep.min_closure_ratio d) (Sweep.closure_ratio cl)
                    then Sweep.closure_ratio cl else 0)
              /\ (if Qlt_bool (Sweep.min_closure_ratio d) (Sweep.closure_ratio cl)
                    then Sweep.closure_ratio cl else 0) <= 1).
  { destruct (Qlt_bool (Sweep.min_closure_ratio d) (Sweep.closure_ratio cl));
      split; lra. }
  set (k := if Qlt_bool _ _ then _ else _) in *.
  set (st := SupportResistance.z_strength zone) in *.
  clearbody m k st.
  assert (H01 : 0 <= (1 - m + k) / 2 /\ (1 - m + k) / 2 <= 1).
  { split.
    - apply Qle_shift_div_l; [reflexivity|]. lra.
    - apply Qle_shift_div_r; [reflexivity|]. lra. }
  set (h := (1 - m + k) / 2) in *. clearbody h.
  split; [nra|]. split; [nra|]. auto 10.
Qed.

Lemma sweep_loop_best (d : Sweep.LiquiditySweepDetector)
  (current previous : Candle) (sr_zones : list SupportResistance.Zone) :
  Forall Sweep.sweepable sr_zones ->
  forall best best_score,
    exists best' score',
      Sweep.sweep_loop d current previous sr_zones best best_score
      = Ok (best', score')
      /\ best_score <= score'
      /\ ((best' = best /\ score' = best_score)
          \/ exists zone candidate,
               In zone sr_zones
               /\ Sweep.zone_sweep d current previous zone
                  = Ok (Some (score', candidate))
               /\ best' = Some candidate
               /\ best_score < score')
      /\ forall zone s b,
           In zone sr_zones ->
           Sweep.zone_sweep d current previous zone = Ok (Some (s, b)) ->
           s <= score'.
Proof.
  induction 1 as [|zone rest Hz _ IH]; intros best best_score.
  - exists best, best_score. cbn [Sweep.sweep_loop].
    split; [reflexivity|]. split; [lra|]. split; [left; auto|].
    intros zone s b [].
  - cbn [Sweep.sweep_loop].
    destruct (zone_sweep_bounds d current previous zone Hz) as (c & E & _).
    rewrite E. cbn [bind].
    destruct c as [[final_score candidate]|].
    + destruct (Qlt_bool best_score final_score) eqn:B.
      * apply Qlt_bool_iff in B.
        destruct (IH (Some candidate) final_score)
          as (b' & s' & R & Le & Or & Max).
        exists b', s'. split; [exact R|]. split; [lra|]. split.
        -- right. destruct Or as [[-> ->]|(z & cd & I & Ez & Eb & Lt)].
           ++ exists zone, candidate. cbn [In]. auto.
           ++ exists z, cd. cbn [In]. split; [auto|]. split; [exact Ez|].
              split; [exact Eb | lra].
        -- intros z s b [<-|I] Ez.
           ++ rewrite E in Ez. inversion Ez; subst. exact Le.
           ++ exact (Max z s b I Ez).
      * apply Qlt_bool_false_iff in B.
        destruct (IH best best_score) as (b' & s' & R & Le & Or & Max).
        exists b', s'. split; [exact R|]. split; [exact Le|]. split.
        -- destruct Or as [[-> ->]|(z & cd & I & Ez & Eb & Lt)];
             [left; auto|].
           right. exists z, cd. cbn [In]. auto.
        -- intros z s b [<-|I] Ez.
           ++ rewrite E in Ez. inversion Ez; subst. lra.
           ++ exact (Max z s b I Ez).
    + destruct (IH best best_score) as (b' & s' & R & Le & Or & Max).
      exists b', s'. split; [exact R|]. split; [exact Le|]. split.
      * destruct Or as [[-> ->]|(z & cd & I & Ez & Eb & Lt)];
          [left; auto|].
        right. exists z, cd. cbn [In]. auto.
      * intros z s b [<-|I] Ez.
        -- rewrite E in Ez. discriminate Ez.
        -- exact (Max z s b I Ez).
Qed.



(** ** Trend analysis *)

Lemma sum_from_bounds (lo hi : Q) (xs : list Q) :
  Forall (fun x => lo <= x /\ x <= hi) xs ->
  forall a,
    a + inject_Z (Z.of_nat (length xs)) * lo <= fold_left Qplus xs a
    /\ fold_left Qplus xs a <= a + inject_Z (Z.of_nat (length xs)) * hi.
Proof.
  induction 1 as [|x xs [H0 H1] _ IH]; intro a.
  - cbn [fold_left length]. change (inject_Z (Z.of_nat 0)) with 0. split; lra.
  - cbn [fold_left length]. destruct (IH (a + x)) as [L U].
    rewrite Nat2Z.inj_succ. unfold Z.succ. rewrite inject_Z_plus.
    change (inject_Z 1) with 1. split; lra.
Qed.

Lemma mean_within (lo hi : Q) (xs : list Q) :
  xs <> [] ->
  Forall (fun x => lo <= x /\ x <= hi) xs ->
  lo <= mean xs /\ mean xs <= hi.
Proof.
  intros N H. unfold mean, Py.sum.
  destruct (sum_from_bounds lo hi xs H 0) as [L U].
  assert (P : 0 < inject_Z (Z.of_nat (length xs))).
  { change 0 with (inject_Z 0). rewrite <- Zlt_Qlt.
    destruct xs; [contradiction|]. cbn [length]. lia. }
  split.
  - apply Qle_shift_div_l; [exact P|]. lra.
  - apply Qle_shift_div_r; [exact P|]. lra.
Qed.

Lemma ema_loop_within (lo hi multiplier : Q) :
  0 <= multiplier -> multiplier <= 1 ->
  forall closes previous,
    lo <= previous /\ previous <= hi ->
    Forall (fun x => lo <= x /\ x <= hi) closes ->
    Forall (fun x => lo <= x /\ x <= hi) (Trend.ema_loop multiplier previous closes).
Proof.
  intros M0 M1. induction closes as [|c rest IH]; intros previous P H.
  - apply Forall_nil.
  - apply Forall_cons_iff in H. destruct H as [[C0 C1] H].
    cbn [Trend.ema_loop].
    assert (E : lo <= c * multiplier + previous * (1 - multiplier)
                /\ c * multiplier + previous * (1 - multiplier) <= hi).
    { destruct P as [P0 P1]. split; nra. }
    apply Forall_cons; [exact E|]. apply IH; assumption.
Qed.

Lemma ema_loop_length (multiplier : Q) (closes : list Q) :
  forall previous,
    length (Trend.ema_loop multiplier previous closes) = length closes.
Proof.
  induction closes as [|c rest IH]; intro previous; cbn [Trend.ema_loop length];
    [reflexivity | rewrite IH; reflexivity].
Qed.

Lemma multiplier_in_unit (period : positive) :
  0 <= 2 / (inject_Z (Z.pos period) + 1)
  /\ 2 / (inject_Z (Z.pos period) + 1) <= 1.
Proof.
  assert (P : 1 <= inject_Z (Z.pos period)).
  { change 1 with (inject_Z 1). rewrite <- Zle_Qle. lia. }
  split.
  - apply Qle_shift_div_l; lra.
  - apply Qle_shift_div_r; lra.
Qed.

Lemma calculate_ema_length (closes : list Q) (period : positive) (ema : list Q) :
  Trend.calculate_ema closes period = Some ema ->
  (Pos.to_nat period <= length closes)%nat /\ length ema = length closes.
Proof.
  unfold Trend.calculate_ema.
  destruct (Nat.ltb (length closes) (Pos.to_nat period)) eqn:L; [discriminate|].
  apply Nat.ltb_ge in L. intro E. inversion E; subst ema.
  split; [exact L|].
  rewrite length_app, repeat_length. cbn [length].
  rewrite ema_loop_length, length_skipn.
  pose proof (Pos2Nat.is_pos period). lia.
Qed.

Lemma positive_bounds (xs : list Q) :
  Forall (fun x => 0 < x) xs ->
  exists lo hi, 0 < lo /\ Forall (fun x => lo <= x /\ x <= hi) xs.
Proof.
  induction 1 as [|x xs Hx _ (lo & hi & L & F)].
  - exists 1, 1. split; [reflexivity | apply Forall_nil].
  - exists (Qmin x lo), (Qmax x hi). split.
    + apply Q.min_glb_lt; assumption.
    + apply Forall_cons.
      * split; [apply Q.le_min_l | apply Q.le_max_l].
      * apply (Forall_impl _ (P := fun y => lo <= y /\ y <= hi)); [|exact F].
        intros y [Y0 Y1]. split.
        -- apply Qle_trans with lo; [apply Q.le_min_r | exact Y0].
        -- apply Qle_trans with hi; [exact Y1 | apply Q.le_max_r].
Qed.

(** X24: the shape of the moving average.  [calculate_ema] returns
    [None] exactly when there are fewer closes than the period.
    Otherwise the series has one entry per close; the first
    [period - 1] entries are the zeros the array was created with, and
    over positive closes every later entry is positive, so the latest
    value of a moving average over positive prices is positive as soon
    as the period is reached. *)
Theorem calculate_ema_positive_past_warmup (closes : list Q) (period : positive) :
  ((length closes < Pos.to_nat period)%nat ->
   Trend.calculate_ema closes period = None)
  /\ ((Pos.to_nat period <= length closes)%nat ->
      exists ema,
        Trend.calculate_ema closes period = Some ema
        /\ length ema = length closes
        /\ forall i, (i < length closes)%nat ->
             ((i < Pos.to_nat period - 1)%nat -> nth i ema 0 = 0)
             /\ ((Pos.to_nat period - 1 <= i)%nat ->
                 Forall (fun c => 0 < c) closes -> 0 < nth i ema 0)).
Proof.
  split.
  - intro L. unfold Trend.calculate_ema.
    apply Nat.ltb_lt in L. rewrite L. reflexivity.
  - intro L. pose proof (Pos2Nat.is_pos period) as Pp.
    destruct (Trend.calculate_ema closes period) as [ema|] eqn:E.
    2:{ unfold Trend.calculate_ema in E. apply Nat.ltb_ge in L.
        rewrite L in E. discriminate E. }
    exists ema. split; [reflexivity|].
    destruct (calculate_ema_length closes period ema E) as [_ Len].
    split; [exact Len|].
    unfold Trend.calculate_ema in E.
    replace (Nat.ltb (length closes) (Pos.to_nat period)) with false in E
      by (symmetry; apply Nat.ltb_ge; exact L).
    inversion E as [E']. clear E.
    set (m := 2 / (inject_Z (Z.pos period) + 1)) in *.
    set (seed := mean (firstn (Pos.to_nat period) closes)) in *.
    intros i Hi. split.
    + intro Lt. rewrite app_nth1 by (rewrite repeat_length; exact Lt).
      apply nth_repeat.
    + intros Ge H. destruct (positive_bounds closes H) as (lo & hi & Plo & F).
      assert (Hseed : lo <= seed /\ seed <= hi).
      { apply mean_within.
        - intro N. apply (f_equal (@length Q)) in N.
          rewrite length_firstn in N. cbn [length] in N. lia.
        - rewrite Forall_forall in *. intros x I. apply F.
          rewrite <- (firstn_skipn (Pos.to_nat period) closes).
          apply in_or_app. left. exact I. }
      assert (Htail : Forall (fun x => lo <= x /\ x <= hi)
                        (seed :: Trend.ema_loop m seed
                                   (skipn (Pos.to_nat period) closes))).
      { apply Forall_cons; [exact Hseed|].
        destruct (multiplier_in_unit period) as [M0 M1].
        apply ema_loop_within; try assumption.
        rewrite Forall_forall in *. intros x I. apply F.
        rewrite <- (firstn_skipn (Pos.to_nat period) closes).
        apply in_or_app. right. exact I. }
      rewrite app_nth2 by (rewrite repeat_length; exact Ge).
      rewrite repeat_length. rewrite Forall_forall in Htail.
      apply Qlt_le_trans with lo; [exact Plo|].
      apply Htail. apply nth_In.
      rewrite <- E', length_app, repeat_length in Len. lia.
Qed.

Lemma calculate_ema_positive_past_warmup_witness :
  exists ema,
    Trend.calculate_ema [10; 12; 11; 13] 2 = Some ema
    /\ nth 0 ema 0 = 0 /\ 0 < nth 3 ema 0.
Proof.
  destruct (calculate_ema_positive_past_warmup [10; 12; 11; 13] 2) as [_ S].
  destruct S as (ema & E & _ & B).
  - apply Nat.leb_le. reflexivity.
  - exists ema. split; [exact E|]. split.
    + apply (B 0%nat); apply Nat.ltb_lt; reflexivity.
    + apply (B 3%nat).
      * apply Nat.ltb_lt. reflexivity.
      * apply Nat.leb_le. reflexivity.
      * repeat (apply Forall_cons; [reflexivity|]). apply Forall_nil.
Defined.

Lemma analyze_trend_returns (a : Trend.TrendAnalyzer) (m15_candles : list Candle) :
  exists t,
    Trend.analyze_trend a m15_candles = Ok t
    /\ ((length m15_candles < Pos.to_nat (Trend.ema_slow a))%nat ->
        t = Trend.ranging)
    /\ Trend.tr_trend t <> Trend.Neutral
    /\ (Trend.tr_trend t <> Trend.Ranging ->
        exists e50 e200,
          Trend.tr_ema50 t = Some e50 /\ Trend.tr_ema200 t = Some e200
          /\ (Trend.tr_trend t = Trend.Bullish <-> e200 + e200 * (5 # 1000) < e50)
          /\ (Trend.tr_trend t = Trend.Bearish ->  e50 < e200 - e200 * (5 # 1000))).
Proof.
  unfold Trend.analyze_trend.
  destruct (Nat.ltb (length m15_candles) (Pos.to_nat (Trend.ema_slow a))) eqn:L.
  { exists Trend.ranging. split; [reflexivity|]. split; [auto|].
    split; [discriminate|]. intro N. exfalso. apply N. reflexivity. }
  apply Nat.ltb_ge in L.
  assert (NL : ~ (length m15_candles < Pos.to_nat (Trend.ema_slow a))%nat) by lia.
  destruct (Trend.calculate_ema (map c_close m15_candles) (Trend.ema_fast a))
    as [ema50|] eqn:E50.
  2:{ exists Trend.ranging. split; [reflexivity|]. split; [auto|].
      split; [discriminate|]. intro N. exfalso. apply N. reflexivity. }
  destruct (Trend.calculate_ema (map c_close m15_candles) (Trend.ema_slow a))
    as [ema200|] eqn:E200.
  2:{ exists Trend.ranging. split; [reflexivity|]. split; [auto|].
      split; [discriminate|]. intro N. exfalso. apply N. reflexivity. }
  apply calculate_ema_length in E50, E200.
  destruct E50 as [P50 L50]. destruct E200 as [P200 L200].
  pose proof (Pos2Nat.is_pos (Trend.ema_fast a)).
  assert (S50 : exists c, nth_from_end 1 ema50 = Some c).
  { unfold nth_from_end.
    replace (Nat.leb 1 (length ema50)) with true
      by (symmetry; apply Nat.leb_le; lia).
    destruct (nth_error ema50 (length ema50 - 1)) eqn:N; [eauto|].
    apply nth_error_None in N. lia. }
  assert (S200 : exists c, nth_from_end 1 ema200 = Some c).
  { unfold nth_from_end.
    replace (Nat.leb 1 (length ema200)) with true
      by (symmetry; apply Nat.leb_le; lia).
    destruct (nth_error ema200 (length ema200 - 1)) eqn:N; [eauto|].
    apply nth_error_None in N. lia. }
  destruct S50 as [c50 ->]. destruct S200 as [c200 ->].
  eexists. split; [reflexivity|]. cbn [Trend.tr_trend Trend.tr_ema50 Trend.tr_ema200].
  split; [intro; contradiction|].
  destruct (Qlt_bool (c200 + c200 * (5 # 1000)) c50) eqn:B.
  - apply Qlt_bool_iff in B. split; [discriminate|]. intros _.
    exists c50, c200. split; [reflexivity|]. split; [reflexivity|].
    split; [tauto | discriminate].
  - apply Qlt_bool_false_iff in B.
    destruct (Qlt_bool c50 (c200 - c200 * (5 # 1000))) eqn:S.
    + apply Qlt_bool_iff in S. split; [discriminate|]. intros _.
      exists c50, c200. split; [reflexivity|]. split; [reflexivity|].
      split; [|auto]. split; [discriminate|]. intro X. exfalso.
      exact (Qlt_not_le _ _ X B).
    + split; [discriminate|]. intro N. exfalso. apply N. reflexivity.
Qed.

Lemma analyze_h1_bias_returns (a : Trend.TrendAnalyzer) (h1_candle : option Candle) :
  exists b,
    Trend.analyze_h1_bias a h1_candle = Ok b
    /\ Trend.bias b <> Trend.Ranging
    /\ (h1_candle = None -> b = Trend.neutral)
    /\ (forall c, h1_candle = Some c -> c_high c == c_low c -> b = Trend.neutral).
Proof.
  unfold Trend.analyze_h1_bias. destruct h1_candle as [c|].
  2:{ exists Trend.neutral. split; [reflexivity|]. split; [discriminate|].
      split; [reflexivity|]. intros c E. discriminate E. }
  destruct (Qeq_bool (c_high c - c_low c) 0) eqn:Z.
  { exists Trend.neutral. split; [reflexivity|]. split; [discriminate|].
    split; reflexivity. }
  apply Qeq_bool_false_iff in Z. rewrite (pydiv_ok _ _ Z). cbn [bind].
  eexists. split; [reflexivity|]. cbn [Trend.bias Trend.body_position].
  split.
  { destruct (Qlt_bool _ _); [discriminate|].
    destruct (Qlt_bool _ _); discriminate. }
  split; [discriminate|].
  intros c' E R. inversion E; subst c'. exfalso. apply Z. lra.
Qed.

(** X25: when the trend filter vetoes.  [get_trend_confirmation] always
    returns; the M15 trend it reports is bullish, bearish or ranging and
    the H1 bias bullish, bearish or neutral.  With fewer M15 candles
    than the slow period the trend is ranging with no moving averages
    reported.  The confirmation is withheld exactly when the M15 trend
    is bullish or bearish and the H1 bias is not the same; a ranging M15
    trend is always confirmed, whatever the H1 candle shows.  A bullish
    trend means the fast average exceeds the slow one by more than
    0.5%.  Without an H1 candle, or with one whose high equals its low,
    the bias is neutral with body position 0.5, so that a bullish or
    bearish M15 trend is then never confirmed. *)
Theorem trend_confirmation_veto (a : Trend.TrendAnalyzer)
  (m15_candles : list Candle) (h1_candle : option Candle) :
  exists r,
    Trend.get_trend_confirmation a m15_candles h1_candle = Ok r
    /\ Trend.m15_trend r <> Trend.Neutral
    /\ Trend.h1_bias r <> Trend.Ranging
    /\ ((length m15_candles < Pos.to_nat (Trend.ema_slow a))%nat ->
        Trend.m15_trend r = Trend.Ranging
        /\ Trend.ema50 r = None /\ Trend.ema200 r = None)
    /\ (Trend.confirmed r = false <->
        (Trend.m15_trend r = Trend.Bullish /\ Trend.h1_bias r <> Trend.Bullish)
        \/ (Trend.m15_trend r = Trend.Bearish /\ Trend.h1_bias r <> Trend.Bearish))
    /\ (Trend.m15_trend r = Trend.Ranging -> Trend.confirmed r = true)
    /\ (Trend.m15_trend r = Trend.Bullish ->
        exists e50 e200,
          Trend.ema50 r = Some e50 /\ Trend.ema200 r = Some e200
          /\ e200 + e200 * (5 # 1000) < e50)
    /\ ((h1_candle = None
         \/ exists c, h1_candle = Some c /\ c_high c == c_low c) ->
        Trend.h1_bias r = Trend.Neutral
        /\ Trend.h1_body_position r = 5 # 10
        /\ (Trend.m15_trend r <> Trend.Ranging -> Trend.confirmed r = false)).
Proof.
  unfold Trend.get_trend_confirmation.
  destruct (analyze_trend_returns a m15_candles) as (t & -> & Short & NN & Dir).
  destruct (analyze_h1_bias_returns a h1_candle) as (b & -> & NR & H0 & H1).
  cbn [bind]. eexists. split; [reflexivity|].
  cbn [Trend.m15_trend Trend.h1_bias Trend.confirmed Trend.ema50 Trend.ema200
       Trend.h1_body_position].
  split; [exact NN|]. split; [exact NR|].
  split.
  { intro L. rewrite (Short L). cbn. auto. }
  split.
  { destruct (Trend.tr_trend t); destruct (Trend.bias b); cbn;
      split; intro H; try discriminate H; try reflexivity;
      try (left; split; [reflexivity | discriminate]);
      try (right; split; [reflexivity | discriminate]);
      try (destruct H as [[H1' H2]|[H1' H2]];
           try discriminate H1'; exfalso; apply H2; reflexivity);
      try (exfalso; apply NN; reflexivity). }
  split.
  { intros ->. reflexivity. }
  split.
  { intro B. destruct Dir as (e50 & e200 & A1 & A2 & A3 & _).
    - rewrite B. discriminate.
    - exists e50, e200. split; [exact A1|]. split; [exact A2|].
      apply A3. exact B. }
  intro N.
  assert (E : b = Trend.neutral).
  { destruct N as [N|(c & E & R)]; [exact (H0 N) | exact (H1 c E R)]. }
  rewrite E. cbn [Trend.neutral Trend.bias Trend.body_position].
  split; [reflexivity|]. split; [reflexivity|].
  intro D. destruct (Trend.tr_trend t); cbn;
    first [ reflexivity | exfalso; apply D; reflexivity ].
Qed.

Lemma trend_confirmation_veto_witness :
  exists r,
    Trend.get_trend_confirmation Trend.__init__ Rally.candles None = Ok r
    /\ Trend.confirmed r = true /\ Trend.h1_bias r = Trend.Neutral.
Proof.
  destruct (trend_confirmation_veto Trend.__init__ Rally.candles None)
    as (r & E & _ & _ & S & _ & C & _ & B).
  exists r. split; [exact E|]. split.
  - apply C. apply S. apply Nat.ltb_lt. reflexivity.
  - apply B. left. reflexivity.
Defined.

(** ** Support/resistance zones: swings, clusters and lookups *)

Lemma is_swing_high_iff (highs : list Q) (lookback i : nat) :
  SupportResistance.is_swing_high highs lookback i = true <->
  forall j, (1 <= j <= lookback)%nat ->
    SupportResistance.at_ highs (i - j) < SupportResistance.at_ highs i
    /\ SupportResistance.at_ highs (i + j) < SupportResistance.at_ highs i.
Proof.
  unfold SupportResistance.is_swing_high. rewrite forallb_forall. split.
  - intros H j J. assert (I : In j (seq 1 lookback)) by (apply in_seq; lia).
    specialize (H j I). apply negb_true_iff, orb_false_iff in H.
    destruct H as [H1 H2]. apply Qle_bool_false_iff in H1, H2. auto.
  - intros H j I. apply in_seq in I. destruct (H j) as [H1 H2]; [lia|].
    apply negb_true_iff, orb_false_iff.
    split; apply Qle_bool_false_iff; assumption.
Qed.

Lemma is_swing_low_iff (lows : list Q) (lookback i : nat) :
  SupportResistance.is_swing_low lows lookback i = true <->
  forall j, (1 <= j <= lookback)%nat ->
    SupportResistance.at_ lows i < SupportResistance.at_ lows (i - j)
    /\ SupportResistance.at_ lows i < SupportResistance.at_ lows (i + j).
Proof.
  unfold SupportResistance.is_swing_low. rewrite forallb_forall. split.
  - intros H j J. assert (I : In j (seq 1 lookback)) by (apply in_seq; lia).
    specialize (H j I). apply negb_true_iff, orb_false_iff in H.
    destruct H as [H1 H2]. apply Qle_bool_false_iff in H1, H2. auto.
  - intros H j I. apply in_seq in I. destruct (H j) as [H1 H2]; [lia|].
    apply negb_true_iff, orb_false_iff.
    split; apply Qle_bool_false_iff; assumption.
Qed.

Lemma detect_swings_in (d : SupportResistance.Detector) (candles : list Candle)
  (s : SupportResistance.Swing) :
  In s (SupportResistance.detect_swings d candles) <->
  (SupportResistance.lookback d <= SupportResistance.sw_index s)%nat
  /\ (SupportResistance.sw_index s + SupportResistance.lookback d
      < length candles)%nat
  /\ match SupportResistance.sw_type s with
     | SupportResistance.High =>
         SupportResistance.sw_price s
         = SupportResistance.at_ (map c_high candles) (SupportResistance.sw_index s)
         /\ SupportResistance.is_swing_high (map c_high candles)
              (SupportResistance.lookback d) (SupportResistance.sw_index s) = true
     | SupportResistance.Low =>
         SupportResistance.sw_price s
         = SupportResistance.at_ (map c_low candles) (SupportResistance.sw_index s)
         /\ SupportResistance.is_swing_low (map c_low candles)
              (SupportResistance.lookback d) (SupportResistance.sw_index s) = true
     end.
Proof.
  unfold SupportResistance.detect_swings. rewrite in_flat_map. split.
  - intros (i & I & S). apply in_seq in I. apply in_app_or in S.
    destruct S as [S|S].
    + destruct (SupportResistance.is_swing_high _ _ i) eqn:H; [|destruct S].
      destruct S as [<-|[]]. cbn. repeat split; try lia. exact H.
    + destruct (SupportResistance.is_swing_low _ _ i) eqn:H; [|destruct S].
      destruct S as [<-|[]]. cbn. repeat split; try lia. exact H.
  - intros (L1 & L2 & M). exists (SupportResistance.sw_index s). split.
    + apply in_seq. lia.
    + destruct s as [price type index]. cbn in *. apply in_or_app.
      destruct type; destruct M as [-> H]; rewrite H; [left|right];
        left; reflexivity.
Qed.

(** X26: which swings [detect_swings] reports.  A swing high is reported
    at index [i] exactly when [i] has [lookback] candles on either side
    and the high at [i] is strictly above the highs of all of them; its
    price is that high.  Swing lows are the mirror image.  Equal highs
    (a plateau) therefore give no swing, and a list of at most
    [2 * lookback] candles gives none at all. *)
Theorem detect_swings_characterised (d : SupportResistance.Detector)
  (candles : list Candle) :
  let highs := SupportResistanceQueries.highs candles in
  let lows := SupportResistanceQueries.lows candles in
  let lookback := SupportResistance.lookback d in
  (forall s,
     In s (SupportResistance.detect_swings d candles) <->
     (lookback <= SupportResistance.sw_index s)%nat
     /\ (SupportResistance.sw_index s + lookback < length candles)%nat
     /\ match SupportResistance.sw_type s with
        | SupportResistance.High =>
            SupportResistance.sw_price s
            = nth (SupportResistance.sw_index s) highs 0
            /\ forall j, (1 <= j <= lookback)%nat ->
                 nth (SupportResistance.sw_index s - j) highs 0
                 < nth (SupportResistance.sw_index s) highs 0
                 /\ nth (SupportResistance.sw_index s + j) highs 0
                    < nth (SupportResistance.sw_index s) highs 0
        | SupportResistance.Low =>
            SupportResistance.sw_price s
            = nth (SupportResistance.sw_index s) lows 0
            /\ forall j, (1 <= j <= lookback)%nat ->
                 nth (SupportResistance.sw_index s) lows 0
                 < nth (SupportResistance.sw_index s - j) lows 0
                 /\ nth (SupportResistance.sw_index s) lows 0
                    < nth (SupportResistance.sw_index s + j) lows 0
        end)
  /\ ((length candles <= 2 * lookback)%nat ->
      SupportResistance.detect_swings d candles = []).
Proof.
  intros highs lows lookback. split.
  - intro s. rewrite detect_swings_in. fold lookback.
    destruct (SupportResistance.sw_type s).
    + rewrite is_swing_high_iff. reflexivity.
    + rewrite is_swing_low_iff. reflexivity.
  - intro L. unfold SupportResistance.detect_swings. fold lookback.
    replace (length candles - lookback - lookback)%nat with 0%nat by lia.
    reflexivity.
Qed.

Lemma detect_swings_characterised_witness :
  SupportResistance.detect_swings SupportResistance.default_detector
    (repeat (Sample.rising 99 101) 6) = [].
Proof.
  destruct (detect_swings_characterised SupportResistance.default_detector
              (repeat (Sample.rising 99 101) 6)) as [_ E].
  apply E. apply Nat.leb_le. reflexivity.
Defined.

Lemma insert_by_price_Forall (P : SupportResistance.Swing -> Prop)
  (s : SupportResistance.Swing) (l : list SupportResistance.Swing) :
  P s -> Forall P l -> Forall P (SupportResistance.insert_by_price s l).
Proof.
  intros Hs H. induction H as [|t rest Ht Hr IH]; cbn [SupportResistance.insert_by_price].
  - apply Forall_cons; [exact Hs | apply Forall_nil].
  - destruct (Qlt_bool _ _).
    + apply Forall_cons; [exact Hs|]. apply Forall_cons; assumption.
    + apply Forall_cons; assumption.
Qed.

Lemma insert_by_price_length (s : SupportResistance.Swing)
  (l : list SupportResistance.Swing) :
  length (SupportResistance.insert_by_price s l) = S (length l).
Proof.
  induction l as [|t rest IH]; cbn [SupportResistance.insert_by_price length];
    [reflexivity|].
  destruct (Qlt_bool _ _); cbn [length]; [reflexivity | rewrite IH; reflexivity].
Qed.

Lemma sort_by_price_keeps (P : SupportResistance.Swing -> Prop)
  (l : list SupportResistance.Swing) :
  Forall P l ->
  Forall P (SupportResistance.sort_by_price l)
  /\ length (SupportResistance.sort_by_price l) = length l.
Proof.
  unfold SupportResistance.sort_by_price.
  assert (G : forall acc, Forall P acc -> Forall P l ->
              Forall P (fold_left (fun acc s => SupportResistance.insert_by_price s acc) l acc)
              /\ length (fold_left (fun acc s => SupportResistance.insert_by_price s acc) l acc)
                 = (length l + length acc)%nat).
  { induction l as [|s rest IH]; intros acc Ha Hl; cbn [fold_left length].
    - split; [exact Ha | reflexivity].
    - apply Forall_cons_iff in Hl. destruct Hl as [Hs Hl].
      destruct (IH (SupportResistance.insert_by_price s acc)) as [F L].
      + apply insert_by_price_Forall; assumption.
      + exact Hl.
      + split; [exact F|]. rewrite L, insert_by_price_length. lia. }
  intro H. destruct (G [] (Forall_nil _) H) as [F L].
  split; [exact F|]. rewrite L. cbn [length]. lia.
Qed.

Lemma zone_of_cluster_within (lo hi : Q) (t : SupportResistance.swing_type)
  (cluster : list SupportResistance.Swing) :
  cluster <> [] ->
  Forall (fun s => lo <= SupportResistance.sw_price s
                   /\ SupportResistance.sw_price s <= hi) cluster ->
  SupportResistanceQueries.clustered_within lo hi
    (SupportResistance.zone_of_cluster t cluster).
Proof.
  intros N H. unfold SupportResistanceQueries.clustered_within,
    SupportResistance.zone_of_cluster.
  cbn [SupportResistance.z_touches SupportResistance.z_strength
       SupportResistance.z_price].
  split; [destruct cluster; [contradiction | cbn [length]; lia]|].
  split; [reflexivity|].
  apply mean_within.
  - destruct cluster; [contradiction | discriminate].
  - apply Forall_map. exact H.
Qed.

Lemma cluster_loop_within (lo hi tol : Q) (t : SupportResistance.swing_type)
  (rest : list SupportResistance.Swing) :
  let inside := fun s => lo <= SupportResistance.sw_price s
                         /\ SupportResistance.sw_price s <= hi in
  Forall inside rest ->
  forall anchor current_cluster clustered,
    current_cluster <> [] ->
    Forall inside current_cluster ->
    Forall (SupportResistanceQueries.clustered_within lo hi) clustered ->
    Forall (SupportResistanceQueries.clustered_within lo hi)
      (SupportResistance.cluster_loop tol t rest anchor current_cluster clustered)
    /\ list_sum (map SupportResistance.z_touches
                   (SupportResistance.cluster_loop tol t rest anchor
                      current_cluster clustered))
       = (list_sum (map SupportResistance.z_touches clustered)
          + length current_cluster + length rest)%nat.
Proof.
  intros inside H.
  induction H as [|swing rest Hs _ IH]; intros anchor cur clustered N Hc Hz;
    cbn [SupportResistance.cluster_loop].
  - split.
    + apply Forall_app. split; [exact Hz|].
      apply Forall_cons; [|apply Forall_nil].
      apply zone_of_cluster_within; assumption.
    + rewrite map_app, list_sum_app. cbn. lia.
  - destruct (Qle_bool _ _).
    + destruct (IH anchor (cur ++ [swing]) clustered) as [F S].
      * destruct cur; discriminate.
      * apply Forall_app. split; [exact Hc|].
        apply Forall_cons; [exact Hs | apply Forall_nil].
      * exact Hz.
      * split; [exact F|]. rewrite S, length_app. cbn [length]. lia.
    + destruct (IH swing [swing]
                  (clustered ++ [SupportResistance.zone_of_cluster t cur]))
        as [F S].
      * discriminate.
      * apply Forall_cons; [exact Hs | apply Forall_nil].
      * apply Forall_app. split; [exact Hz|].
        apply Forall_cons; [|apply Forall_nil].
        apply zone_of_cluster_within; assumption.
      * split; [exact F|]. rewrite S, map_app, list_sum_app. cbn. lia.
Qed.

Lemma cluster_one_type_within (lo hi tol : Q) (t : SupportResistance.swing_type)
  (swing_list : list SupportResistance.Swing) :
  Forall (fun s => lo <= SupportResistance.sw_price s
                   /\ SupportResistance.sw_price s <= hi) swing_list ->
  Forall (SupportResistanceQueries.clustered_within lo hi)
    (SupportResistance.cluster_one_type tol t swing_list)
  /\ list_sum (map SupportResistance.z_touches
                 (SupportResistance.cluster_one_type tol t swing_list))
     = length swing_list.
Proof.
  intro H. unfold SupportResistance.cluster_one_type.
  destruct (sort_by_price_keeps _ swing_list H) as [F L].
  destruct (SupportResistance.sort_by_price swing_list) as [|first rest].
  - split; [apply Forall_nil|]. rewrite <- L. reflexivity.
  - apply Forall_cons_iff in F. destruct F as [F1 F].
    destruct (cluster_loop_within lo hi tol t rest F first [first] [])
      as [G S].
    + discriminate.
    + apply Forall_cons; [exact F1 | apply Forall_nil].
    + apply Forall_nil.
    + split; [exact G|]. rewrite S, <- L. cbn. lia.
Qed.

Lemma list_sum_filter_le (f : SupportResistance.Zone -> bool)
  (zs : list SupportResistance.Zone) :
  (list_sum (map SupportResistance.z_touches (filter f zs))
   <= list_sum (map SupportResistance.z_touches zs))%nat.
Proof.
  unfold list_sum.
  induction zs as [|z rest IH]; cbn [filter map fold_right]; [lia|].
  destruct (f z); cbn [map fold_right]; lia.
Qed.

Lemma highs_and_lows (swings : list SupportResistance.Swing) :
  (length (filter (fun s => SupportResistance.swing_type_eqb
                              (SupportResistance.sw_type s) SupportResistance.High)
             swings)
   + length (filter (fun s => SupportResistance.swing_type_eqb
                                (SupportResistance.sw_type s) SupportResistance.Low)
               swings))%nat
  = length swings.
Proof.
  induction swings as [|s rest IH]; [reflexivity|].
  cbn [filter]. destruct (SupportResistance.sw_type s); cbn; lia.
Qed.

Lemma strength_of_touches (n : nat) :
  (1 <= n)%nat ->
  0 < Qmin 1 (inject_Z (Z.of_nat n) / 5)
  /\ Qmin 1 (inject_Z (Z.of_nat n) / 5) <= 1.
Proof.
  intro H. split; [|apply Q.le_min_l].
  assert (P : 1 <= inject_Z (Z.of_nat n)).
  { change 1 with (inject_Z 1). rewrite <- Zle_Qle. lia. }
  set (x := inject_Z (Z.of_nat n)) in *. clearbody x.
  apply Q.min_glb_lt; [reflexivity|].
  apply Qlt_shift_div_l; [reflexivity|]. lra.
Qed.

Lemma cluster_zones_within (d : SupportResistance.Detector)
  (swings : list SupportResistance.Swing) (lo hi : Q) :
  Forall (fun s => lo <= SupportResistance.sw_price s
                   /\ SupportResistance.sw_price s <= hi) swings ->
  Forall (fun z => SupportResistanceQueries.clustered_within lo hi z
                   /\ (SupportResistance.min_touches d
                       <= SupportResistance.z_touches z)%nat)
    (SupportResistance.cluster_zones d swings)
  /\ (list_sum (map SupportResistance.z_touches
                  (SupportResistance.cluster_zones d swings))
      <= length swings)%nat.
Proof.
  intro H. unfold SupportResistance.cluster_zones.
  destruct swings as [|s0 rest0] eqn:Sw.
  { split; [apply Forall_nil | cbn; lia]. }
  rewrite <- Sw in *. clear Sw s0 rest0.
  set (hs := filter _ swings). set (ls := filter _ swings).
  assert (Hh : Forall (fun s => lo <= SupportResistance.sw_price s
                                /\ SupportResistance.sw_price s <= hi) hs).
  { rewrite Forall_forall in *. intros s I. apply filter_In in I.
    apply H, I. }
  assert (Hl : Forall (fun s => lo <= SupportResistance.sw_price s
                                /\ SupportResistance.sw_price s <= hi) ls).
  { rewrite Forall_forall in *. intros s I. apply filter_In in I.
    apply H, I. }
  destruct (cluster_one_type_within lo hi (SupportResistance.cluster_tolerance d)
              SupportResistance.High hs Hh) as [Fh Sh].
  destruct (cluster_one_type_within lo hi (SupportResistance.cluster_tolerance d)
              SupportResistance.Low ls Hl) as [Fl Sl].
  split.
  - rewrite Forall_forall. intros z I. apply filter_In in I.
    destruct I as [I M]. apply Nat.leb_le in M. split; [|exact M].
    apply in_app_or in I. rewrite Forall_forall in Fh, Fl.
    destruct I as [I|I]; [apply Fh | apply Fl]; exact I.
  - eapply Nat.le_trans; [apply list_sum_filter_le|].
    rewrite map_app, list_sum_app, Sh, Sl.
    unfold hs, ls. rewrite highs_and_lows. lia.
Qed.

Lemma some_bounds (xs : list Q) :
  exists lo hi, Forall (fun x => lo <= x /\ x <= hi) xs.
Proof.
  induction xs as [|x xs (lo & hi & F)].
  - exists 0, 0. apply Forall_nil.
  - exists (Qmin x lo), (Qmax x hi). apply Forall_cons.
    + split; [apply Q.le_min_l | apply Q.le_max_l].
    + apply (Forall_impl _ (P := fun y => lo <= y /\ y <= hi)); [|exact F].
      intros y [Y0 Y1]. split.
      * apply Qle_trans with lo; [apply Q.le_min_r | exact Y0].
      * apply Qle_trans with hi; [exact Y1 | apply Q.le_max_r].
Qed.

(** X27: what [cluster_zones] builds.  Every zone returned has at least
    [min_touches] touches and at least one, and the strength
    [min(1, touches / 5)], which lies in [(0, 1]]; the touches of the
    zones returned add up to at most the number of swings, so no swing
    is counted in two zones.  If every swing has a positive price, so
    has every zone. *)
Theorem cluster_zones_sound (d : SupportResistance.Detector)
  (swings : list SupportResistance.Swing) :
  Forall (fun z =>
            (SupportResistance.min_touches d <= SupportResistance.z_touches z)%nat
            /\ (1 <= SupportResistance.z_touches z)%nat
            /\ SupportResistance.z_strength z
               == Qmin 1 (inject_Z (Z.of_nat (SupportResistance.z_touches z)) / 5)
            /\ 0 < SupportResistance.z_strength z
            /\ SupportResistance.z_strength z <= 1)
    (SupportResistance.cluster_zones d swings)
  /\ (list_sum (map SupportResistance.z_touches
                  (SupportResistance.cluster_zones d swings))
      <= length swings)%nat
  /\ (Forall (fun s => 0 < SupportResistance.sw_price s) swings ->
      Forall (fun z => 0 < SupportResistance.z_price z)
        (SupportResistance.cluster_zones d swings)).
Proof.
  split; [|split].
  - destruct (some_bounds (map SupportResistance.sw_price swings))
      as (lo & hi & B).
    rewrite Forall_map in B.
    destruct (cluster_zones_within d swings lo hi B) as [F _].
    rewrite Forall_forall in *. intros z I.
    destruct (F z I) as [(T & E & _) M].
    destruct (strength_of_touches _ T) as [S0 S1].
    split; [exact M|]. split; [exact T|]. split; [exact E|].
    split; [rewrite E; exact S0 | rewrite E; exact S1].
  - destruct (some_bounds (map SupportResistance.sw_price swings))
      as (lo & hi & B).
    rewrite Forall_map in B.
    exact (proj2 (cluster_zones_within d swings lo hi B)).
  - intro P.
    assert (P' : Forall (fun x => 0 < x) (map SupportResistance.sw_price swings))
      by (rewrite Forall_map; exact P).
    destruct (positive_bounds _ P') as (lo & hi & L & B).
    rewrite Forall_map in B.
    destruct (cluster_zones_within d swings lo hi B) as [F _].
    rewrite Forall_forall in *. intros z I.
    destruct (F z I) as [(_ & _ & P0 & _) _]. lra.
Qed.

Lemma cluster_zones_sound_witness :
  let swings :=
    SupportResistance.detect_swings SupportResistance.default_detector
      Sample.two_peaks in
  Forall (fun z => 0 < SupportResistance.z_price z)
    (SupportResistance.cluster_zones SupportResistance.default_detector swings)
  /\ SupportResistance.cluster_zones SupportResistance.default_detector swings
     <> [].
Proof.
  intro swings. split.
  - destruct (cluster_zones_sound SupportResistance.default_detector swings)
      as (_ & _ & F).
    apply F. vm_compute. repeat (apply Forall_cons; [reflexivity|]).
    apply Forall_nil.
  - vm_compute. discriminate.
Defined.

Lemma nearest_loop_min (price : Q) (rest : list SupportResistance.Zone) :
  forall best,
    let z := SupportResistanceQueries.nearest_loop price best rest in
    In z (best :: rest)
    /\ forall z', In z' (best :: rest) ->
         Qabs (SupportResistance.z_price z - price)
         <= Qabs (SupportResistance.z_price z' - price).
Proof.
  induction rest as [|c rest IH]; intro best;
    cbn [SupportResistanceQueries.nearest_loop].
  - split; [left; reflexivity|]. intros z' [<-|[]]. apply Qle_refl.
  - destruct (Qlt_bool _ _) eqn:B.
    + apply Qlt_bool_iff in B. destruct (IH c) as [I M].
      split; [right; exact I|].
      intros z' [<-|I'].
      * apply Qle_trans with (Qabs (SupportResistance.z_price c - price));
          [apply M; left; reflexivity | apply Qlt_le_weak; exact B].
      * apply M. exact I'.
    + apply Qlt_bool_false_iff in B. destruct (IH best) as [I M].
      split.
      * destruct I as [<-|I]; [left; reflexivity | right; right; exact I].
      * intros z' [<-|[<-|I']].
        -- apply M. left. reflexivity.
        -- apply Qle_trans with (Qabs (SupportResistance.z_price best - price));
             [apply M; left; reflexivity | exact B].
        -- apply M. right. exact I'.
Qed.

(** X28: [find_nearest_zone] returns a nearest zone.  It returns [None]
    exactly when the detector holds no zone of the type asked for (no
    zone at all when no type is given).  Otherwise it describes one of
    those zones: price, type, strength and touches are that zone's, the
    distance is [|zone price - price|], and no zone of the type asked
    for lies closer to [price]. *)
Theorem find_nearest_zone_is_nearest (d : SupportResistance.Detector)
  (price : Q) (zone_type : option SupportResistance.swing_type) :
  let candidates := SupportResistanceQueries.filtered_zones d zone_type in
  (candidates = [] ->
   SupportResistanceQueries.find_nearest_zone d price zone_type = None)
  /\ (candidates <> [] ->
      exists z,
        In z candidates
        /\ In z (SupportResistance.zones d)
        /\ (forall t, zone_type = Some t -> SupportResistance.z_type z = t)
        /\ SupportResistanceQueries.find_nearest_zone d price zone_type
           = Some {| SupportResistanceQueries.n_price := SupportResistance.z_price z;
                     SupportResistanceQueries.n_distance :=
                       Qabs (SupportResistance.z_price z - price);
                     SupportResistanceQueries.n_type := SupportResistance.z_type z;
                     SupportResistanceQueries.n_strength :=
                       SupportResistance.z_strength z;
                     SupportResistanceQueries.n_touches :=
                       SupportResistance.z_touches z |}
        /\ forall z', In z' candidates ->
             Qabs (SupportResistance.z_price z - price)
             <= Qabs (SupportResistance.z_price z' - price)).
Proof.
  intro candidates.
  assert (Sub : forall z, In z candidates ->
                  In z (SupportResistance.zones d)
                  /\ forall t, zone_type = Some t -> SupportResistance.z_type z = t).
  { unfold candidates, SupportResistanceQueries.filtered_zones.
    intros z I. destruct zone_type as [t|].
    - apply filter_In in I. destruct I as [I E]. split; [exact I|].
      intros t' T. inversion T; subst t'.
      destruct (SupportResistance.z_type z); destruct t;
        try reflexivity; discriminate E.
    - split; [exact I|]. intros t T. discriminate T. }
  unfold SupportResistanceQueries.find_nearest_zone. fold candidates.
  split.
  - intros ->. destruct (SupportResistance.zones d); reflexivity.
  - intro N. destruct candidates as [|first rest] eqn:C; [contradiction|].
    destruct (nearest_loop_min price rest first) as [I M]. cbv zeta in I, M.
    exists (SupportResistanceQueries.nearest_loop price first rest).
    split; [exact I|]. destruct (Sub _ I) as [Iz Ty].
    split; [exact Iz|]. split; [exact Ty|]. split; [|exact M].
    destruct (SupportResistance.zones d); [destruct Iz | reflexivity].
Qed.

Lemma find_nearest_zone_is_nearest_witness :
  let d := fst (SupportResistance.run SupportResistance.default_detector
                  [Sample.two_peaks] []) in
  exists z,
    In z (SupportResistance.zones d)
    /\ SupportResistance.z_type z = SupportResistance.High
    /\ exists n,
         SupportResistanceQueries.find_nearest_zone d 14
           (Some SupportResistance.High) = Some n
         /\ SupportResistanceQueries.n_distance n
            = Qabs (SupportResistance.z_price z - 14).
Proof.
  intro d.
  destruct (find_nearest_zone_is_nearest d 14 (Some SupportResistance.High))
    as [_ S].
  destruct S as (z & _ & I & T & E & _).
  - vm_compute. discriminate.
  - exists z. split; [exact I|]. split; [apply T; reflexivity|].
    eexists. split; [exact E | reflexivity].
Defined.

(** ** Signal generation *)

Lemma nth_from_end_last {A : Type} (xs : list A) (x : A) :
  nth_from_end 1 xs = Some x -> exists older, xs = older ++ [x].
Proof.
  destruct xs as [|a l] using rev_ind; [discriminate|]. clear IHl.
  unfold nth_from_end. rewrite length_app. cbn [length].
  replace (Nat.leb 1 (length l + 1)) with true
    by (symmetry; apply Nat.leb_le; lia).
  replace (length l + 1 - 1)%nat with (length l) by lia.
  rewrite nth_error_app2 by lia. rewrite Nat.sub_diag. cbn [nth_error].
  intro E. inversion E; subst. exists l. reflexivity.
Qed.

Lemma last_n_snoc {A : Type} (n : nat) (xs : list A) (x : A) :
  exists ys, last_n n (xs ++ [x]) = ys ++ [x]
             /\ forall y, In y ys -> In y xs.
Proof.
  unfold last_n. destruct n as [|n].
  - exists xs. auto.
  - rewrite length_app. cbn [length].
    set (k := (length xs + 1 - S n)%nat).
    assert (K : (k <= length xs)%nat) by (unfold k; lia).
    exists (skipn k xs). split.
    + rewrite skipn_app. replace (k - length xs)%nat with 0%nat by lia.
      reflexivity.
    + intros y I. rewrite <- (firstn_skipn k xs). apply in_or_app. right.
      exact I.
Qed.

Lemma true_range_bounds (c : Candle) (close_prev : Q) :
  0 <= Breakout.true_range c close_prev
  /\ c_high c - c_low c <= Breakout.true_range c close_prev.
Proof.
  unfold Breakout.true_range. split.
  - apply Qle_trans with (Qabs (c_low c - close_prev));
      [apply Qabs_nonneg | apply Q.le_max_r].
  - apply Qle_trans with (Qmax (c_high c - c_low c) (Qabs (c_high c - close_prev)));
      apply Q.le_max_l.
Qed.

Lemma true_ranges_from_snoc (candles : list Candle) (c : Candle) :
  forall prev, exists close_prev,
    Breakout.true_ranges_from prev (candles ++ [c])
    = Breakout.true_ranges_from prev candles
      ++ [Breakout.true_range c close_prev].
Proof.
  induction candles as [|a rest IH]; intro prev.
  - cbn. eexists. reflexivity.
  - cbn [app Breakout.true_ranges_from]. destruct (IH (Some a)) as [cp ->].
    exists cp. reflexivity.
Qed.

Lemma true_ranges_from_nonneg (candles : list Candle) :
  forall prev, Forall (fun t => 0 <= t) (Breakout.true_ranges_from prev candles).
Proof.
  induction candles as [|a rest IH]; intro prev; cbn [Breakout.true_ranges_from].
  - apply Forall_nil.
  - apply Forall_cons; [apply true_range_bounds | apply IH].
Qed.

Lemma sum_from_nonneg (xs : list Q) :
  Forall (fun x => 0 <= x) xs -> forall a, a <= fold_left Qplus xs a.
Proof.
  induction 1 as [|x xs H _ IH]; intro a; cbn [fold_left]; [lra|].
  specialize (IH (a + x)). lra.
Qed.

Lemma atr_positive (candles : list Candle) (current : Candle) (period : nat)
  (atr : Q) :
  nth_from_end 1 candles = Some current ->
  c_low current < c_high current ->
  Breakout.calculate_atr candles period = Some atr ->
  0 < atr.
Proof.
  intros L R. unfold Breakout.calculate_atr.
  destruct (Nat.ltb (length candles) period); [discriminate|].
  intro E. inversion E as [E']. clear E E'.
  destruct (nth_from_end_last candles current L) as [older ->].
  unfold Breakout.true_ranges.
  destruct (true_ranges_from_snoc older current None) as [cp ->].
  destruct (last_n_snoc period (Breakout.true_ranges_from None older)
              (Breakout.true_range current cp)) as (ys & -> & Sub).
  assert (Hy : Forall (fun t => 0 <= t) ys).
  { rewrite Forall_forall. intros y I.
    pose proof (true_ranges_from_nonneg older None) as F.
    rewrite Forall_forall in F. apply F, Sub, I. }
  unfold mean, Py.sum. rewrite fold_left_app. cbn [fold_left].
  pose proof (sum_from_nonneg ys Hy 0) as S.
  destruct (true_range_bounds current cp) as [_ T].
  assert (P : 0 < inject_Z (Z.of_nat (length (ys ++ [Breakout.true_range current cp])))).
  { change 0 with (inject_Z 0). rewrite <- Zlt_Qlt, length_app.
    cbn [length]. lia. }
  apply Qlt_shift_div_l; [exact P|]. lra.
Qed.

Lemma min_list_le (xs : list Q) :
  forall x y, In y (x :: xs) -> min_list x xs <= y.
Proof.
  unfold min_list.
  assert (M : forall l a, fold_left Qmin l a <= a).
  { induction l as [|b l IH]; intro a; cbn [fold_left]; [apply Qle_refl|].
    apply Qle_trans with (Qmin a b); [apply IH | apply Q.le_min_l]. }
  induction xs as [|b xs IH]; intros x y I; cbn [fold_left].
  - destruct I as [<-|[]]. apply Qle_refl.
  - destruct I as [<-|[<-|I]].
    + apply Qle_trans with (Qmin x b); [apply M | apply Q.le_min_l].
    + apply Qle_trans with (Qmin x b); [apply M | apply Q.le_min_r].
    + apply IH. right. exact I.
Qed.

Lemma max_list_ge (xs : list Q) :
  forall x y, In y (x :: xs) -> y <= max_list x xs.
Proof.
  unfold max_list.
  assert (M : forall l a, a <= fold_left Qmax l a).
  { induction l as [|b l IH]; intro a; cbn [fold_left]; [apply Qle_refl|].
    apply Qle_trans with (Qmax a b); [apply Q.le_max_l | apply IH]. }
  induction xs as [|b xs IH]; intros x y I; cbn [fold_left].
  - destruct I as [<-|[]]. apply Qle_refl.
  - destruct I as [<-|[<-|I]].
    + apply Qle_trans with (Qmax x b); [apply Q.le_max_l | apply M].
    + apply Qle_trans with (Qmax x b); [apply Q.le_max_r | apply M].
    + apply IH. right. exact I.
Qed.

Lemma py_min_below (xs : list Q) :
  xs <> [] ->
  exists m, SignalGenerator.py_min xs = Ok m /\ forall y, In y xs -> m <= y.
Proof.
  intro N. destruct xs as [|x rest]; [contradiction|].
  eexists. split; [reflexivity|]. apply min_list_le.
Qed.

Lemma py_max_above (xs : list Q) :
  xs <> [] ->
  exists m, SignalGenerator.py_max xs = Ok m /\ forall y, In y xs -> y <= m.
Proof.
  intro N. destruct xs as [|x rest]; [contradiction|].
  eexists. split; [reflexivity|]. apply max_list_ge.
Qed.

Lemma breakout_fired (e : Breakout.BreakoutEngine) (candles : list Candle)
  (s : Breakout.BreakoutSignal) :
  Breakout.generate_breakout_signal e candles = Ok s ->
  Breakout.sig_signal s <> Breakout.NONE ->
  exists current,
    nth_from_end 1 candles = Some current
    /\ ~ c_high current == c_low current
    /\ (Breakout.sig_signal s = Breakout.LONG <-> c_open current < c_close current).
Proof.
  unfold Breakout.generate_breakout_signal.
  destruct (Nat.ltb (length candles) 20).
  { intros E N. inversion E; subst s. exfalso. apply N. reflexivity. }
  destruct (nth_from_end 1 candles) as [current|]; [|discriminate].
  destruct (Breakout.detect_atr_spike e candles) as [sp|x]; [|discriminate].
  cbn [bind].
  destruct (Breakout.validate_body_wick e current) as [bw|x] eqn:B;
    [|discriminate].
  cbn [bind].
  destruct (Breakout.compressed (Breakout.detect_compression e candles)
            && Breakout.spike sp && Breakout.valid bw) eqn:V; cbn [negb].
  2:{ intros E N. inversion E; subst s. exfalso. apply N. reflexivity. }
  apply andb_true_iff in V. destruct V as [_ Vb].
  destruct (body_wick_valid e current bw B Vb) as (N & _ & _ & _ & Up & _).
  destruct (pydiv (Breakout.ratio sp) (Breakout.atr_threshold e)) as [q|x];
    [|discriminate].
  cbn [bind]. intros E _. inversion E; subst s. cbn [Breakout.sig_signal].
  exists current. split; [reflexivity|]. split; [exact N|].
  rewrite <- Up. destruct (Breakout.bw_direction bw);
    split; intro H; try reflexivity; discriminate H.
Qed.

(** X29: the levels of an actionable signal.  Whenever
    [generate_signal] returns a signal other than NONE, for a latest M5
    candle with low at most high and a positive close, and target
    multipliers [0 < tp1 < tp2]: no skip reason is set and the strength
    has reached [min_signal_strength]; the entry is the middle of the
    latest candle; a LONG signal comes from a latest candle closing
    above its open, has its stop-loss below the low of each of the last
    20 candles and [stop_loss < entry < tp1 < tp2]; a SHORT signal has
    its stop-loss above the high of each of the last 20 candles and
    [tp2 < tp1 < entry < stop_loss].  In particular the stop never
    coincides with the entry. *)
Theorem actionable_signal_levels (g : SignalGenerator.SignalGenerator)
  (symbol : string) (m5_candles m15_candles h1_candles : list Candle)
  (spread : Q) (current : Candle) (res : SignalGenerator.SignalResult) :
  fst (SignalGenerator.generate_signal g symbol m5_candles m15_candles
         h1_candles spread) = Ok res ->
  SignalGenerator.direction res <> Breakout.NONE ->
  nth_from_end 1 m5_candles = Some current ->
  c_low current <= c_high current ->
  0 < c_close current ->
  0 < SignalGenerator.atr_multiplier_tp1 g ->
  SignalGenerator.atr_multiplier_tp1 g < SignalGenerator.atr_multiplier_tp2 g ->
  SignalGenerator.skip_reason res = None
  /\ SignalGenerator.min_signal_strength g <= SignalGenerator.signal_strength res
  /\ SignalGenerator.entry_price res = (c_high current + c_low current) / 2
  /\ (SignalGenerator.direction res = Breakout.LONG ->
      c_open current < c_close current
      /\ Forall (fun c => SignalGenerator.stop_loss res < c_low c)
           (last_n 20 m5_candles)
      /\ SignalGenerator.stop_loss res < SignalGenerator.entry_price res
      /\ SignalGenerator.entry_price res < SignalGenerator.tp1 res
      /\ SignalGenerator.tp1 res < SignalGenerator.tp2 res)
  /\ (SignalGenerator.direction res = Breakout.SHORT ->
      c_close current <= c_open current
      /\ Forall (fun c => c_high c < SignalGenerator.stop_loss res)
           (last_n 20 m5_candles)
      /\ SignalGenerator.tp2 res < SignalGenerator.tp1 res
      /\ SignalGenerator.tp1 res < SignalGenerator.entry_price res
      /\ SignalGenerator.entry_price res < SignalGenerator.stop_loss res).
Proof.
  intros E N L Hlh Hc M1 M2.
  unfold SignalGenerator.generate_signal in E. rewrite L in E.
  destruct m15_candles as [|m15 m15s].
  { cbn [fst] in E. inversion E; subst res. exfalso. apply N. reflexivity. }
  destruct (nth_from_end 1 h1_candles) as [h1|].
  2:{ cbn [fst] in E. inversion E; subst res. exfalso. apply N. reflexivity. }
  cbv zeta in E.
  destruct (Qlt_bool (SignalGenerator.max_spread_points g) spread).
  { cbn [fst] in E. inversion E; subst res. exfalso. apply N. reflexivity. }
  destruct (Trend.get_trend_confirmation _ _ _) as [trend_result|x];
    [|discriminate E].
  destruct (SupportResistanceQueries.get_zones _ _) as [d sr_zones].
  cbn [fst] in E. unfold SignalGenerator.evaluate in E.
  destruct (Breakout.generate_breakout_signal _ _) as [br|x] eqn:B;
    [|discriminate E].
  cbn [bind] in E.
  destruct (Sweep.detect_sweep _ _ _) as [sw|x]; [|discriminate E].
  cbn [bind] in E.
  destruct (PriceAction.calculate_confirmation_score _ _ _ _) as [pa|x];
    [|discriminate E].
  cbn [bind] in E.
  set (entry := (c_high current + c_low current) / 2) in *.
  set (final := mean _) in E.
  set (atr := match Breakout.calculate_atr m5_candles 14 with
              | Some a => a
              | None => Qabs (c_high current - c_low current)
              end) in E.
  assert (Fired : Breakout.sig_signal br <> Breakout.NONE).
  { intro Z. rewrite Z in E. inversion E; subst res. apply N. reflexivity. }
  destruct (breakout_fired _ _ _ B Fired) as (cur' & L' & Rng & Up).
  rewrite L in L'. inversion L'; subst cur'. clear L'.
  assert (R : c_low current < c_high current).
  { apply Qnot_le_lt. intro G. apply Rng. apply Qle_antisym; assumption. }
  assert (A : 0 < atr).
  { unfold atr. destruct (Breakout.calculate_atr m5_candles 14) as [a|] eqn:Ea.
    - exact (atr_positive m5_candles current 14 a L R Ea).
    - apply Qabs_case; intros; lra. }
  destruct (nth_from_end_last m5_candles current L) as [older Em5].
  destruct (last_n_snoc 20 older current) as (ys & Els & _).
  rewrite <- Em5 in Els.
  assert (He : entry == (c_high current + c_low current) * (1 # 2))
    by (unfold entry; field).
  assert (Hk : c_close current / 10000 == c_close current * (1 # 10000)) by field.
  clearbody atr final.
  destruct (Breakout.sig_signal br) eqn:S.
  - (* LONG *)
    destruct (py_min_below (map c_low (last_n 20 m5_candles))) as (low & El & Low).
    { rewrite Els, map_app. destruct (map c_low ys); discriminate. }
    rewrite El in E. cbn [bind] in E.
    destruct (Qlt_bool final (SignalGenerator.min_signal_strength g)) eqn:F;
      inversion E; subst res; cbn in N |- *.
    { exfalso. apply N. reflexivity. }
    apply Qlt_bool_false_iff in F.
    assert (Lc : low <= c_low current).
    { apply Low. rewrite Els, map_app. apply in_or_app. right. left.
      reflexivity. }
    split; [reflexivity|]. split; [exact F|]. split; [reflexivity|].
    split; [|intro Z; discriminate Z].
    intros _. split; [apply Up; reflexivity|].
    split.
    { rewrite Forall_forall. intros c I.
      assert (low <= c_low c) by (apply Low, in_map, I).
      rewrite Hk. lra. }
    fold entry. rewrite Hk.
    set (m1 := SignalGenerator.atr_multiplier_tp1 g) in *.
    set (m2 := SignalGenerator.atr_multiplier_tp2 g) in *.
    clearbody m1 m2.
    split; [lra|]. split; nra.
  - (* SHORT *)
    destruct (py_max_above (map c_high (last_n 20 m5_candles))) as (high & Eh & High).
    { rewrite Els, map_app. destruct (map c_high ys); discriminate. }
    rewrite Eh in E. cbn [bind] in E.
    destruct (Qlt_bool final (SignalGenerator.min_signal_strength g)) eqn:F;
      inversion E; subst res; cbn in N |- *.
    { exfalso. apply N. reflexivity. }
    apply Qlt_bool_false_iff in F.
    assert (Hc' : c_high current <= high).
    { apply High. rewrite Els, map_app. apply in_or_app. right. left.
      reflexivity. }
    split; [reflexivity|]. split; [exact F|]. split; [reflexivity|].
    split; [intro Z; discriminate Z|].
    intros _. split.
    { apply Qnot_lt_le. intro G. apply Up in G. discriminate G. }
    split.
    { rewrite Forall_forall. intros c I.
      assert (c_high c <= high) by (apply High, in_map, I).
      rewrite Hk. lra. }
    fold entry. rewrite Hk.
    set (m1 := SignalGenerator.atr_multiplier_tp1 g) in *.
    set (m2 := SignalGenerator.atr_multiplier_tp2 g) in *.
    clearbody m1 m2.
    split; [nra|]. split; [nra | lra].
  - exfalso. apply Fired. reflexivity.
Qed.

Lemma actionable_signal_levels_witness :
  exists res,
    fst (SignalGenerator.generate_signal SignalGenerator.__init__ "BTCUSDT"
           Rally.candles Rally.candles [Rally.quiet] 0) = Ok res
    /\ SignalGenerator.direction res = Breakout.LONG
    /\ SignalGenerator.stop_loss res < SignalGenerator.entry_price res
    /\ SignalGenerator.entry_price res < SignalGenerator.tp1 res
    /\ SignalGenerator.tp1 res < SignalGenerator.tp2 res.
Proof.
  assert (E : exists res,
             fst (SignalGenerator.generate_signal SignalGenerator.__init__
                    "BTCUSDT" Rally.candles Rally.candles [Rally.quiet] 0)
             = Ok res
             /\ SignalGenerator.direction res = Breakout.LONG).
  { vm_compute. eexists. split; reflexivity. }
  destruct E as (res & E & D).
  destruct (actionable_signal_levels SignalGenerator.__init__ "BTCUSDT"
              Rally.candles Rally.candles [Rally.quiet] 0 Rally.surge res E)
    as (_ & _ & _ & Long & _).
  - rewrite D. discriminate.
  - reflexivity.
  - vm_compute. discriminate.
  - reflexivity.
  - reflexivity.
  - reflexivity.
  - exists res. split; [exact E|]. split; [exact D|].
    destruct (Long D) as (_ & _ & A & B & C). auto.
Defined.

Lemma calculate_ema_latest_positive (closes : list Q) (period : positive)
  (ema : list Q) :
  Forall (fun c => 0 < c) closes ->
  Trend.calculate_ema closes period = Some ema ->
  Confirmation.latest_positive ema.
Proof.
  intros H E. pose proof (Pos2Nat.is_pos period) as Pp.
  destruct (positive_bounds closes H) as (lo & hi & L & F).
  unfold Trend.calculate_ema in E.
  destruct (Nat.ltb (length closes) (Pos.to_nat period)) eqn:Len;
    [discriminate E|].
  apply Nat.ltb_ge in Len. inversion E as [E']. clear E.
  set (m := 2 / (inject_Z (Z.pos period) + 1)) in *.
  set (seed := mean (firstn (Pos.to_nat period) closes)) in *.
  assert (Hseed : lo <= seed /\ seed <= hi).
  { apply mean_within.
    - intro N. apply (f_equal (@length Q)) in N.
      rewrite length_firstn in N. cbn [length] in N. lia.
    - rewrite Forall_forall in *. intros x I. apply F.
      rewrite <- (firstn_skipn (Pos.to_nat period) closes).
      apply in_or_app. left. exact I. }
  assert (Htail : Forall (fun x => lo <= x /\ x <= hi)
                    (seed :: Trend.ema_loop m seed
                               (skipn (Pos.to_nat period) closes))).
  { apply Forall_cons; [exact Hseed|].
    destruct (multiplier_in_unit period) as [M0 M1].
    apply ema_loop_within; try assumption.
    rewrite Forall_forall in *. intros x I. apply F.
    rewrite <- (firstn_skipn (Pos.to_nat period) closes).
    apply in_or_app. right. exact I. }
  unfold Confirmation.latest_positive. rewrite rev_app_distr.
  destruct (rev (seed :: Trend.ema_loop m seed (skipn (Pos.to_nat period) closes)))
    as [|e t] eqn:R.
  - apply (f_equal (@length Q)) in R. rewrite length_rev in R.
    cbn [length] in R. lia.
  - cbn [app]. rewrite Forall_forall in Htail.
    assert (I : In e (seed :: Trend.ema_loop m seed
                                (skipn (Pos.to_nat period) closes))).
    { apply in_rev. rewrite R. left. reflexivity. }
    destruct (Htail e I) as [E0 _]. lra.
Qed.

Lemma confirmation_score_returns (a : PriceAction.PriceActionAnalyzer)
  (candles : list Candle)
  (sr_zones : option (list SupportResistance.Zone)) (ema_values : option (list Q)) :
  Forall Sample.well_formed candles ->
  (forall ema, ema_values = Some ema -> Confirmation.latest_positive ema) ->
  (forall zs, sr_zones = Some zs -> Forall Confirmation.strength_nonneg zs) ->
  exists r,
    PriceAction.calculate_confirmation_score a candles sr_zones ema_values = Ok r
    /\ 0 <= PriceAction.confirmation_score r
    /\ PriceAction.confirmation_score r <= 1.
Proof.
  intros F He Hz.
  destruct (evaluated_patterns_spec candles sr_zones ema_values F He Hz)
    as (evaluated & E & N & U).
  unfold PriceAction.calculate_confirmation_score. rewrite E. cbn [bind].
  eexists. split; [reflexivity|].
  cbn [PriceAction.confirmation_score].
  destruct (confirmations_spec evaluated) as (C1 & _ & _). cbv zeta in C1.
  assert (L : (6 <= length evaluated)%nat).
  { rewrite <- (length_map fst), N. unfold Confirmation.applicable.
    rewrite length_app. cbn [length]. lia. }
  replace (Nat.max 1 (length evaluated)) with (length evaluated) by lia.
  rewrite C1. apply score_in_unit; [exact U | lia].
Qed.

Lemma detect_sweep_score (d : Sweep.LiquiditySweepDetector)
  (candles : list Candle) (sr_zones : list SupportResistance.Zone) :
  Forall Sweep.sweepable sr_zones ->
  exists res,
    Sweep.detect_sweep d candles sr_zones = Ok res
    /\ 0 <= Sweep.score res /\ Sweep.score res <= 1.
Proof.
  intro Hz. unfold Sweep.detect_sweep.
  destruct (rev candles) as [|current [|previous older]];
    try (exists Sweep.no_sweep; split; [reflexivity|];
         split; vm_compute; discriminate).
  destruct (sweep_loop_best d current previous sr_zones Hz None 0)
    as (b' & s' & E & Le & _).
  rewrite E. cbn [bind fst snd].
  destruct b' as [b|].
  - eexists. split; [reflexivity|]. cbn [Sweep.score].
    apply Qmin1_in_unit. exact Le.
  - exists Sweep.no_sweep. split; [reflexivity|]. split; vm_compute; discriminate.
Qed.

Lemma breakout_strength_in_unit (e : Breakout.BreakoutEngine)
  (candles : list Candle) :
  0 < Breakout.atr_threshold e ->
  Forall Sample.well_formed candles ->
  exists s,
    Breakout.generate_breakout_signal e candles = Ok s
    /\ 0 <= Breakout.sig_strength s /\ Breakout.sig_strength s <= 1.
Proof.
  intros Ht Wf. unfold Breakout.generate_breakout_signal.
  destruct (Nat.ltb (length candles) 20) eqn:L.
  { eexists. split; [reflexivity|]. split; vm_compute; discriminate. }
  apply Nat.ltb_ge in L.
  destruct (nth_from_end 1 candles) as [current|] eqn:C.
  2:{ exfalso. unfold nth_from_end in C.
      replace (Nat.leb 1 (length candles)) with true in C
        by (symmetry; apply Nat.leb_le; lia).
      apply nth_error_None in C. lia. }
  assert (Wc : Sample.well_formed current).
  { destruct (nth_from_end_last candles current C) as [older ->].
    rewrite Forall_forall in Wf. apply Wf, in_or_app. right. left. reflexivity. }
  destruct (detect_atr_spike_returns e candles) as [sp Sp]. rewrite Sp.
  cbn [bind].
  destruct (Breakout.validate_body_wick e current) as [bw|x] eqn:B.
  2:{ exfalso. unfold Breakout.validate_body_wick in B.
      destruct (Qeq_bool (c_high current - c_low current) 0) eqn:Z;
        [discriminate B|].
      apply Qeq_bool_false_iff in Z. rewrite !(pydiv_ok _ _ Z) in B.
      cbn [bind] in B.
      destruct (Qlt_bool (c_open current) (c_close current)); discriminate B. }
  cbn [bind].
  destruct (Breakout.compressed (Breakout.detect_compression e candles)
            && Breakout.spike sp && Breakout.valid bw) eqn:V; cbn [negb].
  2:{ eexists. split; [reflexivity|]. split; vm_compute; discriminate. }
  apply andb_true_iff in V. destruct V as [V Vb].
  apply andb_true_iff in V. destruct V as [_ Vs].
  destruct (atr_spike_fired e candles sp Sp Vs) as [_ R].
  destruct (body_wick_valid e current bw B Vb) as (N & BR & _).
  rewrite (pydiv_ok _ _ (pos_neq0 _ Ht)). cbn [bind].
  eexists. split; [reflexivity|]. cbn [Breakout.sig_strength].
  apply Qmin1_in_unit.
  assert (Q0 : 0 <= Breakout.ratio sp / Breakout.atr_threshold e).
  { apply Qdiv_nonneg; [lra | exact Ht]. }
  assert (B0 : 0 <= Breakout.body_ratio bw).
  { rewrite BR. apply Qdiv_nonneg; [apply Qabs_nonneg|].
    destruct Wc as (_ & W1 & W2 & W3 & W4).
    apply Qnot_le_lt. intro G. apply N. apply Qle_antisym; lra. }
  apply Qmult_le_0_compat; assumption.
Qed.

Lemma detect_swings_positive (d : SupportResistance.Detector)
  (candles : list Candle) :
  Forall Sample.well_formed candles ->
  Forall (fun s => 0 < SupportResistance.sw_price s)
    (SupportResistance.detect_swings d candles).
Proof.
  intro Wf. rewrite Forall_forall. intros s I.
  apply detect_swings_in in I. destruct I as (_ & L & M).
  rewrite Forall_forall in Wf.
  destruct (SupportResistance.sw_type s); destruct M as [-> _];
    unfold SupportResistance.at_.
  - assert (I : In (nth (SupportResistance.sw_index s) (map c_high candles) 0)
                  (map c_high candles)).
    { apply nth_In. rewrite length_map. lia. }
    apply in_map_iff in I. destruct I as (c & <- & I).
    apply well_formed_high_pos, Wf, I.
  - assert (I : In (nth (SupportResistance.sw_index s) (map c_low candles) 0)
                  (map c_low candles)).
    { apply nth_In. rewrite length_map. lia. }
    apply in_map_iff in I. destruct I as (c & <- & I).
    apply well_formed_low_pos, Wf, I.
Qed.

Lemma get_zones_sweepable (d : SupportResistance.Detector)
  (candles : list Candle) :
  Forall Sample.well_formed candles ->
  Forall Sweep.sweepable (SupportResistance.zones d) ->
  Forall Sweep.sweepable (snd (SupportResistanceQueries.get_zones d candles))
  /\ SupportResistance.zones (fst (SupportResistanceQueries.get_zones d candles))
     = snd (SupportResistanceQueries.get_zones d candles).
Proof.
  intros Wf Hz. unfold SupportResistanceQueries.get_zones.
  destruct candles as [|c0 rest] eqn:Ec; [split; [exact Hz | reflexivity]|].
  rewrite <- Ec in *. clear Ec c0 rest.
  unfold SupportResistance.update_zones.
  destruct (Nat.leb 100 _ || SupportResistance.no_zones d);
    cbn [fst snd SupportResistance.zones]; [|split; [exact Hz | reflexivity]].
  split; [|reflexivity].
  pose proof (detect_swings_positive d candles Wf) as P.
  assert (P' : Forall (fun x => 0 < x)
                 (map SupportResistance.sw_price
                    (SupportResistance.detect_swings d candles))).
  { apply Forall_map. exact P. }
  destruct (positive_bounds _ P') as (lo & hi & L & F).
  apply Forall_map in F.
  destruct (cluster_zones_within d _ lo hi F) as [G _].
  rewrite Forall_forall in *. intros z I.
  destruct (G z I) as [(T & E & P0 & P1) _].
  destruct (strength_of_touches _ T) as [S0 S1].
  unfold Sweep.sweepable. rewrite E. split; [lra|]. split; [lra | exact S1].
Qed.

Lemma sweepable_strength_nonneg (zs : list SupportResistance.Zone) :
  Forall Sweep.sweepable zs -> Forall Confirmation.strength_nonneg zs.
Proof.
  apply Forall_impl. intros z (_ & S & _). exact S.
Qed.

(** X30: [generate_signal] on well-formed data.  For M5 candles with
    positive prices whose highs and lows bracket open and close, a
    positive ATR threshold, and stored zones with a positive price and a
    strength in [[0, 1]] (as there are none at construction),
    [generate_signal] returns, the signal strength lies in [[0, 1]], the
    direction is NONE exactly when a skip reason is given, the reason is
    [insufficient_data] exactly when one of the three candle lists is
    empty, a spread above [max_spread_points] always gives NONE, and the
    zones stored afterwards again have a positive price and a strength
    in [[0, 1]], so that the same holds for every later call. *)
Theorem generate_signal_returns (g : SignalGenerator.SignalGenerator)
  (symbol : string) (m5_candles m15_candles h1_candles : list Candle)
  (spread : Q) :
  0 < Breakout.atr_threshold (SignalGenerator.breakout_engine g) ->
  Forall Sample.well_formed m5_candles ->
  Forall Sweep.sweepable
    (SupportResistance.zones (SignalGenerator.sr_detector g)) ->
  let out := SignalGenerator.generate_signal g symbol m5_candles m15_candles
               h1_candles spread in
  exists res,
    fst out = Ok res
    /\ 0 <= SignalGenerator.signal_strength res
    /\ SignalGenerator.signal_strength res <= 1
    /\ (SignalGenerator.direction res = Breakout.NONE <->
        SignalGenerator.skip_reason res <> None)
    /\ (SignalGenerator.skip_reason res = Some SignalGenerator.insufficient_data <->
        m5_candles = [] \/ m15_candles = [] \/ h1_candles = [])
    /\ (SignalGenerator.max_spread_points g < spread ->
        SignalGenerator.direction res = Breakout.NONE)
    /\ Forall Sweep.sweepable
         (SupportResistance.zones (SignalGenerator.sr_detector (snd out))).
Proof.
  intros Ht Wf Hz out. subst out. unfold SignalGenerator.generate_signal.
  assert (Empty : forall (xs : list Candle), nth_from_end 1 xs = None -> xs = []).
  { intros xs E. destruct xs as [|x xs]; [reflexivity|]. exfalso.
    unfold nth_from_end in E. cbn [length Nat.leb] in E.
    apply nth_error_None in E. cbn [length] in E. lia. }
  assert (Full : forall (xs : list Candle) x, nth_from_end 1 xs = Some x -> xs <> []).
  { intros xs x E N. subst xs. discriminate E. }
  destruct (nth_from_end 1 m5_candles) as [current|] eqn:L5.
  2:{ eexists. cbn [fst snd]. split; [reflexivity|]. cbn.
      split; [lra|]. split; [lra|]. split; [split; [discriminate | reflexivity]|].
      split; [split; [intros _; left; apply Empty; exact L5 | reflexivity]|].
      split; [reflexivity | exact Hz]. }
  destruct m15_candles as [|m15 m15s].
  { eexists. cbn [fst snd]. split; [reflexivity|]. cbn.
    split; [lra|]. split; [lra|]. split; [split; [discriminate | reflexivity]|].
    split; [split; [intros _; right; left; reflexivity | reflexivity]|].
    split; [reflexivity | exact Hz]. }
  destruct (nth_from_end 1 h1_candles) as [h1|] eqn:L1.
  2:{ eexists. cbn [fst snd]. split; [reflexivity|]. cbn.
      split; [lra|]. split; [lra|]. split; [split; [discriminate | reflexivity]|].
      split; [split; [intros _; right; right; apply Empty; exact L1
                     | reflexivity]|].
      split; [reflexivity | exact Hz]. }
  assert (NoneEmpty : ~ (m5_candles = [] \/ m15 :: m15s = [] \/ h1_candles = [])).
  { intros [N|[N|N]]; [exact (Full _ _ L5 N) | discriminate N
                       | exact (Full _ _ L1 N)]. }
  cbv zeta.
  destruct (Qlt_bool (SignalGenerator.max_spread_points g) spread) eqn:Sp.
  { eexists. cbn [fst snd]. split; [reflexivity|]. cbn.
    split; [lra|]. split; [lra|]. split; [split; [discriminate | reflexivity]|].
    split; [split; [discriminate | intro N; exfalso; exact (NoneEmpty N)]|].
    split; [reflexivity | exact Hz]. }
  apply Qlt_bool_false_iff in Sp.
  destruct (analyze_trend_returns (SignalGenerator.trend_analyzer g) (m15 :: m15s))
    as (t & Et & _).
  destruct (analyze_h1_bias_returns (SignalGenerator.trend_analyzer g) (Some h1))
    as (b & Eb & _).
  unfold Trend.get_trend_confirmation. rewrite Et, Eb. cbn [bind].
  set (trend_result := {| Trend.m15_trend := _ |}).
  destruct (get_zones_sweepable (SignalGenerator.sr_detector g) m5_candles Wf Hz)
    as [Zs Zd].
  destruct (SupportResistanceQueries.get_zones (SignalGenerator.sr_detector g)
              m5_candles) as [d sr_zones].
  cbn [fst snd] in Zs, Zd |- *.
  cbn [SignalGenerator.with_detector SignalGenerator.sr_detector].
  rewrite Zd.
  unfold SignalGenerator.evaluate.
  destruct (breakout_strength_in_unit (SignalGenerator.breakout_engine g)
              m5_candles Ht Wf) as (br & -> & B0 & B1).
  cbn [bind].
  destruct (detect_sweep_score (SignalGenerator.sweep_detector g) m5_candles
              sr_zones Zs) as (sw & -> & S0 & S1).
  cbn [bind].
  destruct (confirmation_score_returns (SignalGenerator.pa_analyzer g) m5_candles
              (Some sr_zones) (Trend.calculate_ema (map c_close m5_candles) 50))
    as (pa & -> & P0 & P1).
  { exact Wf. }
  { intros ema E.
    apply (calculate_ema_latest_positive (map c_close m5_candles) 50 ema);
      [|exact E].
    apply Forall_map.
    apply (Forall_impl _ (P := Sample.well_formed)); [|exact Wf].
    intros c (W0 & _ & W2 & _). lra. }
  { intros zs E. inversion E; subst zs. apply sweepable_strength_nonneg, Zs. }
  cbn [bind].
  set (final := mean _).
  assert (Fin : 0 <= final /\ final <= 1).
  { apply mean_within; [discriminate|].
    cbn [SignalGenerator.trend_strength SignalGenerator.breakout_score
         SignalGenerator.sweep_score SignalGenerator.pa_score].
    apply Forall_cons.
    { destruct (Trend.confirmed trend_result); split; vm_compute; discriminate. }
    repeat (apply Forall_cons; [split; assumption|]). apply Forall_nil. }
  clearbody final.
  destruct (nth_from_end_last m5_candles current L5) as [older Em5].
  destruct (last_n_snoc 20 older current) as (ys & Els & _).
  rewrite <- Em5 in Els.
  destruct (py_min_below (map c_low (last_n 20 m5_candles))) as (low & El & _).
  { rewrite Els, map_app. destruct (map c_low ys); discriminate. }
  destruct (py_max_above (map c_high (last_n 20 m5_candles))) as (high & Eh & _).
  { rewrite Els, map_app. destruct (map c_high ys); discriminate. }
  rewrite El, Eh. cbn [bind].
  destruct (Breakout.sig_signal br);
    try destruct (Qlt_bool final (SignalGenerator.min_signal_strength g));
    (eexists; split; [reflexivity|]);
    cbn [SignalGenerator.signal_strength SignalGenerator.direction
         SignalGenerator.skip_reason];
    (split; [lra|]); (split; [lra|]);
    (split; [split; intro H;
             first [ reflexivity | discriminate | discriminate H
                   | exfalso; apply H; reflexivity ]|]);
    (split; [split; [discriminate | intro N; exfalso; exact (NoneEmpty N)]|]);
    (split; [|exact Zs]); intro Wide; exfalso; lra.
Qed.

Lemma generate_signal_returns_witness :
  exists res,
    fst (SignalGenerator.generate_signal SignalGenerator.__init__ "BTCUSDT"
           Rally.candles Rally.candles [Rally.quiet] 100) = Ok res
    /\ SignalGenerator.direction res = Breakout.NONE
    /\ SignalGenerator.skip_reason res <> None.
Proof.
  destruct (generate_signal_returns SignalGenerator.__init__ "BTCUSDT"
              Rally.candles Rally.candles [Rally.quiet] 100)
    as (res & E & _ & _ & D & _ & W & _).
  - reflexivity.
  - unfold Rally.candles. apply Forall_app. split.
    + apply Forall_forall. intros c I. apply repeat_spec in I. subst c.
      unfold Sample.well_formed. repeat split; vm_compute; discriminate.
    + apply Forall_cons; [|apply Forall_nil].
      unfold Sample.well_formed. repeat split; vm_compute; discriminate.
  - apply Forall_nil.
  - exists res. split; [exact E|].
    assert (N : SignalGenerator.direction res = Breakout.NONE).
    { apply W. reflexivity. }
    split; [exact N | apply D; exact N].
Defined.
